(** * Platform synchronisation layer of the CP Journey tracker

    A shallow embedding of [platformAPI.js] (class [PlatformAPI]) and of the
    two counter-increment handlers of [script.js] ([addCSESProblem],
    [addProblem]), together with the properties stated for them.

    Conventions.
    - JavaScript integers are [Z].  All counters of the program stay far
      below 2^53, where doubles are exact; rounding is not modelled.
    - A JavaScript object used as a dictionary is a [gmap string _]; an
      object whose key order is observed ([Object.entries]) is an
      association list.
    - [undefined]/absent fields are [option] values.
    - The external libraries (axios, cheerio, [Date]) are not part of the
      program: their answers are inputs of the model, collected in the
      records [World.document] and [World.world].
    - A [throw] is a value of an error monad, an [async] function returns
      a settled promise, and [Promise.allSettled] is a relation over the
      orders in which the pending promises may settle. *)

From Stdlib Require Import ZArith Ascii String List Permutation Lia.
From stdpp Require Import base tactics option list gmap strings pretty.

Local Open Scope string_scope.
Local Open Scope Z_scope.

(** ** JavaScript built-ins used by the program *)

Module JS.

(** StrWhiteSpaceChar, ASCII part: TAB, LF, VT, FF, CR, SP. *)
Definition isWhiteSpace (c : ascii) : bool :=
  let n := nat_of_ascii c in
  (Nat.eqb n 9 || Nat.eqb n 10 || Nat.eqb n 11 || Nat.eqb n 12
   || Nat.eqb n 13 || Nat.eqb n 32)%bool.

Fixpoint trimStart (s : string) : string :=
  match s with
  | String c s' => if isWhiteSpace c then trimStart s' else s
  | EmptyString => EmptyString
  end.

Definition rev_string (s : string) : string :=
  string_of_list_ascii (rev (list_ascii_of_string s)).

Definition trimEnd (s : string) : string :=
  rev_string (trimStart (rev_string s)).

(** [String.prototype.trim]. *)
Definition trim (s : string) : string := trimEnd (trimStart s).

(** Value of a character as a digit of radix up to 36. *)
Definition digitValue (c : ascii) : option Z :=
  let n := Z.of_nat (nat_of_ascii c) in
  if (48 <=? n) && (n <=? 57) then Some (n - 48)
  else if (97 <=? n) && (n <=? 122) then Some (n - 87)
  else if (65 <=? n) && (n <=? 90) then Some (n - 55)
  else None.

(** Longest prefix of radix-[R] digits, as a number; [None] when the
    prefix is empty. *)
Fixpoint parseDigits (R : Z) (s : string) (acc : option Z) : option Z :=
  match s with
  | EmptyString => acc
  | String c s' =>
      match digitValue c with
      | Some d =>
          if d <? R
          then parseDigits R s' (Some (R * default 0 acc + d))
          else acc
      | None => acc
      end
  end.

(** [parseInt(string)] with no radix argument: leading white space, an
    optional sign, an optional [0x]/[0X] prefix, then digits.  [None] is
    [NaN]. *)
Definition parseInt (s : string) : option Z :=
  let s0 := trimStart s in
  let '(sign, s1) :=
    match s0 with
    | String "-" r => (-1, r)
    | String "+" r => (1, r)
    | _ => (1, s0)
    end in
  let '(R, s2) :=
    match s1 with
    | String "0" (String "x" r) => (16, r)
    | String "0" (String "X" r) => (16, r)
    | _ => (10, s1)
    end in
  match parseDigits R s2 None with
  | Some m => Some (sign * m)
  | None => None
  end.

(** [Array.prototype.includes] on an array of integers. *)
Fixpoint includes (ids : list Z) (id : Z) : bool :=
  match ids with
  | [] => false
  | x :: ids' => if x =? id then true else includes ids' id
  end.

(** Truthiness of a string: only the empty string is falsy. *)
Definition truthy (s : string) : bool :=
  match s with EmptyString => false | _ => true end.

(** A number-or-string value, as the rating fields hold. *)
Inductive value : Type :=
| Num (n : Z)
| Str (s : string).

(** [x || d] for an optional number: [undefined] and [0] are falsy. *)
Definition orElse (x : option Z) (d : value) : value :=
  match x with
  | Some n => if n =? 0 then d else Num n
  | None => d
  end.

(** Template-literal rendering of an optional number. *)
Definition show (x : option Z) : string :=
  match x with
  | Some n => pretty n
  | None => "undefined"
  end.

(** [String.prototype.toLowerCase], ASCII letters. *)
Definition lowerChar (c : ascii) : ascii :=
  let n := nat_of_ascii c in
  if (Nat.leb 65 n && Nat.leb n 90)%bool then ascii_of_nat (n + 32) else c.

Fixpoint toLowerCase (s : string) : string :=
  match s with
  | EmptyString => EmptyString
  | String c s' => String (lowerChar c) (toLowerCase s')
  end.

(** The character class [[a-z0-9]]. *)
Definition isLowerAlnum (c : ascii) : bool :=
  let n := nat_of_ascii c in
  ((Nat.leb 97 n && Nat.leb n 122) || (Nat.leb 48 n && Nat.leb n 57))%bool.

(** [s.replace(/[^a-z0-9]+/g, '-')]; [inRun] tells that the previous
    character already belonged to the run being replaced. *)
Fixpoint dashRuns (inRun : bool) (s : string) : string :=
  match s with
  | EmptyString => EmptyString
  | String c s' =>
      if isLowerAlnum c then String c (dashRuns false s')
      else if inRun then dashRuns true s'
      else String "-" (dashRuns true s')
  end.

Definition dropLeadingDash (s : string) : string :=
  match s with
  | String "-" s' => s'
  | _ => s
  end.

(** [s.replace(/(^-|-$)/g, '')]. *)
Definition stripEdgeDashes (s : string) : string :=
  rev_string (dropLeadingDash (rev_string (dropLeadingDash s))).

(** [s.split('/').pop()]: what follows the last slash. *)
Fixpoint lastSegmentFrom (acc s : string) : string :=
  match s with
  | EmptyString => acc
  | String "/" s' => lastSegmentFrom EmptyString s'
  | String c s' => lastSegmentFrom (acc ++ String c EmptyString) s'
  end.

Definition lastSegment (s : string) : string := lastSegmentFrom EmptyString s.

(** [/[a-z]/i.test(s)]. *)
Fixpoint hasLetter (s : string) : bool :=
  match s with
  | EmptyString => false
  | String c s' =>
      let n := nat_of_ascii (lowerChar c) in
      ((Nat.leb 97 n && Nat.leb n 122) || hasLetter s')%bool
  end.

(** [s.split(' ').length]: one more than the number of spaces. *)
Fixpoint splitSpaceLength (s : string) : Z :=
  match s with
  | EmptyString => 1
  | String " " s' => 1 + splitSpaceLength s'
  | String _ s' => splitSpaceLength s'
  end.

(** [s.length] (strings are taken to be ASCII). *)
Definition strlen (s : string) : Z := Z.of_nat (String.length s).

(** [parseInt(s) || 0]. *)
Definition parseIntOrZero (s : string) : Z := default 0 (parseInt s).

(** The property names every plain object inherits from
    [Object.prototype].  Reading one of them from an object that has no
    own property of that name gives a function, and for [__proto__] the
    prototype object. *)
Definition inheritedNames : list string :=
  [ "constructor"; "hasOwnProperty"; "isPrototypeOf"; "propertyIsEnumerable";
    "toLocaleString"; "toString"; "valueOf"; "__proto__";
    "__defineGetter__"; "__defineSetter__"; "__lookupGetter__";
    "__lookupSetter__" ].

End JS.

(** ** The classifier ([getCSESCategories], [categorizeCSESProblem]) *)

Module Classifier.

(** The entries of a classification table in [Object.entries] order. *)
Abbreviation table := (list (string * list Z)).

Definition getCSESCategories : table :=
  [ ("intro", [1068; 1083; 1069; 1094; 1070; 1071; 1072; 1617; 2165; 1618;
               1754; 1755; 1624; 1092; 1622; 1623; 1073; 1619; 2431]);
    ("sort", [1621; 1084; 1090; 1091; 1619; 1629; 1640; 1643; 1074; 1621;
              1629; 1640; 1643; 2162; 2183; 2168; 1642; 1645; 1074; 1141;
              1076; 1630; 1631; 1641; 1662; 1085; 1097; 1645; 1620; 2216;
              2217; 2428; 1632; 1628; 1642]);
    ("dp", [1633; 1634; 1635; 1636; 1637; 1638; 1158; 1746; 2413; 1639;
            2181; 2220; 1653; 2442; 1097; 2181; 2220; 1644; 1097]);
    ("graph", [1666; 1667; 1668; 1669; 1670; 1671; 1672; 1673; 1674; 1675;
               1676; 1677; 1678; 1679; 1680; 1681; 1682; 1683; 1684; 1685;
               1686; 1687; 1688; 1689; 1690; 1691; 1692; 1693; 1694; 1695;
               1696; 1697; 1698; 1699; 1700; 1701]);
    ("range", [1646; 1647; 1648; 1649; 1650; 1651; 1652; 1143; 1749; 2166;
               2206; 2401; 2416; 1734; 1749; 1190; 2416; 2206; 2401]);
    ("tree", [1674; 1130; 1131; 1132; 1133; 1134; 1135; 1136; 1137; 1138;
              1139; 1702; 2079; 1703; 2134; 1704]) ].

(** The [for ... of Object.entries(categories)] loop, after [parseInt]. *)
Fixpoint scan (id : Z) (categories : table) : option string :=
  match categories with
  | [] => None
  | (category, ids) :: rest =>
      if JS.includes ids id then Some category else scan id rest
  end.

(** [categorizeCSESProblem(problemId, categories)]; [None] is [null].
    When [parseInt] gives [NaN] no bucket of integers includes it. *)
Definition categorizeCSESProblem (problemId : string) (categories : table)
  : option string :=
  match JS.parseInt problemId with
  | Some id => scan id categories
  | None => None
  end.

End Classifier.

(** ** Exceptions and promises *)

Module Async.

(** A thrown value, as far as the program inspects it: every value thrown
    here is an [Error] (axios errors, [new Error(..)], [TypeError]), and
    the handlers read [error.message] only. *)
Record exn : Type := Error { message : string }.

(** A computation that returns or throws. *)
Definition M (A : Type) : Type := (exn + A)%type.

Definition ret {A : Type} (a : A) : M A := inr a.

Definition throw {A : Type} (e : exn) : M A := inl e.

Definition bind {A B : Type} (c : M A) (k : A -> M B) : M B :=
  match c with
  | inl e => inl e
  | inr a => k a
  end.

(** [try { body } catch (error) { handler error }]. *)
Definition try_catch {A : Type} (body : M A) (handler : exn -> M A) : M A :=
  match body with
  | inl e => handler e
  | inr a => inr a
  end.

(** [list.forEach(x => ...)] over a mutable state; a throwing callback
    leaves the loop. *)
Fixpoint forEach {A S : Type} (f : A -> S -> M S) (l : list A) (s : S) : M S :=
  match l with
  | [] => ret s
  | x :: l' => bind (f x s) (forEach f l')
  end.

(** The promise returned by an [async] function once it has settled. *)
Inductive settled (A : Type) : Type :=
| Fulfilled (a : A)
| Rejected (e : exn).

Arguments Fulfilled {A} a.
Arguments Rejected {A} e.

Definition async {A : Type} (body : M A) : settled A :=
  match body with
  | inr a => Fulfilled a
  | inl e => Rejected e
  end.

Definition TypeError (property : string) : exn :=
  Error ("Cannot read properties of undefined (reading '" ++ property ++ "')").

End Async.

Notation "x <- c ;; k" := (Async.bind c (fun x => k))
  (at level 100, c at next level, right associativity).

(** ** What the program sees of the outside world *)

Module World.

(** An [a[href*="/task/"]] element. *)
Record link : Type := { href : string; linkText : string }.

(** An [h2] element: its text and, for each following sibling up to the
    next [h2], the task links found below that sibling. *)
Record h2Element : Type := { h2Text : string; h2Siblings : list (list link) }.

(** A [tr.submission-row] of the VJudge submissions page: the texts of its
    [.status], [.problem-title] and [.timestamp] descendants. *)
Record submissionRow : Type :=
  { statusText : string; problemTitleText : string; timestampText : string }.

(** A loaded HTML document, as the answers to the selector queries the
    program makes on it. *)
Record document : Type := {
  (** per [.task-score.full] element, in document order: text and [href]
      of [.task-name a] inside the closest [tr] *)
  taskScoreFull : list (string * option string);
  (** the [h2] elements *)
  h2 : list h2Element;
  (** per element matched by [*:contains("Problems")]: its text and the
      number of task links below its parent *)
  containsProblems : list (string * Z);
  (** text of [#solved] and of [#submitted] *)
  solvedText : string;
  submittedText : string;
  (** per [.activity-cell]: text and [data-date] attribute *)
  activityCells : list (string * option string);
  (** the [tr.submission-row] elements *)
  submissionRows : list submissionRow
}.

(** Codeforces [user.info]. *)
Record userInfo : Type := { u_rating : option Z; u_maxRating : option Z }.

Record userInfoResponse : Type :=
  { ui_status : string; ui_result : list userInfo }.

(** Codeforces [user.status]. *)
Record problem : Type := {
  p_contestId : option Z;
  p_index : string;
  p_name : string;
  p_rating : option Z
}.

Record author : Type := { participantType : string }.

Record submission : Type := {
  s_contestId : option Z;
  s_creationTimeSeconds : Z;
  s_problem : option problem;
  s_author : option author;
  s_verdict : option string
}.

Record statusResponse : Type :=
  { us_status : string; us_result : list submission }.

(** The call sites of [new Date().toISOString()]. *)
Inductive site : Type :=
| SyncTime
| CsesLastUpdated
| CodeforcesLastUpdated
| VJudgeLastUpdated.

Record world : Type := {
  (** [axios.get(url)] on an HTML endpoint, then [cheerio.load] *)
  getPage : string -> Async.M document;
  (** [axios.get(url)] on the two JSON endpoints: [response.data] *)
  getUserInfo : string -> Async.M userInfoResponse;
  getUserStatus : string -> Async.M statusResponse;
  (** [new Date().toISOString()] as read at each call site *)
  now : site -> string;
  (** [new Date(ms).toDateString()], in the local time zone *)
  toDateString : Z -> string;
  (** [new Date(text).toDateString()] *)
  dateOfText : string -> string
}.

(** The world [w] read at other times: the sites answer as in [w] and the
    clock is [clock]. *)
Definition atClock (clock : site -> string) (w : world) : world :=
  {| getPage := getPage w;
     getUserInfo := getUserInfo w;
     getUserStatus := getUserStatus w;
     now := clock;
     toDateString := toDateString w;
     dateOfText := dateOfText w |}.

End World.

(** ** [platformAPI.js]: class [PlatformAPI] *)

Module PlatformAPI.

Import World.

Definition csesBaseUrl : string := "https://cses.fi".
Definition codeforcesBaseUrl : string := "https://codeforces.com/api".
Definition vjudgeBaseUrl : string := "https://vjudge.net/user".

(** The request targets, as the template literals build them. *)
Definition csesUserUrl (username : string) : string :=
  csesBaseUrl ++ "/user/" ++ username.

Definition userInfoUrl (username : string) : string :=
  codeforcesBaseUrl ++ "/user.info?handles=" ++ username.

Definition submissionsUrl (username : string) : string :=
  codeforcesBaseUrl ++ "/user.status?handle=" ++ username ++ "&from=1&count=10000".

Definition vjudgeUserUrl (username : string) : string :=
  vjudgeBaseUrl ++ "/" ++ username.

Definition vjudgeSubmissionsUrl (username : string) : string :=
  vjudgeBaseUrl ++ "/" ++ username ++ "/submissions".

(** *** Topic catalogue *)

Record problemLink : Type := { pl_title : string; pl_url : string }.

(** A value of the [description] field: a text, or what
    [descriptions[title]] gives when [title] is a name that [descriptions]
    inherits from [Object.prototype] (a function, or the prototype object
    for [__proto__]). *)
Inductive descriptionValue : Type :=
| Text (s : string)
| Inherited (name : string).

Record topic : Type := {
  title : string;
  slug : string;
  count : Z;
  problems : option (list problemLink);
  url : string;
  description : option descriptionValue
}.

Record topicsResult : Type := {
  t_success : bool;
  t_fromCache : option bool;
  t_error : option string;
  t_topics : list topic
}.

Definition topicsUrl : string := csesBaseUrl ++ "/problemset/".

Definition slugOf (title : string) : string :=
  JS.stripEdgeDashes (JS.dashRuns false (JS.toLowerCase title)).

Definition descriptions : list (string * string) :=
  [ ("Introductory Problems", "Basic programming problems to get started");
    ("Sorting and Searching", "Fundamental algorithms for sorting and searching");
    ("Dynamic Programming", "Optimization problems using DP techniques");
    ("Graph Algorithms", "Tree and graph traversal algorithms");
    ("Range Queries", "Efficient range query data structures");
    ("Tree Algorithms", "Advanced tree manipulation algorithms");
    ("Mathematics", "Number theory and mathematical problems");
    ("String Algorithms", "String processing and pattern matching");
    ("Geometry", "Computational geometry problems");
    ("Advanced Techniques", "Complex algorithmic techniques");
    ("Additional Problems", "Extra challenging problems") ].

Fixpoint lookupDescription (t : string) (l : list (string * string))
  : option string :=
  match l with
  | [] => None
  | (k, d) :: l' => if String.eqb k t then Some d else lookupDescription t l'
  end.

(** [getTopicDescription(title)]: [descriptions[title] || '...'].  The
    eleven own values and the inherited ones are truthy. *)
Definition getTopicDescription (t : string) : descriptionValue :=
  match lookupDescription t descriptions with
  | Some d => Text d
  | None =>
      if bool_decide (t ∈ JS.inheritedNames) then Inherited t
      else Text "Programming problems and algorithms"
  end.

(** The catalogue both fallback branches return. *)
Definition fallbackTopics : list topic :=
  map (fun e : string * string * Z * string =>
         let '(t, s, n, d) := e in
         {| title := t; slug := s; count := n; problems := None;
            url := topicsUrl; description := Some (Text d) |})
    [ ("Introductory Problems", "introductory-problems", 19,
       "Basic programming problems to get started");
      ("Sorting and Searching", "sorting-and-searching", 35,
       "Fundamental algorithms for sorting and searching");
      ("Dynamic Programming", "dynamic-programming", 19,
       "Optimization problems using DP techniques");
      ("Graph Algorithms", "graph-algorithms", 36,
       "Tree and graph traversal algorithms");
      ("Range Queries", "range-queries", 19,
       "Efficient range query data structures");
      ("Tree Algorithms", "tree-algorithms", 16,
       "Advanced tree manipulation algorithms");
      ("Mathematics", "mathematics", 31,
       "Number theory and mathematical problems");
      ("String Algorithms", "string-algorithms", 17,
       "String processing and pattern matching");
      ("Geometry", "geometry", 7, "Computational geometry problems");
      ("Advanced Techniques", "advanced-techniques", 24,
       "Complex algorithmic techniques");
      ("Additional Problems", "additional-problems", 77,
       "Extra challenging problems") ].

(** The links a sibling contributes to [problemLinks]. *)
Definition linksOf (ls : list link) : list problemLink :=
  flat_map (fun l : link =>
              let problemTitle := JS.trim (linkText l) in
              if (JS.truthy (href l) && JS.truthy problemTitle)%bool
              then [ {| pl_title := problemTitle;
                        pl_url := csesBaseUrl ++ href l |} ]
              else [])
           ls.

(** Method 1: the callback of [$('h2').each]. *)
Definition method1 (el : h2Element) : list topic :=
  let t := JS.trim (h2Text el) in
  if (negb (JS.truthy t) || (50 <? JS.strlen t))%bool then []
  else
    let n := fold_left (fun c ls => c + Z.of_nat (List.length ls))
                       (h2Siblings el) 0 in
    let problemLinks := flat_map linksOf (h2Siblings el) in
    if 0 <? n
    then [ {| title := t; slug := slugOf t; count := n;
              problems := Some (firstn 10 problemLinks);
              url := topicsUrl ++ "#" ++ slugOf t;
              description := None |} ]
    else [].

(** Method 2: the callback of [$('*:contains("Problems")').each]. *)
Definition method2 (el : string * Z) : list topic :=
  let '(text, taskLinks) := el in
  if (negb (JS.truthy text) || (JS.splitSpaceLength text <? 2)
      || (60 <? JS.strlen text))%bool then []
  else if 0 <? taskLinks
  then let t := JS.trim text in
       [ {| title := t; slug := slugOf t; count := taskLinks;
            problems := None;
            url := topicsUrl ++ "#" ++ slugOf t;
            description := None |} ]
  else [].

(** [topics.filter(t => ...)] with its [seen] set. *)
Fixpoint filterTopics (seen : gset string) (ts : list topic) : list topic :=
  match ts with
  | [] => []
  | t :: ts' =>
      let k := JS.toLowerCase (title t) in
      if (bool_decide (k ∈ seen) || (count t =? 0))%bool
      then filterTopics seen ts'
      else
        let rest := filterTopics ({[ k ]} ∪ seen) ts' in
        if (JS.hasLetter (title t) && (JS.strlen (title t) <? 60))%bool
        then t :: rest
        else rest
  end.

Definition parseTopics (doc : document) : list topic :=
  let topics1 := flat_map method1 (h2 doc) in
  let topics :=
    match topics1 with
    | [] => flat_map method2 (containsProblems doc)
    | _ => topics1
    end in
  filterTopics ∅ topics.

Definition withDescription (t : topic) : topic :=
  {| title := title t; slug := slug t; count := count t;
     problems := problems t; url := url t;
     description := Some (getTopicDescription (title t)) |}.

Definition fetchCSESTopics (w : world) : Async.settled topicsResult :=
  Async.async
    (Async.try_catch
       (doc <- getPage w topicsUrl ;;
        let filtered := parseTopics doc in
        match filtered with
        | [] =>
            Async.ret {| t_success := true; t_fromCache := Some true;
                         t_error := None; t_topics := fallbackTopics |}
        | _ =>
            Async.ret {| t_success := true; t_fromCache := None;
                         t_error := None;
                         t_topics := map withDescription filtered |}
        end)
       (fun error =>
          Async.ret {| t_success := true; t_fromCache := Some true;
                       t_error := Some (Async.message error);
                       t_topics := fallbackTopics |})).

(** *** CSES progress *)

Record solvedProblem : Type :=
  { sp_name : string; sp_id : string; sp_solved : bool }.

Record csesCategory : Type :=
  { solved : Z; total : Z; catProblems : list solvedProblem }.

Record csesResult : Type := {
  c_success : bool;
  c_error : option string;
  c_totalSolved : Z;
  c_categories : option (gmap string csesCategory);
  c_lastUpdated : option string
}.

(** The callback of [$('.task-score.full').each]. *)
Definition scrapeRow (row : string * option string) : list solvedProblem :=
  let taskName := JS.trim row.1 in
  match row.2 with
  | Some taskId =>
      if (JS.truthy taskName && JS.truthy taskId)%bool
      then [ {| sp_name := taskName; sp_id := JS.lastSegment taskId;
                sp_solved := true |} ]
      else []
  | None => []
  end.

Definition scrapeSolved (doc : document) : list solvedProblem :=
  flat_map scrapeRow (taskScoreFull doc).

Definition emptyCategories : gmap string csesCategory :=
  list_to_map
    [ ("intro", {| solved := 0; total := 19; catProblems := [] |});
      ("sort", {| solved := 0; total := 35; catProblems := [] |});
      ("dp", {| solved := 0; total := 19; catProblems := [] |});
      ("graph", {| solved := 0; total := 36; catProblems := [] |});
      ("range", {| solved := 0; total := 19; catProblems := [] |});
      ("tree", {| solved := 0; total := 16; catProblems := [] |}) ].

(** [this.categorizeCSESProblem(problem.id, problemCategories)] with the
    static table. *)
Definition classify (p : solvedProblem) : option string :=
  Classifier.categorizeCSESProblem (sp_id p) Classifier.getCSESCategories.

(** The callback of [solvedProblems.forEach]. *)
Definition tally (categories : gmap string csesCategory) (p : solvedProblem)
  : gmap string csesCategory :=
  match classify p with
  | Some category =>
      match JS.truthy category, categories !! category with
      | true, Some cat =>
          <[ category := {| solved := solved cat + 1; total := total cat;
                            catProblems := (catProblems cat ++ [p])%list |} ]>
            categories
      | _, _ => categories
      end
  | None => categories
  end.

Definition categorizeSolved (solvedProblems : list solvedProblem)
  : gmap string csesCategory :=
  fold_left tally solvedProblems emptyCategories.

Definition fetchCSESProgress (w : world) (username : string)
  : Async.settled csesResult :=
  Async.async
    (Async.try_catch
       (doc <- getPage w (csesUserUrl username) ;;
        let solvedProblems := scrapeSolved doc in
        Async.ret {| c_success := true; c_error := None;
                     c_totalSolved := Z.of_nat (List.length solvedProblems);
                     c_categories := Some (categorizeSolved solvedProblems);
                     c_lastUpdated := Some (now w CsesLastUpdated) |})
       (fun error =>
          Async.ret {| c_success := false;
                       c_error := Some (Async.message error);
                       c_totalSolved := 0; c_categories := None;
                       c_lastUpdated := None |})).

(** *** Codeforces progress *)

Record dailySolve : Type :=
  { key : string; name : string; rating : JS.value }.

Record codeforcesResult : Type := {
  cf_success : bool;
  cf_error : option string;
  cf_username : option string;
  cf_rating : JS.value;
  cf_maxRating : option JS.value;
  cf_problemsSolved : Z;
  cf_contests : Z;
  cf_dailySolves : option (gmap string (list dailySolve));
  cf_lastUpdated : option string
}.

(** [list.find(p => p.key === problemKey)] as a truth value. *)
Definition findKey (problemKey : string) (l : list dailySolve) : bool :=
  existsb (fun p => String.eqb (key p) problemKey) l.

(** [`${submission.problem.contestId}${submission.problem.index}`]. *)
Definition problemKey (pb : problem) : string :=
  JS.show (p_contestId pb) ++ p_index pb.

(** [new Date(submission.creationTimeSeconds * 1000).toDateString()]. *)
Definition solveDate (w : world) (s : submission) : string :=
  toDateString w (s_creationTimeSeconds s * 1000).

(** [key] occurs in the list stored under [date]. *)
Definition listed (dailySolves : gmap string (list dailySolve))
  (date k : string) : Prop :=
  exists l, dailySolves !! date = Some l /\ k ∈ key <$> l.

(** The callback of the first [submissions.forEach]. *)
Definition recordSolve (w : world) (s : submission)
  (st : gset string * gmap string (list dailySolve))
  : Async.M (gset string * gmap string (list dailySolve)) :=
  let '(solvedProblems, dailySolves) := st in
  if bool_decide (s_verdict s = Some "OK") then
    match s_problem s with
    | None => Async.throw (Async.TypeError "contestId")
    | Some pb =>
        let problemKey := problemKey pb in
        let solvedProblems := {[ problemKey ]} ∪ solvedProblems in
        let solveDate := solveDate w s in
        let today := default [] (dailySolves !! solveDate) in
        let today :=
          if findKey problemKey today then today
          else (today ++ [ {| key := problemKey; name := p_name pb;
                              rating := JS.orElse (p_rating pb) (JS.Str "Unrated") |} ])%list in
        Async.ret (solvedProblems, <[ solveDate := today ]> dailySolves)
    end
  else Async.ret st.

(** The callback of the second [submissions.forEach]. *)
Definition recordContest (s : submission) (contests : gset (option Z))
  : Async.M (gset (option Z)) :=
  match s_author s with
  | None => Async.throw (Async.TypeError "participantType")
  | Some a =>
      if String.eqb (participantType a) "CONTESTANT"
      then Async.ret ({[ s_contestId s ]} ∪ contests)
      else Async.ret contests
  end.

Definition fetchCodeforcesProgress (w : world) (username : string)
  : Async.settled codeforcesResult :=
  Async.async
    (Async.try_catch
       (userResponse <- getUserInfo w (userInfoUrl username) ;;
        if negb (String.eqb (ui_status userResponse) "OK")
        then Async.throw (Async.Error "User not found on Codeforces")
        else
        match ui_result userResponse with
        | [] => Async.throw (Async.TypeError "rating")
        | userInfo :: _ =>
            let rating := JS.orElse (u_rating userInfo) (JS.Str "Unrated") in
            let maxRating := JS.orElse (u_maxRating userInfo) rating in
            submissionsResponse <- getUserStatus w (submissionsUrl username) ;;
            if negb (String.eqb (us_status submissionsResponse) "OK")
            then Async.throw (Async.Error "Failed to fetch submissions")
            else
            let submissions := us_result submissionsResponse in
            st <- Async.forEach (recordSolve w) submissions (∅, ∅) ;;
            contests <- Async.forEach recordContest submissions ∅ ;;
            Async.ret {| cf_success := true; cf_error := None;
                         cf_username := Some username;
                         cf_rating := rating;
                         cf_maxRating := Some maxRating;
                         cf_problemsSolved := Z.of_nat (size st.1);
                         cf_contests := Z.of_nat (size contests);
                         cf_dailySolves := Some st.2;
                         cf_lastUpdated := Some (now w CodeforcesLastUpdated) |}
        end)
       (fun error =>
          Async.ret {| cf_success := false;
                       cf_error := Some (Async.message error);
                       cf_username := None;
                       cf_rating := JS.Str "Error";
                       cf_maxRating := None;
                       cf_problemsSolved := 0;
                       cf_contests := 0;
                       cf_dailySolves := None;
                       cf_lastUpdated := None |})).

(** *** VJudge progress *)

Record recentSolve : Type := { rs_problem : string; rs_timestamp : string }.

Record vjudgeResult : Type := {
  v_success : bool;
  v_error : option string;
  v_username : option string;
  v_totalSolved : Z;
  v_totalSubmitted : option Z;
  v_dailyActivity : option (gmap string Z);
  v_recentSolves : option (gmap string (list recentSolve));
  v_lastUpdated : option string
}.

(** [dailyActivity[date] = count] on the plain object [dailyActivity]:
    assigning a number to [__proto__] stores nothing. *)
Definition assign (date : string) (n : Z) (dailyActivity : gmap string Z)
  : gmap string Z :=
  if String.eqb date "__proto__" then dailyActivity
  else <[ date := n ]> dailyActivity.

(** The callback of [$('.activity-cell').each]. *)
Definition recordActivity (dailyActivity : gmap string Z)
  (cell : string * option string) : gmap string Z :=
  let n := JS.parseIntOrZero (JS.trim cell.1) in
  if 0 <? n then
    match cell.2 with
    | Some date => if JS.truthy date then assign date n dailyActivity
                   else dailyActivity
    | None => dailyActivity
    end
  else dailyActivity.

(** The callback of [$subs('tr.submission-row').each]. *)
Definition recordRecent (w : world) (recentSolves : gmap string (list recentSolve))
  (row : submissionRow) : gmap string (list recentSolve) :=
  if String.eqb (JS.trim (statusText row)) "Accepted" then
    let timeStr := JS.trim (timestampText row) in
    let date := dateOfText w timeStr in
    <[ date := (default [] (recentSolves !! date)
                ++ [ {| rs_problem := JS.trim (problemTitleText row);
                        rs_timestamp := timeStr |} ])%list ]> recentSolves
  else recentSolves.

Definition fetchVJudgeProgress (w : world) (username : string)
  : Async.settled vjudgeResult :=
  Async.async
    (Async.try_catch
       (doc <- getPage w (vjudgeUserUrl username) ;;
        let solvedCount := JS.parseIntOrZero (JS.trim (solvedText doc)) in
        let submittedCount := JS.parseIntOrZero (JS.trim (submittedText doc)) in
        let dailyActivity := fold_left recordActivity (activityCells doc) ∅ in
        subs <- getPage w (vjudgeSubmissionsUrl username) ;;
        let recentSolves := fold_left (recordRecent w) (submissionRows subs) ∅ in
        Async.ret {| v_success := true; v_error := None;
                     v_username := Some username;
                     v_totalSolved := solvedCount;
                     v_totalSubmitted := Some submittedCount;
                     v_dailyActivity := Some dailyActivity;
                     v_recentSolves := Some recentSolves;
                     v_lastUpdated := Some (now w VJudgeLastUpdated) |})
       (fun error =>
          Async.ret {| v_success := false;
                       v_error := Some (Async.message error);
                       v_username := None;
                       v_totalSolved := 0;
                       v_totalSubmitted := None;
                       v_dailyActivity := None;
                       v_recentSolves := None;
                       v_lastUpdated := None |})).

(** *** Combined sync *)

(** The argument of [syncAllPlatforms]: each handle may be absent. *)
Record usernames : Type := {
  cses : option string;
  codeforces : option string;
  vjudge : option string
}.

(** The [results] object; [None] is [null]. *)
Record syncResults : Type := {
  r_cses : option csesResult;
  r_codeforces : option codeforcesResult;
  r_vjudge : option vjudgeResult;
  r_syncTime : string
}.

(** An element of the [promises] array: a fetch in flight together with
    the [.then] callback that stores its result. *)
Inductive promise : Type :=
| CsesPromise (username : string)
| CodeforcesPromise (username : string)
| VJudgePromise (username : string).

(** [if (usernames.x) promises.push(..)]: absent and empty handles are
    falsy. *)
Definition requested (u : option string) (mk : string -> promise)
  : list promise :=
  match u with
  | Some s => if JS.truthy s then [mk s] else []
  | None => []
  end.

Definition promises (u : usernames) : list promise :=
  (requested (cses u) CsesPromise
   ++ requested (codeforces u) CodeforcesPromise
   ++ requested (vjudge u) VJudgePromise)%list.

Definition initialResults (w : world) : syncResults :=
  {| r_cses := None; r_codeforces := None; r_vjudge := None;
     r_syncTime := now w SyncTime |}.

(** One promise of the array settles: when the fetch fulfils, the [.then]
    callback assigns its field of [results]; when it rejects, the callback
    does not run. *)
Definition settle (w : world) (results : syncResults) (p : promise)
  : syncResults :=
  match p with
  | CsesPromise u =>
      match fetchCSESProgress w u with
      | Async.Fulfilled result =>
          {| r_cses := Some result; r_codeforces := r_codeforces results;
             r_vjudge := r_vjudge results; r_syncTime := r_syncTime results |}
      | Async.Rejected _ => results
      end
  | CodeforcesPromise u =>
      match fetchCodeforcesProgress w u with
      | Async.Fulfilled result =>
          {| r_cses := r_cses results; r_codeforces := Some result;
             r_vjudge := r_vjudge results; r_syncTime := r_syncTime results |}
      | Async.Rejected _ => results
      end
  | VJudgePromise u =>
      match fetchVJudgeProgress w u with
      | Async.Fulfilled result =>
          {| r_cses := r_cses results; r_codeforces := r_codeforces results;
             r_vjudge := Some result; r_syncTime := r_syncTime results |}
      | Async.Rejected _ => results
      end
  end.

(** [await Promise.allSettled(promises)]: the promises in flight settle
    one at a time in an order the event loop chooses, and the [await]
    resumes once none is left.  [allSettled pending r r'] says that from
    [results = r] with [pending] in flight, the [await] may resume with
    [results = r']. *)
Inductive allSettled (w : world) : list promise -> syncResults -> syncResults -> Prop :=
| allSettled_resume (r : syncResults) : allSettled w [] r r
| allSettled_settle (before after : list promise) (p : promise) (r r' : syncResults) :
    allSettled w (before ++ after) (settle w r p) r' ->
    allSettled w (before ++ p :: after) r r'.

(** [syncAllPlatforms(usernames)] may fulfil with [r]. *)
Definition syncAllPlatforms_returns (w : world) (u : usernames)
  (r : syncResults) : Prop :=
  allSettled w (promises u) (initialResults w) r.

(** What a caller passes as [usernames]: [null], [undefined], or a value
    whose properties can be read.  A number, a string or a boolean has none
    of the three properties and acts as the object without handles. *)
Inductive argument : Type :=
| Null
| Undefined
| Handles (u : usernames).

(** [usernames.cses] and the like: reading a property of [null] or
    [undefined] throws a [TypeError]. *)
Definition property (a : argument) (name : string)
  (field : usernames -> option string) : Async.M (option string) :=
  match a with
  | Handles u => Async.ret (field u)
  | Undefined => Async.throw (Async.TypeError name)
  | Null =>
      Async.throw
        (Async.Error ("Cannot read properties of null (reading '" ++ name ++ "')"))
  end.

(** [syncAllPlatforms(usernames)], in the run in which the promises settle
    in array order.  The three properties are read outside any [try]. *)
Definition syncAllPlatforms (w : world) (a : argument)
  : Async.settled syncResults :=
  Async.async
    (let results := initialResults w in
     cses <- property a "cses" cses ;;
     let promises := requested cses CsesPromise in
     codeforces <- property a "codeforces" codeforces ;;
     let promises := (promises ++ requested codeforces CodeforcesPromise)%list in
     vjudge <- property a "vjudge" vjudge ;;
     let promises := (promises ++ requested vjudge VJudgePromise)%list in
     Async.ret (fold_left (settle w) promises results)).

(** The fields of a result other than its time stamp. *)
Definition csesFields (r : csesResult) :=
  (c_success r, c_error r, c_totalSolved r, c_categories r).

Definition codeforcesFields (r : codeforcesResult) :=
  (cf_success r, cf_error r, cf_username r, cf_rating r, cf_maxRating r,
   cf_problemsSolved r, cf_contests r, cf_dailySolves r).

Definition vjudgeFields (r : vjudgeResult) :=
  (v_success r, v_error r, v_username r, v_totalSolved r, v_totalSubmitted r,
   v_dailyActivity r, v_recentSolves r).

Definition syncFields (r : syncResults) :=
  (csesFields <$> r_cses r, codeforcesFields <$> r_codeforces r,
   vjudgeFields <$> r_vjudge r).

(** The time stamps of [r] are the readings of [clock]: [syncTime] always,
    [lastUpdated] in the entries that report success; the others have
    none. *)
Definition stampedBy (clock : site -> string) (r : syncResults) : Prop :=
  r_syncTime r = clock SyncTime
  /\ (forall c, r_cses r = Some c ->
        c_lastUpdated c
        = if c_success c then Some (clock CsesLastUpdated) else None)
  /\ (forall c, r_codeforces r = Some c ->
        cf_lastUpdated c
        = if cf_success c then Some (clock CodeforcesLastUpdated) else None)
  /\ (forall c, r_vjudge r = Some c ->
        v_lastUpdated c
        = if v_success c then Some (clock VJudgeLastUpdated) else None).

End PlatformAPI.

(** ** [script.js]: the manual counters *)

Module CPJourney.

(** An entry of [this.data.cses] whose two counters are integers.  (The
    code takes the counters from stored JSON as they are; entries with
    other numbers are outside this record.) *)
Record category : Type := { solved : Z; total : Z }.

(** [addCSESProblem(category)], as a function of [this.data.cses]; the
    streak, persistence and display calls do not touch this map. *)
Definition addCSESProblem (c : string) (cses : gmap string category)
  : gmap string category :=
  match cses !! c with
  | Some cat =>
      if solved cat <? total cat
      then <[ c := {| solved := solved cat + 1; total := total cat |} ]> cses
      else cses
  | None => cses
  end.

(** The [n] first clicks of a sequence of clicks on "add problem". *)
Definition clicked (clicks : list string) (n : nat) (cses : gmap string category)
  : gmap string category :=
  fold_left (fun m c => addCSESProblem c m) (take n clicks) cses.

(** Every counter is within its category's size. *)
Definition bounded (cses : gmap string category) : Prop :=
  forall c cat, cses !! c = Some cat -> solved cat <= total cat.

End CPJourney.

Module CSESManager.

(** An entry of [this.categories] whose two counters are integers.  (The
    code takes [solved] from stored JSON as it is; entries with other
    values are outside this record.) *)
Record category : Type :=
  { name : string; total : Z; difficulty : string; solved : Z }.

(** [addProblem(category)], as a function of [this.categories]. *)
Definition addProblem (c : string) (categories : gmap string category)
  : gmap string category :=
  match categories !! c with
  | Some cat =>
      if solved cat <? total cat
      then <[ c := {| name := name cat; total := total cat;
                      difficulty := difficulty cat;
                      solved := solved cat + 1 |} ]> categories
      else categories
  | None => categories
  end.

Definition clicked (clicks : list string) (n : nat)
  (categories : gmap string category) : gmap string category :=
  fold_left (fun m c => addProblem c m) (take n clicks) categories.

Definition bounded (categories : gmap string category) : Prop :=
  forall c cat, categories !! c = Some cat -> solved cat <= total cat.

End CSESManager.

(** ** [Date.prototype.toDateString] in the time zone UTC

    Used to build concrete worlds. *)

Module UTC.

Definition dayNames : list string :=
  ["Sun"; "Mon"; "Tue"; "Wed"; "Thu"; "Fri"; "Sat"].

Definition monthNames : list string :=
  ["Jan"; "Feb"; "Mar"; "Apr"; "May"; "Jun";
   "Jul"; "Aug"; "Sep"; "Oct"; "Nov"; "Dec"].

Definition pad (width : nat) (n : Z) : string :=
  let s := pretty n in
  string_of_list_ascii (repeat "0"%char (width - String.length s)) ++ s.

(** Year, month (1-12) and day of the month of a day count from
    1970-01-01, in the proleptic Gregorian calendar. *)
Definition civil (days : Z) : Z * Z * Z :=
  let z := days + 719468 in
  let era := z / 146097 in
  let doe := z - era * 146097 in
  let yoe := (doe - doe / 1460 + doe / 36524 - doe / 146096) / 365 in
  let doy := doe - (365 * yoe + yoe / 4 - yoe / 100) in
  let mp := (5 * doy + 2) / 153 in
  let d := doy - (153 * mp + 2) / 5 + 1 in
  let m := if mp <? 10 then mp + 3 else mp - 9 in
  let y := yoe + era * 400 + (if m <=? 2 then 1 else 0) in
  (y, m, d).

Definition toDateString (ms : Z) : string :=
  let days := ms / 86400000 in
  let '(y, m, d) := civil days in
  nth (Z.to_nat ((days + 4) mod 7)) dayNames "" ++ " "
  ++ nth (Z.to_nat (m - 1)) monthNames "" ++ " "
  ++ pad 2 d ++ " " ++ pad 4 y.

End UTC.

(** ** [script.js]: cache, retry and rate limit of class [CPJourney] *)

Module ClientCache.

(** A value of [this.cache]: [{ data, timestamp }]. *)
Record cached (A : Type) : Type := { data : A; timestamp : Z }.

Arguments data {A} _.
Arguments timestamp {A} _.

(** [this.cacheExpiry], as [setupCaching] fills it. *)
Definition cacheExpiry : list (string * Z) :=
  [ ("cses-topics", 30 * 60 * 1000);
    ("user-data", 5 * 60 * 1000);
    ("platform-stats", 15 * 60 * 1000) ].

Fixpoint ownProperty (key : string) (o : list (string * Z)) : option Z :=
  match o with
  | [] => None
  | (k, v) :: o' => if String.eqb k key then Some v else ownProperty key o'
  end.

(** The names every object inherits from [Object.prototype]; looking one
    of them up in [this.cacheExpiry] gives a function or an object. *)
Definition inheritedNames : list string :=
  [ "constructor"; "hasOwnProperty"; "isPrototypeOf"; "propertyIsEnumerable";
    "toLocaleString"; "toString"; "valueOf"; "__proto__";
    "__defineGetter__"; "__defineSetter__"; "__lookupGetter__";
    "__lookupSetter__" ].

(** [this.cacheExpiry[key] || 10 * 60 * 1000] as the bound of the
    comparison: a number, or [None] when the operand is not a number and
    the comparison is false. *)
Definition expiryOf (key : string) : option Z :=
  match ownProperty key cacheExpiry with
  | Some limit => Some limit
  | None => if bool_decide (key ∈ inheritedNames) then None
            else Some (10 * 60 * 1000)
  end.

(** [getCachedData(key)] at time [now = Date.now()], as the returned value
    ([None] is [null]) and the cache it leaves. *)
Definition getCachedData {A : Type} (now : Z) (key : string)
  (cache : gmap string (cached A)) : option A * gmap string (cached A) :=
  match cache !! key with
  | Some c =>
      match expiryOf key with
      | Some limit =>
          if now - timestamp c <? limit then (Some (data c), cache)
          else (None, delete key cache)
      | None => (None, delete key cache)
      end
  | None => (None, delete key cache)
  end.

(** [setCachedData(key, data)] at time [now = Date.now()]. *)
Definition setCachedData {A : Type} (now : Z) (key : string) (d : A)
  (cache : gmap string (cached A)) : gmap string (cached A) :=
  <[ key := {| data := d; timestamp := now |} ]> cache.

End ClientCache.

Module FetchRetry.

(** What one call of [fetch] does: it resolves with a response, of which
    the code reads [ok] and [status], or rejects with an error, of which
    the code reads [name]. *)
Inductive outcome : Type :=
| Responds (ok : bool) (status : Z)
| Rejects (name message : string).

(** How [fetchWithRetry] ends: with the response, or by throwing. *)
Inductive result : Type :=
| Returned (status : Z)
| Threw (name message : string).

(** The error the [try] block of one attempt throws, if any: a response
    that is not [ok] becomes [new Error(`HTTP error! status: ...`)]. *)
Definition thrown (o : outcome) : option (string * string) :=
  match o with
  | Responds true _ => None
  | Responds false status =>
      Some ("Error", "HTTP error! status: " ++ pretty status)
  | Rejects name message => Some (name, message)
  end.

(** [fetchWithRetry(url, options, retries)].  [network i] is the outcome of
    the [i]-th call of [fetch]; [calls] counts the calls made before this
    invocation, and the second component those made after it. *)
Fixpoint fetchWithRetry (network : nat -> outcome) (calls : nat) (retries : nat)
  : result * nat :=
  match network calls with
  | Responds true status => (Returned status, S calls)
  | o =>
      let '(name, message) := default ("", "") (thrown o) in
      match retries with
      | S retries' =>
          if (String.eqb name "NetworkError" || String.eqb name "TypeError")%bool
          then fetchWithRetry network (S calls) retries'
          else (Threw name message, S calls)
      | O => (Threw name message, S calls)
      end
  end.

End FetchRetry.

Module RateLimit.

(** [checkRateLimit(endpoint)] at time [now = Date.now()] over
    [localStorage]: it throws, or returns [true] and stores the time. *)
Definition checkRateLimit (now : Z) (endpoint : string)
  (localStorage : gmap string string) : Async.M bool * gmap string string :=
  let key := "rate_limit_" ++ endpoint in
  let lastCall := localStorage !! key in
  let tooSoon :=
    match lastCall with
    | Some text =>
        (JS.truthy text
         && match JS.parseInt text with
            | Some last => now - last <? 1000
            | None => false
            end)%bool
    | None => false
    end in
  if tooSoon
  then (Async.throw
          (Async.Error "Too many requests. Please wait a moment and try again."),
        localStorage)
  else (Async.ret true, <[ key := pretty now ]> localStorage).

End RateLimit.

(** ** [script.js]: input checks of class [CPJourney]

    Strings are sequences of ASCII characters, as everywhere in this
    development: [\s] and [trim] see the six ASCII white-space characters,
    and the [i] flag folds the 26 letters. *)

Module Security.

(** The character class [\w]. *)
Definition isWordChar (c : ascii) : bool :=
  let n := nat_of_ascii c in
  ((Nat.leb 97 n && Nat.leb n 122) || (Nat.leb 65 n && Nat.leb n 90)
   || (Nat.leb 48 n && Nat.leb n 57) || Nat.eqb n 95)%bool.

(** [input.replace(/[<>]/g, '')]. *)
Fixpoint removeAngles (s : string) : string :=
  match s with
  | EmptyString => EmptyString
  | String c s' =>
      if (Ascii.eqb c "<" || Ascii.eqb c ">")%bool then removeAngles s'
      else String c (removeAngles s')
  end.

(** [s] starts with the lowercase text [pat], letter case ignored. *)
Fixpoint startsWithCI (pat s : string) : bool :=
  match pat, s with
  | EmptyString, _ => true
  | String p pat', String c s' =>
      (Ascii.eqb (JS.lowerChar c) p && startsWithCI pat' s')%bool
  | String _ _, EmptyString => false
  end.

(** [input.replace(/javascript:/gi, '')]: matches are found from left to
    right and do not overlap; [skip] is the number of characters of the
    current match still to be dropped. *)
Fixpoint removeJavascript (skip : nat) (s : string) : string :=
  match s with
  | EmptyString => EmptyString
  | String c s' =>
      match skip with
      | S k => removeJavascript k s'
      | O =>
          if startsWithCI "javascript:" s then removeJavascript 10 s'
          else String c (removeJavascript 0 s')
      end
  end.

Fixpoint spanLength (p : ascii -> bool) (s : string) : nat :=
  match s with
  | String c s' => if p c then S (spanLength p s') else O
  | EmptyString => O
  end.

Fixpoint dropChars (n : nat) (s : string) : string :=
  match n, s with
  | S k, String _ s' => dropChars k s'
  | _, _ => s
  end.

(** The length of the match of [/on\w+\s*=/i] at the start of [s], if
    there is one: [on], the whole run of word characters that follows
    (at least one), the whole run of white space after it, and [=]. *)
Definition handlerMatch (s : string) : option nat :=
  if startsWithCI "on" s then
    let afterOn := dropChars 2 s in
    let k := spanLength isWordChar afterOn in
    match k with
    | O => None
    | S _ =>
        let afterWord := dropChars k afterOn in
        let j := spanLength JS.isWhiteSpace afterWord in
        match dropChars j afterWord with
        | String "=" _ => Some (2 + k + j + 1)%nat
        | _ => None
        end
    end
  else None.

(** [input.replace(/on\w+\s*=/gi, '')]. *)
Fixpoint removeHandlers (skip : nat) (s : string) : string :=
  match s with
  | EmptyString => EmptyString
  | String c s' =>
      match skip with
      | S k => removeHandlers k s'
      | O =>
          match handlerMatch s with
          | Some n => removeHandlers (n - 1) s'
          | None => String c (removeHandlers 0 s')
          end
      end
  end.

(** [sanitizeInput(input)] on a string. *)
Definition sanitizeInput (input : string) : string :=
  JS.trim (removeHandlers 0 (removeJavascript 0 (removeAngles input))).

(** The character class [[a-zA-Z0-9_-]]. *)
Definition isUsernameChar (c : ascii) : bool :=
  (isWordChar c || Ascii.eqb c "-")%bool.

Fixpoint allChars (p : ascii -> bool) (s : string) : bool :=
  match s with
  | EmptyString => true
  | String c s' => (p c && allChars p s')%bool
  end.

(** [validateUsername(username)] on a string. *)
Definition validateUsername (username : string) : Async.M string :=
  if negb (JS.truthy username)
  then Async.throw (Async.Error "Username is required and must be a string")
  else
    let sanitized := sanitizeInput username in
    if ((JS.strlen sanitized <? 3) || (20 <? JS.strlen sanitized))%bool
    then Async.throw (Async.Error "Username must be between 3 and 20 characters")
    else if negb (JS.truthy sanitized && allChars isUsernameChar sanitized)
    then Async.throw
           (Async.Error
              "Username can only contain letters, numbers, underscores, and hyphens")
    else Async.ret sanitized.

End Security.

(** ** [script.js]: streak and totals of class [CPJourney] *)

Module Journey.

(** The fields of [this.data] that the counters use.  [lastActiveDate]
    holds the text [toDateString] gave on the day of the last activity; a
    calendar day (counted in the local time zone) stands for its text here:
    the text names the day, and [new Date(text).toDateString()] gives the
    text back.  A level of [usaco] that holds [NaN] is [None]. *)
Record data : Type := {
  currentStreak : Z;
  bestStreak : Z;
  lastActiveDate : option Z;
  cses : gmap string CPJourney.category;
  usaco : gmap string (option Z);
  codeforcesProblemsSolved : Z;
  codeforcesContests : Z;
  revisionProblems : Z;
  iupcProblemsSolved : Z;
  icpcGymProblems : Z
}.

Definition getDefaultData : data :=
  {| currentStreak := 0;
     bestStreak := 0;
     lastActiveDate := None;
     cses :=
       list_to_map
         [ ("intro", {| CPJourney.solved := 0; CPJourney.total := 19 |});
           ("sort", {| CPJourney.solved := 0; CPJourney.total := 35 |});
           ("dp", {| CPJourney.solved := 0; CPJourney.total := 19 |});
           ("graph", {| CPJourney.solved := 0; CPJourney.total := 36 |});
           ("range", {| CPJourney.solved := 0; CPJourney.total := 19 |});
           ("tree", {| CPJourney.solved := 0; CPJourney.total := 16 |}) ];
     usaco :=
       list_to_map
         [ ("bronze", Some 0); ("silver", Some 0); ("gold", Some 0);
           ("platinum", Some 0) ];
     codeforcesProblemsSolved := 0;
     codeforcesContests := 0;
     revisionProblems := 0;
     iupcProblemsSolved := 0;
     icpcGymProblems := 0 |}.

(** The three assignments at the end of [updateStreak]. *)
Definition setStreak (today current : Z) (d : data) : data :=
  {| currentStreak := current;
     bestStreak := Z.max (bestStreak d) current;
     lastActiveDate := Some today;
     cses := cses d; usaco := usaco d;
     codeforcesProblemsSolved := codeforcesProblemsSolved d;
     codeforcesContests := codeforcesContests d;
     revisionProblems := revisionProblems d;
     iupcProblemsSolved := iupcProblemsSolved d;
     icpcGymProblems := icpcGymProblems d |}.

(** [updateStreak()], called on the calendar day [today]. *)
Definition updateStreak (today : Z) (d : data) : data :=
  match lastActiveDate d with
  | None => setStreak today 1 d
  | Some lastActive =>
      if lastActive =? today then d
      else if lastActive =? today - 1 then setStreak today (currentStreak d + 1) d
      else setStreak today 1 d
  end.

Definition setCses (m : gmap string CPJourney.category) (d : data) : data :=
  {| currentStreak := currentStreak d; bestStreak := bestStreak d;
     lastActiveDate := lastActiveDate d;
     cses := m; usaco := usaco d;
     codeforcesProblemsSolved := codeforcesProblemsSolved d;
     codeforcesContests := codeforcesContests d;
     revisionProblems := revisionProblems d;
     iupcProblemsSolved := iupcProblemsSolved d;
     icpcGymProblems := icpcGymProblems d |}.

Definition setUsaco (m : gmap string (option Z)) (d : data) : data :=
  {| currentStreak := currentStreak d; bestStreak := bestStreak d;
     lastActiveDate := lastActiveDate d;
     cses := cses d; usaco := m;
     codeforcesProblemsSolved := codeforcesProblemsSolved d;
     codeforcesContests := codeforcesContests d;
     revisionProblems := revisionProblems d;
     iupcProblemsSolved := iupcProblemsSolved d;
     icpcGymProblems := icpcGymProblems d |}.

Definition setCodeforces (problemsSolved contests : Z) (d : data) : data :=
  {| currentStreak := currentStreak d; bestStreak := bestStreak d;
     lastActiveDate := lastActiveDate d;
     cses := cses d; usaco := usaco d;
     codeforcesProblemsSolved := problemsSolved;
     codeforcesContests := contests;
     revisionProblems := revisionProblems d;
     iupcProblemsSolved := iupcProblemsSolved d;
     icpcGymProblems := icpcGymProblems d |}.

(** [addCSESProblem(category)] on the whole of [this.data]. *)
Definition addCSESProblem (today : Z) (category : string) (d : data) : data :=
  match cses d !! category with
  | Some cat =>
      if CPJourney.solved cat <? CPJourney.total cat
      then updateStreak today
             (setCses (CPJourney.addCSESProblem category (cses d)) d)
      else d
  | None => d
  end.

(** [this.data.usaco[level]++]: a level that is missing, or holds [NaN],
    holds [NaN] afterwards; assigning a number to [__proto__] stores
    nothing. *)
Definition increment (level : string) (m : gmap string (option Z))
  : gmap string (option Z) :=
  match m !! level with
  | Some (Some n) => <[ level := Some (n + 1) ]> m
  | Some None => <[ level := None ]> m
  | None => if String.eqb level "__proto__" then m else <[ level := None ]> m
  end.

(** [addUSACOProblem(level)]. *)
Definition addUSACOProblem (today : Z) (level : string) (d : data) : data :=
  updateStreak today (setUsaco (increment level (usaco d)) d).

(** [addCodeforcesproblem()]. *)
Definition addCodeforcesproblem (today : Z) (d : data) : data :=
  updateStreak today
    (setCodeforces (codeforcesProblemsSolved d + 1) (codeforcesContests d) d).

(** [addContest()]. *)
Definition addContest (today : Z) (d : data) : data :=
  updateStreak today
    (setCodeforces (codeforcesProblemsSolved d) (codeforcesContests d + 1) d).

(** [x || 0] for a number that may be [NaN]. *)
Definition orZero (x : option Z) : Z :=
  match x with
  | Some n => if n =? 0 then 0 else n
  | None => 0
  end.

(** [getTotalProblemsolved()]. *)
Definition getTotalProblemsolved (d : data) : Z :=
  let total := 0 in
  let total :=
    map_fold (fun _ category total => total + orZero (Some (CPJourney.solved category)))
             total (cses d) in
  let total := map_fold (fun _ level total => total + orZero level) total (usaco d) in
  let total := total + codeforcesProblemsSolved d in
  let total := total + revisionProblems d in
  let total := total + orZero (Some (iupcProblemsSolved d)) in
  let total := total + orZero (Some (icpcGymProblems d)) in
  total.

(** A click on one of the buttons that [initializeEventListeners] wires to
    the four handlers. *)
Inductive click : Type :=
| CsesButton (category : string)
| UsacoButton (level : string)
| CodeforcesButton
| ContestButton.

Definition handle (today : Z) (c : click) (d : data) : data :=
  match c with
  | CsesButton category => addCSESProblem today category d
  | UsacoButton level => addUSACOProblem today level d
  | CodeforcesButton => addCodeforcesproblem today d
  | ContestButton => addContest today d
  end.

(** The clicks that store one more solved problem. *)
Definition counted (c : click) (d : data) : bool :=
  match c with
  | CsesButton category =>
      match cses d !! category with
      | Some cat => CPJourney.solved cat <? CPJourney.total cat
      | None => false
      end
  | UsacoButton level =>
      match usaco d !! level with
      | Some (Some _) => true
      | _ => false
      end
  | CodeforcesButton => true
  | ContestButton => false
  end.

(** [updateStreak] called once on each day of [days], in this order. *)
Definition active (days : list Z) (d : data) : data :=
  fold_left (fun d today => updateStreak today d) days d.

End Journey.

(** ** [script.js]: persistence of class [CSESManager] *)

Module CSESProgress.

(** [this.categories] as the constructor sets it. *)
Definition categories : gmap string CSESManager.category :=
  list_to_map
    [ ("intro", {| CSESManager.name := "Introductory Problems"; CSESManager.total := 19;
                   CSESManager.difficulty := "beginner"; CSESManager.solved := 0 |});
      ("sort", {| CSESManager.name := "Sorting and Searching"; CSESManager.total := 35;
                  CSESManager.difficulty := "beginner"; CSESManager.solved := 0 |});
      ("dp", {| CSESManager.name := "Dynamic Programming"; CSESManager.total := 19;
                CSESManager.difficulty := "intermediate"; CSESManager.solved := 0 |});
      ("graph", {| CSESManager.name := "Graph Algorithms"; CSESManager.total := 36;
                   CSESManager.difficulty := "intermediate"; CSESManager.solved := 0 |});
      ("math", {| CSESManager.name := "Mathematics"; CSESManager.total := 31;
                  CSESManager.difficulty := "intermediate"; CSESManager.solved := 0 |});
      ("range", {| CSESManager.name := "Range Queries"; CSESManager.total := 19;
                   CSESManager.difficulty := "advanced"; CSESManager.solved := 0 |});
      ("tree", {| CSESManager.name := "Tree Algorithms"; CSESManager.total := 16;
                  CSESManager.difficulty := "advanced"; CSESManager.solved := 0 |});
      ("geometry", {| CSESManager.name := "Geometry"; CSESManager.total := 7;
                      CSESManager.difficulty := "advanced"; CSESManager.solved := 0 |});
      ("string", {| CSESManager.name := "String Algorithms"; CSESManager.total := 17;
                    CSESManager.difficulty := "advanced"; CSESManager.solved := 0 |}) ].

(** The item [cses-progress] of [localStorage] when it is absent ([None])
    or holds the JSON text of an object whose values are integers, as
    [saveProgress] writes it ([Some] of that object).  Other items (text
    that is not JSON, [null], an array, values that are not integers) are
    outside this type. *)
Definition storage : Type := option (gmap string Z).

(** [loadProgress()]. *)
Definition loadProgress (saved : storage)
  (cats : gmap string CSESManager.category) : gmap string CSESManager.category :=
  match saved with
  | Some progress =>
      map_imap
        (fun key cat =>
           Some match progress !! key with
                | Some n =>
                    {| CSESManager.name := CSESManager.name cat;
                       CSESManager.total := CSESManager.total cat;
                       CSESManager.difficulty := CSESManager.difficulty cat;
                       CSESManager.solved := n |}
                | None => cat
                end)
        cats
  | None => cats
  end.

(** The object that [saveProgress()] stores. *)
Definition saveProgress (cats : gmap string CSESManager.category)
  : gmap string Z :=
  CSESManager.solved <$> cats.

(** [new CSESManager()]: the counters after [init]. *)
Definition construct (saved : storage) : gmap string CSESManager.category :=
  loadProgress saved categories.

(** [addProblem(category)] on the counters and the stored item: the item
    is written only when a counter moved. *)
Definition addProblem (category : string)
  (st : gmap string CSESManager.category * storage)
  : gmap string CSESManager.category * storage :=
  match st.1 !! category with
  | Some cat =>
      if CSESManager.solved cat <? CSESManager.total cat
      then let cats := CSESManager.addProblem category st.1 in
           (cats, Some (saveProgress cats))
      else st
  | None => st
  end.

(** A page visit: the manager is built from the stored item, then the
    buttons are clicked. *)
Definition visit (saved : storage) (clicks : list string)
  : gmap string CSESManager.category * storage :=
  fold_left (fun st c => addProblem c st) clicks (construct saved, saved).

(** The counters have the keys, names, sizes and difficulties that the
    constructor gives. *)
Definition shaped (m : gmap string CSESManager.category) : Prop :=
  forall k,
    (fun c => (CSESManager.name c, CSESManager.total c, CSESManager.difficulty c))
      <$> m !! k
    = (fun c => (CSESManager.name c, CSESManager.total c, CSESManager.difficulty c))
        <$> categories !! k.

End CSESProgress.

(** ** The server: sync routes over the journey database *)

Module Server.

(** [journeyData.codeforces]; a field that the stored object lacks is
    [None]. *)
Record codeforcesData : Type := {
  rating : option JS.value;
  problemsSolved : option Z;
  contests : option Z
}.

(** [journeyData.cses]: the manual counters of the default data, or what
    a sync assigned. *)
Inductive csesData : Type :=
| Counters (m : gmap string CPJourney.category)
| Categories (c : option (gmap string PlatformAPI.csesCategory)).

(** [journeyData.platforms.cses], as [/api/sync/cses] or [/api/sync/all]
    writes it. *)
Inductive csesEntry : Type :=
| CsesSynced (username : string) (lastSync : option string) (totalSolved : Z)
| CsesSyncedAll (username : option string) (lastSync : option string)
    (success : bool) (error : option string).

Inductive codeforcesEntry : Type :=
| CodeforcesSynced (username : string) (lastSync : option string)
    (maxRating : option JS.value)
    (dailySolves : option (gmap string (list PlatformAPI.dailySolve)))
| CodeforcesSyncedAll (username : option string) (lastSync : option string)
    (success : bool) (error : option string) (maxRating : option JS.value)
    (dailySolves : option (gmap string (list PlatformAPI.dailySolve))).

Inductive vjudgeEntry : Type :=
| VJudgeSynced (username : string) (lastSync : option string)
    (totalSolved : Z) (totalSubmitted : option Z)
    (dailyActivity : option (gmap string Z))
    (recentSolves : option (gmap string (list PlatformAPI.recentSolve)))
| VJudgeSyncedAll (username : option string) (lastSync : option string)
    (success : bool) (error : option string) (totalSolved : Z)
    (dailyActivity : option (gmap string Z)).

Record platforms : Type := {
  p_cses : option csesEntry;
  p_codeforces : option codeforcesEntry;
  p_vjudge : option vjudgeEntry
}.

(** The fields of the journey database that the sync routes use. *)
Record journeyData : Type := {
  j_cses : csesData;
  j_codeforces : option codeforcesData;
  j_platforms : option platforms;
  j_lastActiveDate : option string;
  j_lastAutoSync : option string;
  j_lastUpdated : option string
}.

(** [x || null] for an optional string. *)
Definition orNull (x : option string) : option string :=
  match x with
  | Some s => if JS.truthy s then Some s else None
  | None => None
  end.

(** [journeyData.platforms || {}]. *)
Definition platformsOrEmpty (p : option platforms) : platforms :=
  default {| p_cses := None; p_codeforces := None; p_vjudge := None |} p.

(** [writeDatabase(data)] on the database file; [disk] tells whether the
    write goes through, [stamp] is the clock. *)
Definition writeDatabase (stamp : string) (disk : bool)
  (file : option journeyData) (data : journeyData) : option journeyData :=
  if disk
  then Some {| j_cses := j_cses data; j_codeforces := j_codeforces data;
               j_platforms := j_platforms data;
               j_lastActiveDate := j_lastActiveDate data;
               j_lastAutoSync := j_lastAutoSync data;
               j_lastUpdated := Some stamp |}
  else file.

(** The three assignments to [journeyData.codeforces]. *)
Definition assignCodeforces (res : PlatformAPI.codeforcesResult)
  (cf : option codeforcesData) : Async.M (option codeforcesData) :=
  match cf with
  | Some _ =>
      Async.ret
        (Some {| rating := Some (PlatformAPI.cf_rating res);
                 problemsSolved := Some (PlatformAPI.cf_problemsSolved res);
                 contests := Some (PlatformAPI.cf_contests res) |})
  | None =>
      Async.throw
        (Async.Error "Cannot set properties of undefined (setting 'rating')")
  end.

(** [/api/sync/all]: the update of [journeyData] from [syncResults]. *)
Definition mergeAll (u : PlatformAPI.usernames) (r : PlatformAPI.syncResults)
  (j : journeyData) : Async.M journeyData :=
  let cses :=
    match PlatformAPI.r_cses r with
    | Some res =>
        if PlatformAPI.c_success res
        then Categories (PlatformAPI.c_categories res)
        else j_cses j
    | None => j_cses j
    end in
  codeforces <-
    match PlatformAPI.r_codeforces r with
    | Some res =>
        if PlatformAPI.cf_success res
        then assignCodeforces res (j_codeforces j)
        else Async.ret (j_codeforces j)
    | None => Async.ret (j_codeforces j)
    end ;;
  let p := platformsOrEmpty (j_platforms j) in
  let p_cses' :=
    match PlatformAPI.r_cses r with
    | Some res =>
        Some (CsesSyncedAll (PlatformAPI.cses u) (PlatformAPI.c_lastUpdated res)
                (PlatformAPI.c_success res) (orNull (PlatformAPI.c_error res)))
    | None => p_cses p
    end in
  let p_codeforces' :=
    match PlatformAPI.r_codeforces r with
    | Some res =>
        Some (CodeforcesSyncedAll (PlatformAPI.codeforces u)
                (PlatformAPI.cf_lastUpdated res) (PlatformAPI.cf_success res)
                (orNull (PlatformAPI.cf_error res))
                (PlatformAPI.cf_maxRating res) (PlatformAPI.cf_dailySolves res))
    | None => p_codeforces p
    end in
  let p_vjudge' :=
    match PlatformAPI.r_vjudge r with
    | Some res =>
        Some (VJudgeSyncedAll (PlatformAPI.vjudge u)
                (PlatformAPI.v_lastUpdated res) (PlatformAPI.v_success res)
                (orNull (PlatformAPI.v_error res))
                (PlatformAPI.v_totalSolved res) (PlatformAPI.v_dailyActivity res))
    | None => p_vjudge p
    end in
  Async.ret
    {| j_cses := cses; j_codeforces := codeforces;
       j_platforms :=
         Some {| p_cses := p_cses'; p_codeforces := p_codeforces';
                 p_vjudge := p_vjudge' |};
       j_lastActiveDate := j_lastActiveDate j;
       j_lastAutoSync := Some (PlatformAPI.r_syncTime r);
       j_lastUpdated := j_lastUpdated j |}.

(** What a sync route answers. *)
Inductive response (A : Type) : Type :=
| Ok (body : A)
| BadRequest (error : string)
| ServerError (error : string).

Arguments Ok {A} body.
Arguments BadRequest {A} error.
Arguments ServerError {A} error.

(** [POST /api/sync/all] once [syncAllPlatforms] has returned [r]:
    the answer and the database file.  A body whose [usernames] is missing
    or is not an object is [None]. *)
Definition syncAll (stamp : string) (disk : bool)
  (body : option PlatformAPI.usernames)
  (sync : PlatformAPI.usernames -> Async.settled PlatformAPI.syncResults)
  (file : option journeyData)
  : response PlatformAPI.syncResults * option journeyData :=
  match body with
  | None =>
      (BadRequest
         "Usernames object is required with cses, codeforces, and/or vjudge properties",
       file)
  | Some u =>
      match sync u with
      | Async.Rejected e => (ServerError (Async.message e), file)
      | Async.Fulfilled r =>
          match file with
          | Some j =>
              match mergeAll u r j with
              | inr j' => (Ok r, writeDatabase stamp disk file j')
              | inl e => (ServerError (Async.message e), file)
              end
          | None => (Ok r, file)
          end
      end
  end.

(** [POST /api/sync/cses]. *)
Definition syncCses (w : World.world) (stamp : string) (disk : bool)
  (username : option string) (file : option journeyData)
  : response PlatformAPI.csesResult * option journeyData :=
  match orNull username with
  | None => (BadRequest "Username is required", file)
  | Some n =>
      match PlatformAPI.fetchCSESProgress w n with
      | Async.Rejected e => (ServerError (Async.message e), file)
      | Async.Fulfilled csesData =>
          if PlatformAPI.c_success csesData then
            match file with
            | Some j =>
                let p := platformsOrEmpty (j_platforms j) in
                (Ok csesData,
                 writeDatabase stamp disk file
                   {| j_cses := Categories (PlatformAPI.c_categories csesData);
                      j_codeforces := j_codeforces j;
                      j_platforms :=
                        Some {| p_cses :=
                                  Some (CsesSynced n
                                          (PlatformAPI.c_lastUpdated csesData)
                                          (PlatformAPI.c_totalSolved csesData));
                                p_codeforces := p_codeforces p;
                                p_vjudge := p_vjudge p |};
                      j_lastActiveDate := j_lastActiveDate j;
                      j_lastAutoSync := j_lastAutoSync j;
                      j_lastUpdated := j_lastUpdated j |})
            | None => (Ok csesData, file)
            end
          else (Ok csesData, file)
      end
  end.

(** [POST /api/sync/codeforces]. *)
Definition syncCodeforces (w : World.world) (stamp : string) (disk : bool)
  (username : option string) (file : option journeyData)
  : response PlatformAPI.codeforcesResult * option journeyData :=
  match orNull username with
  | None => (BadRequest "Username is required", file)
  | Some n =>
      match PlatformAPI.fetchCodeforcesProgress w n with
      | Async.Rejected e => (ServerError (Async.message e), file)
      | Async.Fulfilled cfData =>
          if PlatformAPI.cf_success cfData then
            match file with
            | Some j =>
                match assignCodeforces cfData (j_codeforces j) with
                | inl e => (ServerError (Async.message e), file)
                | inr codeforces =>
                    let p := platformsOrEmpty (j_platforms j) in
                    (Ok cfData,
                     writeDatabase stamp disk file
                       {| j_cses := j_cses j;
                          j_codeforces := codeforces;
                          j_platforms :=
                            Some {| p_cses := p_cses p;
                                    p_codeforces :=
                                      Some (CodeforcesSynced n
                                              (PlatformAPI.cf_lastUpdated cfData)
                                              (PlatformAPI.cf_maxRating cfData)
                                              (PlatformAPI.cf_dailySolves cfData));
                                    p_vjudge := p_vjudge p |};
                          j_lastActiveDate := j_lastActiveDate j;
                          j_lastAutoSync := j_lastAutoSync j;
                          j_lastUpdated := j_lastUpdated j |})
                end
            | None => (Ok cfData, file)
            end
          else (Ok cfData, file)
      end
  end.

(** One platform of the answer of [GET /api/sync/status]. *)
Record platformStatus : Type := {
  configured : bool;
  s_username : option string;
  s_lastSync : option string;
  s_success : bool;
  s_error : option string
}.

Definition csesStatus (e : option csesEntry) : platformStatus :=
  match e with
  | Some (CsesSynced username lastSync _) =>
      {| configured := JS.truthy username; s_username := orNull (Some username);
         s_lastSync := orNull lastSync; s_success := false; s_error := None |}
  | Some (CsesSyncedAll username lastSync success error) =>
      {| configured := JS.truthy (default "" username);
         s_username := orNull username; s_lastSync := orNull lastSync;
         s_success := success; s_error := orNull error |}
  | None =>
      {| configured := false; s_username := None; s_lastSync := None;
         s_success := false; s_error := None |}
  end.

Definition codeforcesStatus (e : option codeforcesEntry) : platformStatus :=
  match e with
  | Some (CodeforcesSynced username lastSync _ _) =>
      {| configured := JS.truthy username; s_username := orNull (Some username);
         s_lastSync := orNull lastSync; s_success := false; s_error := None |}
  | Some (CodeforcesSyncedAll username lastSync success error _ _) =>
      {| configured := JS.truthy (default "" username);
         s_username := orNull username; s_lastSync := orNull lastSync;
         s_success := success; s_error := orNull error |}
  | None =>
      {| configured := false; s_username := None; s_lastSync := None;
         s_success := false; s_error := None |}
  end.

Definition vjudgeStatus (e : option vjudgeEntry) : platformStatus :=
  match e with
  | Some (VJudgeSynced username lastSync _ _ _ _) =>
      {| configured := JS.truthy username; s_username := orNull (Some username);
         s_lastSync := orNull lastSync; s_success := false; s_error := None |}
  | Some (VJudgeSyncedAll username lastSync success error _ _) =>
      {| configured := JS.truthy (default "" username);
         s_username := orNull username; s_lastSync := orNull lastSync;
         s_success := success; s_error := orNull error |}
  | None =>
      {| configured := false; s_username := None; s_lastSync := None;
         s_success := false; s_error := None |}
  end.

(** The [status] object of [GET /api/sync/status], without the two extra
    fields [currentRating] and [totalSolved]. *)
Record syncStatus : Type := {
  st_lastAutoSync : option string;
  st_cses : platformStatus;
  st_codeforces : platformStatus;
  st_vjudge : platformStatus
}.

Definition status (file : option journeyData) : syncStatus :=
  let p := platformsOrEmpty (file ≫= j_platforms) in
  {| st_lastAutoSync := orNull (file ≫= j_lastAutoSync);
     st_cses := csesStatus (p_cses p);
     st_codeforces := codeforcesStatus (p_codeforces p);
     st_vjudge := vjudgeStatus (p_vjudge p) |}.

End Server.

(** ** [authManager.js]: class [AuthManager] *)

Module AuthManager.

Record credentials : Type := {
  cred_cses : string;
  cred_codeforces : string;
  cred_vjudge : string
}.

Record preferences : Type := {
  autoSync : bool;
  syncTime : string;
  notifications : bool
}.

(** An element of [users] in the users file. *)
Record user : Type := {
  id : string;
  username : string;
  email : string;
  password : string;
  platformCredentials : credentials;
  userPreferences : preferences;
  createdAt : string;
  lastLogin : option string;
  isActive : bool
}.

(** [sanitizeUser(user)]: the user without its [password]. *)
Record publicUser : Type := {
  pu_id : string;
  pu_username : string;
  pu_email : string;
  pu_platformCredentials : credentials;
  pu_preferences : preferences;
  pu_createdAt : string;
  pu_lastLogin : option string;
  pu_isActive : bool
}.

Definition sanitizeUser (u : user) : publicUser :=
  {| pu_id := id u; pu_username := username u; pu_email := email u;
     pu_platformCredentials := platformCredentials u;
     pu_preferences := userPreferences u;
     pu_createdAt := createdAt u; pu_lastLogin := lastLogin u;
     pu_isActive := isActive u |}.

(** What one call sees of the libraries and the machine: [bcrypt.hash]
    with the salt it draws, [bcrypt.compare], [jwt.sign], the clock, and
    whether writing the users file goes through. *)
Record env : Type := {
  hash : string -> string;
  compare : string -> string -> bool;
  sign : string -> string -> string -> string;
  nowMs : Z;
  nowIso : string;
  disk : bool
}.

(** [generateToken(user)]. *)
Definition generateToken (e : env) (u : user) : string :=
  sign e (id u) (username u) (email u).

(** [writeUsers(data)]: the users in the file afterwards, and the flag
    returned. *)
Definition writeUsers (e : env) (file data : list user) : list user * bool :=
  if disk e then (data, true) else (file, false).

(** [readUsers()]: the users of the file, or none when the file cannot be
    read or parsed. *)
Definition readUsers (readable : bool) (file : list user) : list user :=
  if readable then file else [].

(** The body of a registration request; a field that is missing is
    [None]. *)
Record userData : Type := {
  ud_username : option string;
  ud_email : option string;
  ud_password : option string;
  ud_platformCredentials : option (option string * option string * option string)
}.

Inductive registerResult : Type :=
| Registered (message : string) (u : publicUser) (token : string)
| NotRegistered (error : string).

(** [x || ''] for an optional string. *)
Definition orEmpty (x : option string) : string := default "" x.

(** [!x] for an optional string. *)
Definition missing (x : option string) : bool :=
  negb (JS.truthy (default "" x)).

(** [registerUser(userData)] on the users file; [readable] tells whether
    reading the file goes through.  The result and the users in the file
    afterwards. *)
Definition registerUser (e : env) (readable : bool) (d : userData)
  (file : list user) : registerResult * list user :=
  if (missing (ud_username d) || missing (ud_email d) || missing (ud_password d))%bool
  then (NotRegistered "Missing required fields", file)
  else
    let username' := default "" (ud_username d) in
    let email' := default "" (ud_email d) in
    let password' := default "" (ud_password d) in
    let users := readUsers readable file in
    match find (fun u => (String.eqb (username u) username'
                          || String.eqb (email u) email')%bool) users with
    | Some _ => (NotRegistered "User already exists", file)
    | None =>
        let hashedPassword := hash e password' in
        let newUser :=
          {| id := pretty (nowMs e);
             username := username';
             email := email';
             password := hashedPassword;
             platformCredentials :=
               {| cred_cses := orEmpty (ud_platformCredentials d ≫= fun c => c.1.1);
                  cred_codeforces := orEmpty (ud_platformCredentials d ≫= fun c => c.1.2);
                  cred_vjudge := orEmpty (ud_platformCredentials d ≫= fun c => c.2) |};
             userPreferences :=
               {| autoSync := false; syncTime := "06:00"; notifications := true |};
             createdAt := nowIso e;
             lastLogin := None;
             isActive := true |} in
        let '(file', saved) := writeUsers e file (users ++ [newUser])%list in
        if saved
        then (Registered "User registered successfully" (sanitizeUser newUser)
                (generateToken e newUser),
              file')
        else (NotRegistered "Failed to save user", file')
    end.

Inductive loginResult : Type :=
| LoggedIn (message : string) (u : publicUser) (token : string)
    (platformCredentials : credentials)
| NotLoggedIn (error : string).

(** [user.lastLogin = ...] on the user object found in the array: the
    first user that matches is the one that changes. *)
Fixpoint setLastLogin (p : user -> bool) (stamp : string) (users : list user)
  : list user :=
  match users with
  | [] => []
  | u :: rest =>
      if p u
      then {| id := id u; username := username u; email := email u;
              password := password u;
              platformCredentials := platformCredentials u;
              userPreferences := userPreferences u;
              createdAt := createdAt u; lastLogin := Some stamp;
              isActive := isActive u |} :: rest
      else u :: setLastLogin p stamp rest
  end.

(** [loginUser(credentials)] on the users read from the file. *)
Definition loginUser (e : env) (identifier password' : option string)
  (file : list user) : loginResult * list user :=
  if (missing identifier || missing password')%bool
  then (NotLoggedIn "Missing credentials", file)
  else
    let ident := default "" identifier in
    let matches := fun u => (String.eqb (username u) ident
                             || String.eqb (email u) ident)%bool in
    match find matches file with
    | None => (NotLoggedIn "User not found", file)
    | Some u =>
        if negb (isActive u) then (NotLoggedIn "Account is deactivated", file)
        else if negb (compare e (default "" password') (password u))
        then (NotLoggedIn "Invalid password", file)
        else
          let u' :=
            {| id := id u; username := username u; email := email u;
               password := password u;
               platformCredentials := platformCredentials u;
               userPreferences := userPreferences u;
               createdAt := createdAt u; lastLogin := Some (nowIso e);
               isActive := isActive u |} in
          let '(file', _) := writeUsers e file (setLastLogin matches (nowIso e) file) in
          (LoggedIn "Login successful" (sanitizeUser u') (generateToken e u')
             (platformCredentials u'),
           file')
    end.

End AuthManager.

(** ** Concrete worlds *)

Module Scenario.

Import World.

Definition emptyDocument : document :=
  {| taskScoreFull := []; h2 := []; containsProblems := [];
     solvedText := ""; submittedText := "";
     activityCells := []; submissionRows := [] |}.

Definition midnight : site -> string :=
  fun _ => "2024-01-04T00:00:00.000Z".

Definition oneSecondLater : site -> string :=
  fun _ => "2024-01-04T00:00:01.000Z".

(** Every request fails. *)
Definition offlineAt (clock : site -> string) : world :=
  {| getPage := fun _ => Async.throw (Async.Error "Network Error");
     getUserInfo := fun _ => Async.throw (Async.Error "Network Error");
     getUserStatus := fun _ => Async.throw (Async.Error "Network Error");
     now := clock;
     toDateString := UTC.toDateString;
     dateOfText := fun _ => "Invalid Date" |}.

Definition offline : world := offlineAt midnight.

(** Every page loads and matches none of the selectors. *)
Definition blankPages : world :=
  {| getPage := fun _ => Async.ret emptyDocument;
     getUserInfo := fun _ => Async.throw (Async.Error "Network Error");
     getUserStatus := fun _ => Async.throw (Async.Error "Network Error");
     now := midnight;
     toDateString := UTC.toDateString;
     dateOfText := fun _ => "Invalid Date" |}.

(** A profile page that lists task 1068 as solved in twenty rows. *)
Definition repeatedRows : world :=
  {| getPage := fun _ =>
       Async.ret
         {| taskScoreFull :=
              repeat ("Weird Algorithm", Some "/problemset/task/1068") 20;
            h2 := []; containsProblems := [];
            solvedText := ""; submittedText := "";
            activityCells := []; submissionRows := [] |};
     getUserInfo := fun _ => Async.throw (Async.Error "Network Error");
     getUserStatus := fun _ => Async.throw (Async.Error "Network Error");
     now := midnight;
     toDateString := UTC.toDateString;
     dateOfText := fun _ => "Invalid Date" |}.

(** An accepted submission by a contestant of contest 1700. *)
Definition accepted (index name : string) (seconds : Z) : submission :=
  {| s_contestId := Some 1700;
     s_creationTimeSeconds := seconds;
     s_problem := Some {| p_contestId := Some 1700; p_index := index;
                          p_name := name; p_rating := Some 800 |};
     s_author := Some {| participantType := "CONTESTANT" |};
     s_verdict := Some "OK" |}.

(** Problem (1700,A) accepted on 1, 2 and 3 January 2024 and (1700,B)
    accepted on 1 January 2024, newest first as the API lists them. *)
Definition threeDays : list submission :=
  [ accepted "A" "Great Sequence" 1704283200;
    accepted "A" "Great Sequence" 1704196800;
    accepted "B" "Palindromic Numbers" 1704114000;
    accepted "A" "Great Sequence" 1704110400 ].

(** Codeforces answers with [threeDays]; the HTML sites are down. *)
Definition codeforcesOnly (clock : site -> string) : world :=
  {| getPage := fun _ => Async.throw (Async.Error "timeout of 10000ms exceeded");
     getUserInfo := fun _ =>
       Async.ret {| ui_status := "OK";
                    ui_result := [ {| u_rating := Some 1500;
                                      u_maxRating := Some 1600 |} ] |};
     getUserStatus := fun _ =>
       Async.ret {| us_status := "OK"; us_result := threeDays |};
     now := clock;
     toDateString := UTC.toDateString;
     dateOfText := fun _ => "Invalid Date" |}.

(** A profile page with two solved tasks. *)
Definition twoSolved : world :=
  {| getPage := fun _ =>
       Async.ret
         {| taskScoreFull :=
              [ ("Weird Algorithm", Some "/problemset/task/1068");
                ("Dice Combinations", Some "/problemset/task/1633") ];
            h2 := []; containsProblems := [];
            solvedText := ""; submittedText := "";
            activityCells := []; submissionRows := [] |};
     getUserInfo := fun _ => Async.throw (Async.Error "Network Error");
     getUserStatus := fun _ => Async.throw (Async.Error "Network Error");
     now := midnight;
     toDateString := UTC.toDateString;
     dateOfText := fun _ => "Invalid Date" |}.

Definition allHandles : PlatformAPI.usernames :=
  {| PlatformAPI.cses := Some "alice";
     PlatformAPI.codeforces := Some "alice";
     PlatformAPI.vjudge := Some "alice" |}.

(** The page of [twoSolved] with its rows in the other order. *)
Definition twoSolvedReversed : world :=
  {| getPage := fun _ =>
       Async.ret
         {| taskScoreFull :=
              [ ("Dice Combinations", Some "/problemset/task/1633");
                ("Weird Algorithm", Some "/problemset/task/1068") ];
            h2 := []; containsProblems := [];
            solvedText := ""; submittedText := "";
            activityCells := []; submissionRows := [] |};
     getUserInfo := fun _ => Async.throw (Async.Error "Network Error");
     getUserStatus := fun _ => Async.throw (Async.Error "Network Error");
     now := midnight;
     toDateString := UTC.toDateString;
     dateOfText := fun _ => "Invalid Date" |}.

(** A VJudge profile whose activity grid shows 3 for 1 January 2024 (after
    an earlier cell showing 1 for the same date) and 0 for 2 January, and
    whose submissions page has two accepted rows and one rejected row on
    1 January. *)
Definition vjudgeProfile : world :=
  {| getPage := fun _ =>
       Async.ret
         {| taskScoreFull := []; h2 := []; containsProblems := [];
            solvedText := " 42 "; submittedText := "97";
            activityCells :=
              [ ("1", Some "Mon Jan 01 2024"); ("0", Some "Tue Jan 02 2024");
                ("3", Some "Mon Jan 01 2024"); ("5", None) ];
            submissionRows :=
              [ {| statusText := " Accepted "; problemTitleText := "A + B";
                   timestampText := "2024-01-01 10:00" |};
                {| statusText := "Wrong Answer"; problemTitleText := "Frog";
                   timestampText := "2024-01-01 11:00" |};
                {| statusText := "Accepted"; problemTitleText := "A + B";
                   timestampText := "2024-01-01 12:00" |} ] |};
     getUserInfo := fun _ => Async.throw (Async.Error "Network Error");
     getUserStatus := fun _ => Async.throw (Async.Error "Network Error");
     now := midnight;
     toDateString := UTC.toDateString;
     dateOfText := fun _ => "Mon Jan 01 2024" |}.

(** Codeforces answers with one submission that has no [author]. *)
Definition authorMissing : world :=
  {| getPage := fun _ => Async.throw (Async.Error "Network Error");
     getUserInfo := fun _ =>
       Async.ret {| ui_status := "OK";
                    ui_result := [ {| u_rating := None; u_maxRating := None |} ] |};
     getUserStatus := fun _ =>
       Async.ret
         {| us_status := "OK";
            us_result :=
              [ {| s_contestId := Some 1700; s_creationTimeSeconds := 1704110400;
                   s_problem := Some {| p_contestId := Some 1700; p_index := "A";
                                        p_name := "Great Sequence";
                                        p_rating := None |};
                   s_author := None; s_verdict := Some "OK" |} ] |};
     now := midnight;
     toDateString := UTC.toDateString;
     dateOfText := fun _ => "Invalid Date" |}.

(** The VJudge profile page loads and the submissions page does not. *)
Definition submissionsDown : world :=
  {| getPage := fun url =>
       if String.eqb url "https://vjudge.net/user/alice"
       then Async.ret emptyDocument
       else Async.throw (Async.Error "Request failed with status code 404");
     getUserInfo := fun _ => Async.throw (Async.Error "Network Error");
     getUserStatus := fun _ => Async.throw (Async.Error "Network Error");
     now := midnight;
     toDateString := UTC.toDateString;
     dateOfText := fun _ => "Invalid Date" |}.

(** A problem-set page without [h2] headings, read by the second parsing
    method. *)
Definition problemSet : world :=
  {| getPage := fun _ =>
       Async.ret
         {| taskScoreFull := []; h2 := [];
            containsProblems :=
              [ ("Sorting Problems", 5); ("sorting problems", 7);
                ("Problems", 3); ("12 34", 2) ];
            solvedText := ""; submittedText := "";
            activityCells := []; submissionRows := [] |};
     getUserInfo := fun _ => Async.throw (Async.Error "Network Error");
     getUserStatus := fun _ => Async.throw (Async.Error "Network Error");
     now := midnight;
     toDateString := UTC.toDateString;
     dateOfText := fun _ => "Invalid Date" |}.

(** A journey database as the server creates it, with the Codeforces
    counters of an earlier sync. *)
Definition journeyFile : Server.journeyData :=
  {| Server.j_cses := Server.Counters Journey.getDefaultData.(Journey.cses);
     Server.j_codeforces :=
       Some {| Server.rating := Some (JS.Num 1500);
               Server.problemsSolved := Some 2;
               Server.contests := Some 1 |};
     Server.j_platforms := None;
     Server.j_lastActiveDate := None;
     Server.j_lastAutoSync := None;
     Server.j_lastUpdated := None |}.

(** A machine on which hashing prefixes a dollar sign and every write goes
    through. *)
Definition plainEnv : AuthManager.env :=
  {| AuthManager.hash := fun p => "$" ++ p;
     AuthManager.compare := fun p h => String.eqb h ("$" ++ p);
     AuthManager.sign := fun i n m => i ++ "." ++ n ++ "." ++ m;
     AuthManager.nowMs := 1704326400000;
     AuthManager.nowIso := "2024-01-04T00:00:00.000Z";
     AuthManager.disk := true |}.

Definition registration (name mail pass : string) : AuthManager.userData :=
  {| AuthManager.ud_username := Some name;
     AuthManager.ud_email := Some mail;
     AuthManager.ud_password := Some pass;
     AuthManager.ud_platformCredentials := None |}.

(** The profile of [vjudgeProfile] with one more activity cell, whose
    [data-date] is [__proto__]. *)
Definition vjudgeProtoDate : world :=
  {| getPage := fun _ =>
       Async.ret
         {| taskScoreFull := []; h2 := []; containsProblems := [];
            solvedText := " 42 "; submittedText := "97";
            activityCells :=
              [ ("1", Some "Mon Jan 01 2024"); ("0", Some "Tue Jan 02 2024");
                ("3", Some "Mon Jan 01 2024"); ("5", None);
                ("7", Some "__proto__") ];
            submissionRows := [] |};
     getUserInfo := fun _ => Async.throw (Async.Error "Network Error");
     getUserStatus := fun _ => Async.throw (Async.Error "Network Error");
     now := midnight;
     toDateString := UTC.toDateString;
     dateOfText := fun _ => "Mon Jan 01 2024" |}.

(** A problem-set page with one heading, [constructor], above one task. *)
Definition inheritedTitle : world :=
  {| getPage := fun _ =>
       Async.ret
         {| taskScoreFull := [];
            h2 := [ {| h2Text := "constructor";
                       h2Siblings :=
                         [ [ {| href := "/problemset/task/1068";
                                linkText := "Weird Algorithm" |} ] ] |} ];
            containsProblems := [];
            solvedText := ""; submittedText := "";
            activityCells := []; submissionRows := [] |};
     getUserInfo := fun _ => Async.throw (Async.Error "Network Error");
     getUserStatus := fun _ => Async.throw (Async.Error "Network Error");
     now := midnight;
     toDateString := UTC.toDateString;
     dateOfText := fun _ => "Invalid Date" |}.

(** Every site answers: the profile page lists two solved tasks and
    Codeforces returns [threeDays]. *)
Definition online (clock : site -> string) : world :=
  {| getPage := fun _ =>
       Async.ret
         {| taskScoreFull :=
              [ ("Weird Algorithm", Some "/problemset/task/1068");
                ("Dice Combinations", Some "/problemset/task/1633") ];
            h2 := []; containsProblems := [];
            solvedText := "2"; submittedText := "5";
            activityCells := [ ("2", Some "2024-01-03") ];
            submissionRows := [] |};
     getUserInfo := fun _ =>
       Async.ret {| ui_status := "OK";
                    ui_result := [ {| u_rating := Some 1500;
                                      u_maxRating := Some 1600 |} ] |};
     getUserStatus := fun _ =>
       Async.ret {| us_status := "OK"; us_result := threeDays |};
     now := clock;
     toDateString := UTC.toDateString;
     dateOfText := fun _ => "Invalid Date" |}.

(** A clock that differs from [midnight] in the reading that becomes
    [syncTime] only. *)
Definition syncOneSecondLater : site -> string :=
  fun s => match s with
           | SyncTime => "2024-01-04T00:00:01.000Z"
           | _ => "2024-01-04T00:00:00.000Z"
           end.

(** A users file with the one user [alice]. *)
Definition oneUser : list AuthManager.user :=
  [ {| AuthManager.id := "1704240000000";
       AuthManager.username := "alice";
       AuthManager.email := "alice@example.com";
       AuthManager.password := "$secret";
       AuthManager.platformCredentials :=
         {| AuthManager.cred_cses := ""; AuthManager.cred_codeforces := "";
            AuthManager.cred_vjudge := "" |};
       AuthManager.userPreferences :=
         {| AuthManager.autoSync := false; AuthManager.syncTime := "06:00";
            AuthManager.notifications := true |};
       AuthManager.createdAt := "2024-01-03T00:00:00.000Z";
       AuthManager.lastLogin := None;
       AuthManager.isActive := true |} ].

End Scenario.
(** * Properties *)

(** ** Built-ins *)

Example parseInt_plain : JS.parseInt "1068" = Some 1068.
Proof. reflexivity. Qed.

Example parseInt_prefix : JS.parseInt " 1068abc" = Some 1068.
Proof. reflexivity. Qed.

Example parseInt_hex : JS.parseInt "-0x1F" = Some (-31).
Proof. reflexivity. Qed.

Example parseInt_nan : JS.parseInt "abc" = None.
Proof. reflexivity. Qed.

Example lastSegment_task : JS.lastSegment "/problemset/task/1068" = "1068".
Proof. reflexivity. Qed.

Example slugOf_title :
  PlatformAPI.slugOf " (Dynamic)  Programming! " = "dynamic-programming".
Proof. reflexivity. Qed.

Example toDateString_epoch : UTC.toDateString 0 = "Thu Jan 01 1970".
Proof. reflexivity. Qed.

Example toDateString_leap :
  UTC.toDateString (1709164800 * 1000) = "Thu Feb 29 2024".
Proof. reflexivity. Qed.

Lemma includes_elem_of (ids : list Z) (id : Z) :
  JS.includes ids id = true <-> id ∈ ids.
Proof.
  induction ids as [|x ids IH]; simpl.
  - split; [discriminate | intros H; inversion H].
  - destruct (Z.eqb_spec x id) as [->|Hne].
    + split; [intros _; left | reflexivity].
    + rewrite IH. split; [right; assumption |].
      intros H. inversion H; subst; [congruence | assumption].
Qed.

Lemma includes_not_elem_of (ids : list Z) (id : Z) :
  JS.includes ids id = false <-> id ∉ ids.
Proof.
  rewrite <- includes_elem_of. destruct (JS.includes ids id); split; intros H;
    try reflexivity; try discriminate; try (intros ?; discriminate).
  exfalso. apply H. reflexivity.
Qed.

(** ** Classifier *)

Section ClassifierFacts.

Import Classifier.

(** A hit of the scan splits the table at the first bucket holding the
    id. *)
Lemma scan_Some (id : Z) (categories : table) (c : string) :
  scan id categories = Some c ->
  exists before ids after,
    categories = (before ++ (c, ids) :: after)%list
    /\ id ∈ ids
    /\ forall q, q ∈ before -> id ∉ q.2.
Proof.
  induction categories as [|[c0 ids0] rest IH]; simpl; [discriminate|].
  destruct (JS.includes ids0 id) eqn:Hin.
  - intros [= <-]. exists [], ids0, rest. split; [reflexivity|].
    split; [by apply includes_elem_of|]. intros q Hq. inversion Hq.
  - intros Hscan. destruct (IH Hscan) as (before & ids & after & -> & Hid & Hbefore).
    exists ((c0, ids0) :: before), ids, after. split; [reflexivity|].
    split; [assumption|]. intros q Hq. inversion Hq; subst.
    + by apply includes_not_elem_of.
    + by apply Hbefore.
Qed.

Lemma scan_None (id : Z) (categories : table) :
  scan id categories = None <->
  forall c ids, (c, ids) ∈ categories -> id ∉ ids.
Proof.
  induction categories as [|[c0 ids0] rest IH]; simpl.
  - split; [|reflexivity]. intros _ c ids H. inversion H.
  - destruct (JS.includes ids0 id) eqn:Hin.
    + split; [discriminate|]. intros H. exfalso.
      apply (H c0 ids0); [left | by apply includes_elem_of].
    + rewrite IH. split.
      * intros H c ids Hc. inversion Hc; subst.
        -- by apply includes_not_elem_of.
        -- by apply (H c ids).
      * intros H c ids Hc. apply (H c ids). by right.
Qed.

Lemma scan_first (id : Z) (before after : table) (c : string) (ids : list Z) :
  id ∈ ids ->
  (forall q, q ∈ before -> id ∉ q.2) ->
  scan id (before ++ (c, ids) :: after) = Some c.
Proof.
  intros Hid. induction before as [|[c0 ids0] before IH]; simpl; intros Hbefore.
  - apply includes_elem_of in Hid. by rewrite Hid.
  - assert (JS.includes ids0 id = false) as ->.
    { apply includes_not_elem_of. apply (Hbefore (c0, ids0)). left. }
    apply IH. intros q Hq. apply Hbefore. by right.
Qed.

End ClassifierFacts.

(** C2. An id that lies in some bucket of the table is classified into a
    category whose bucket holds it; an id that lies in no bucket (or does
    not parse as a number) is classified as [null], and a sync counts a
    solved problem with such an id in no category. *)
Theorem categorize_in_table (problemId : string) (categories : Classifier.table) :
  (forall id,
      JS.parseInt problemId = Some id ->
      (exists c ids, (c, ids) ∈ categories /\ id ∈ ids) ->
      exists c ids,
        Classifier.categorizeCSESProblem problemId categories = Some c
        /\ (c, ids) ∈ categories /\ id ∈ ids)
  /\ ((forall id c ids,
          JS.parseInt problemId = Some id -> (c, ids) ∈ categories -> id ∉ ids) ->
      Classifier.categorizeCSESProblem problemId categories = None)
  /\ (Classifier.categorizeCSESProblem problemId Classifier.getCSESCategories = None ->
      forall (p : PlatformAPI.solvedProblem)
             (counters : gmap string PlatformAPI.csesCategory),
        PlatformAPI.sp_id p = problemId -> PlatformAPI.tally counters p = counters).
Proof.
  unfold Classifier.categorizeCSESProblem. split; [|split]; cycle 2.
  { intros Hnone p counters <-. unfold PlatformAPI.tally, PlatformAPI.classify.
    unfold Classifier.categorizeCSESProblem. by rewrite Hnone. }
  - intros id -> (c & ids & Hc & Hid).
    destruct (Classifier.scan id categories) as [c'|] eqn:Hscan.
    + destruct (scan_Some _ _ _ Hscan) as (before & ids' & after & -> & Hid' & _).
      exists c', ids'. split; [reflexivity|]. split; [|assumption].
      apply elem_of_app. right. left.
    + exfalso. rewrite scan_None in Hscan. by apply (Hscan c ids).
  - intros Habsent. destruct (JS.parseInt problemId) as [id|]; [|reflexivity].
    apply scan_None. intros c ids. by apply Habsent.
Qed.

Lemma categorize_in_table_witness :
  (exists c ids,
      Classifier.categorizeCSESProblem "1068" Classifier.getCSESCategories = Some c
      /\ (c, ids) ∈ Classifier.getCSESCategories /\ 1068 ∈ ids)
  /\ Classifier.categorizeCSESProblem "9999" Classifier.getCSESCategories = None.
Proof.
  split.
  - apply (proj1 (categorize_in_table "1068" Classifier.getCSESCategories) 1068).
    + reflexivity.
    + eexists "intro", _. split; [left | left].
  - apply (proj1 (proj2 (categorize_in_table "9999" Classifier.getCSESCategories))).
    intros id c ids [= <-]. revert c ids. apply scan_None. reflexivity.
Defined.

Lemma not_in_buckets (id : Z) (before : Classifier.table) :
  Forall (fun q => JS.includes q.2 id = false) before ->
  forall q, q ∈ before -> id ∉ q.2.
Proof.
  intros HF q Hq. apply includes_not_elem_of.
  rewrite Forall_forall in HF. by apply HF.
Qed.

(** ** CSES counters of a sync *)

Section TallyFacts.

Import PlatformAPI.

(** One step of the tally touches the category of the problem only. *)
Lemma tally_other (categories : gmap string csesCategory) (p : solvedProblem)
  (c : string) :
  classify p <> Some c -> tally categories p !! c = categories !! c.
Proof.
  unfold tally. intros Hc.
  destruct (classify p) as [c0|]; [|reflexivity].
  destruct (JS.truthy c0); [|reflexivity].
  destruct (categories !! c0) eqn:Hlook; [|reflexivity].
  apply lookup_insert_ne. congruence.
Qed.

Lemma tally_same (categories : gmap string csesCategory) (p : solvedProblem)
  (c : string) (cat : csesCategory) :
  classify p = Some c ->
  tally categories p !! c = Some cat ->
  exists cat0, categories !! c = Some cat0
               /\ total cat = total cat0
               /\ solved cat <= solved cat0 + 1.
Proof.
  unfold tally. intros ->.
  destruct (categories !! c) as [cat0|] eqn:Hlook; destruct (JS.truthy c);
    intros Hstep; rewrite ?lookup_insert_eq, ?Hlook in Hstep;
    try discriminate; injection Hstep as <-;
    exists cat0; simpl; repeat split; lia.
Qed.

(** After the loop a counter has grown by at most the number of listed
    problems classified into its category. *)
Lemma fold_tally (l : list solvedProblem) (categories : gmap string csesCategory)
  (c : string) (cat : csesCategory) :
  fold_left tally l categories !! c = Some cat ->
  exists cat0, categories !! c = Some cat0
               /\ total cat = total cat0
               /\ solved cat
                  <= solved cat0
                     + Z.of_nat (length (filter (fun p => classify p = Some c) l)).
Proof.
  revert categories. induction l as [|p l IH]; simpl; intros categories Hfold.
  - exists cat. repeat split; [assumption | lia].
  - destruct (IH _ Hfold) as (cat1 & Hlook1 & Htot1 & Hsol1).
    rewrite filter_cons. destruct (decide (classify p = Some c)) as [Hc|Hc].
    + destruct (tally_same _ _ _ _ Hc Hlook1) as (cat0 & Hlook0 & Htot0 & Hsol0).
      exists cat0. simpl. repeat split; [assumption | lia | lia].
    + rewrite tally_other in Hlook1 by assumption.
      exists cat1. repeat split; [assumption | lia | lia].
Qed.

Lemma omap_filter_sublist {A B : Type} (f : A -> option B) (P : A -> Prop)
  `{!forall x, Decision (P x)} (l : list A) :
  sublist (omap f (filter P l)) (omap f l).
Proof.
  induction l as [|x l IH]; simpl; [constructor|].
  rewrite filter_cons. destruct (decide (P x)); simpl.
  - destruct (f x); [by constructor | assumption].
  - destruct (f x); [by constructor | assumption].
Qed.

(** The size of each bucket of the static table is the [total] of its
    category, and no category name occurs twice. *)
Lemma bucket_size (c : string) (ids : list Z) (cat0 : csesCategory) :
  (c, ids) ∈ Classifier.getCSESCategories ->
  emptyCategories !! c = Some cat0 ->
  solved cat0 = 0 /\ Z.of_nat (length ids) = total cat0.
Proof.
  unfold Classifier.getCSESCategories. intros Hin.
  repeat (apply elem_of_cons in Hin as [[= -> ->]|Hin];
          [vm_compute; intros [= <-]; split; reflexivity|]).
  inversion Hin.
Qed.

Lemma assoc_unique {A B : Type} (l : list (A * B)) (k : A) (x y : B) :
  NoDup (l.*1) -> (k, x) ∈ l -> (k, y) ∈ l -> x = y.
Proof.
  induction l as [|[k0 v0] l IH]; simpl; intros Hnd Hx Hy.
  - inversion Hx.
  - apply NoDup_cons in Hnd as [Hfresh Hnd].
    apply elem_of_cons in Hx as [[= -> ->]|Hx];
      apply elem_of_cons in Hy as [[= <-]|Hy].
    + reflexivity.
    + exfalso. apply Hfresh. apply list_elem_of_fmap. by exists (k0, y).
    + exfalso. apply Hfresh. apply list_elem_of_fmap. by exists (k, x).
    + by apply IH.
Qed.

Lemma bucket_unique (c : string) (ids ids' : list Z) :
  (c, ids) ∈ Classifier.getCSESCategories ->
  (c, ids') ∈ Classifier.getCSESCategories ->
  ids = ids'.
Proof.
  apply assoc_unique. apply (bool_decide_unpack _). vm_compute. reflexivity.
Qed.

(** A solved list without repeated numeric ids keeps every counter within
    its total. *)
Lemma categorizeSolved_bounded (l : list solvedProblem) (c : string)
  (cat : csesCategory) :
  NoDup (omap (fun p => JS.parseInt (sp_id p)) l) ->
  categorizeSolved l !! c = Some cat ->
  solved cat <= total cat.
Proof.
  intros Hnd Hlook. unfold categorizeSolved in Hlook.
  destruct (fold_tally _ _ _ _ Hlook) as (cat0 & Hlook0 & Htot & Hsol).
  set (hits := filter (fun p => classify p = Some c) l) in *.
  destruct hits as [|p0 hits'] eqn:Hhits.
  { assert (exists ids, (c, ids) ∈ Classifier.getCSESCategories) as [ids Hids].
    { apply elem_of_list_to_map_2 in Hlook0.
      unfold Classifier.getCSESCategories.
      repeat (apply elem_of_cons in Hlook0 as [[= -> _]|Hlook0];
              [eexists; repeat first [by left | right]|]).
      inversion Hlook0. }
    destruct (bucket_size _ _ _ Hids Hlook0) as [H0 Hlen]. simpl in Hsol. lia. }
  assert (classify p0 = Some c) as Hp0.
  { assert (p0 ∈ hits) as Hin by (rewrite Hhits; left).
    apply list_elem_of_filter in Hin. tauto. }
  unfold classify, Classifier.categorizeCSESProblem in Hp0.
  destruct (JS.parseInt (sp_id p0)) as [id0|]; [|discriminate].
  destruct (scan_Some _ _ _ Hp0) as (before & ids & after & Htable & _ & _).
  assert ((c, ids) ∈ Classifier.getCSESCategories) as Hids.
  { rewrite Htable. apply elem_of_app. right. left. }
  destruct (bucket_size _ _ _ Hids Hlook0) as [H0 Hlen].
  rewrite <- Hhits in Hsol.
  assert (length hits <= length ids)%nat; [|lia].
  assert (length hits = length (omap (fun p => JS.parseInt (sp_id p)) hits)) as ->.
  { assert (Forall (fun p => classify p = Some c) hits) as HF.
    { apply Forall_forall. intros p Hp. apply list_elem_of_filter in Hp. tauto. }
    clear -HF. induction HF as [|p hits Hp HF IH]; simpl; [reflexivity|].
    unfold classify, Classifier.categorizeCSESProblem in Hp.
    destruct (JS.parseInt (sp_id p)); [|discriminate]. simpl. by rewrite IH. }
  apply submseteq_length, NoDup_submseteq.
  - eapply sublist_NoDup; [exact Hnd | apply omap_filter_sublist].
  - intros id Hid. apply list_elem_of_omap in Hid as (p & Hp & Hparse).
    apply list_elem_of_filter in Hp as [Hc _].
    unfold classify, Classifier.categorizeCSESProblem in Hc. rewrite Hparse in Hc.
    destruct (scan_Some _ _ _ Hc) as (before' & ids' & after' & Htable' & Hid' & _).
    assert ((c, ids') ∈ Classifier.getCSESCategories) as Hids'.
    { rewrite Htable'. apply elem_of_app. right. left. }
    by rewrite (bucket_unique _ _ _ Hids Hids').
Qed.

End TallyFacts.

(** C9. An id is classified into the first bucket, in the order intro,
    sort, dp, graph, range, tree, that holds it; when a sync tallies a
    problem with that id, no other category changes, so a later bucket
    that repeats the id does not count it. *)
Theorem categorize_first_bucket (problemId : string) (id : Z)
  (before after : Classifier.table) (c : string) (ids : list Z) :
  Classifier.getCSESCategories = (before ++ (c, ids) :: after)%list ->
  JS.parseInt problemId = Some id ->
  id ∈ ids ->
  (forall q, q ∈ before -> id ∉ q.2) ->
  Classifier.getCSESCategories.*1 = ["intro"; "sort"; "dp"; "graph"; "range"; "tree"]
  /\ Classifier.categorizeCSESProblem problemId Classifier.getCSESCategories = Some c
  /\ forall (p : PlatformAPI.solvedProblem)
            (categories : gmap string PlatformAPI.csesCategory) (c' : string),
      PlatformAPI.sp_id p = problemId -> c' <> c ->
      PlatformAPI.tally categories p !! c' = categories !! c'.
Proof.
  intros Htable Hparse Hid Hbefore.
  assert (Classifier.categorizeCSESProblem problemId Classifier.getCSESCategories
          = Some c) as Hc.
  { unfold Classifier.categorizeCSESProblem. rewrite Hparse, Htable.
    by apply scan_first. }
  split; [reflexivity|]. split; [exact Hc|].
  intros p categories c' <- Hne. apply tally_other.
  unfold PlatformAPI.classify. rewrite Hc. congruence.
Qed.

Lemma categorize_first_bucket_witness :
  Classifier.categorizeCSESProblem "1619" Classifier.getCSESCategories = Some "intro"
  /\ Classifier.categorizeCSESProblem "1097" Classifier.getCSESCategories = Some "sort"
  /\ Classifier.categorizeCSESProblem "1674" Classifier.getCSESCategories = Some "graph".
Proof.
  pose (T := Classifier.getCSESCategories).
  split; [|split].
  - eapply (categorize_first_bucket "1619" 1619 [] (drop 1 T) "intro");
      [reflexivity | reflexivity | by apply includes_elem_of |].
    apply not_in_buckets. repeat constructor.
  - eapply (categorize_first_bucket "1097" 1097 (take 1 T) (drop 2 T) "sort");
      [reflexivity | reflexivity | by apply includes_elem_of |].
    apply not_in_buckets. repeat constructor.
  - eapply (categorize_first_bucket "1674" 1674 (take 3 T) (drop 4 T) "graph");
      [reflexivity | reflexivity | by apply includes_elem_of |].
    apply not_in_buckets. repeat constructor.
Defined.

(** The ids of the claim do occur in a later bucket as well. *)
Example repeated_ids :
  JS.includes (default [] (snd <$> Classifier.getCSESCategories !! 1%nat)) 1619 = true
  /\ JS.includes (default [] (snd <$> Classifier.getCSESCategories !! 2%nat)) 1097 = true
  /\ JS.includes (default [] (snd <$> Classifier.getCSESCategories !! 5%nat)) 1674 = true.
Proof. repeat split. Qed.

(** ** Manual counters *)

Lemma addCSESProblem_bounded (c : string) (cses : gmap string CPJourney.category) :
  CPJourney.bounded cses -> CPJourney.bounded (CPJourney.addCSESProblem c cses).
Proof.
  unfold CPJourney.bounded, CPJourney.addCSESProblem. intros Hb c' cat'.
  destruct (cses !! c) as [cat|] eqn:Hlook; [|apply Hb].
  destruct (Z.ltb_spec (CPJourney.solved cat) (CPJourney.total cat)); [|apply Hb].
  destruct (decide (c = c')) as [<-|Hne].
  - rewrite lookup_insert_eq. intros [= <-]. simpl. lia.
  - rewrite lookup_insert_ne by assumption. apply Hb.
Qed.

Lemma addCSESProblem_complete (c : string) (cses : gmap string CPJourney.category)
  (cat : CPJourney.category) :
  cses !! c = Some cat -> CPJourney.solved cat = CPJourney.total cat ->
  CPJourney.addCSESProblem c cses = cses.
Proof.
  unfold CPJourney.addCSESProblem. intros -> Heq.
  destruct (Z.ltb_spec (CPJourney.solved cat) (CPJourney.total cat)); [lia | reflexivity].
Qed.

Lemma CPJourney_clicked_bounded (clicks : list string) (n : nat)
  (cses : gmap string CPJourney.category) :
  CPJourney.bounded cses -> CPJourney.bounded (CPJourney.clicked clicks n cses).
Proof.
  unfold CPJourney.clicked. generalize (take n clicks) as l. intros l. revert cses.
  induction l as [|c l IH]; simpl; intros cses Hb; [assumption|].
  apply IH. by apply addCSESProblem_bounded.
Qed.

Lemma addProblem_bounded (c : string) (categories : gmap string CSESManager.category) :
  CSESManager.bounded categories ->
  CSESManager.bounded (CSESManager.addProblem c categories).
Proof.
  unfold CSESManager.bounded, CSESManager.addProblem. intros Hb c' cat'.
  destruct (categories !! c) as [cat|] eqn:Hlook; [|apply Hb].
  destruct (Z.ltb_spec (CSESManager.solved cat) (CSESManager.total cat)); [|apply Hb].
  destruct (decide (c = c')) as [<-|Hne].
  - rewrite lookup_insert_eq. intros [= <-]. simpl. lia.
  - rewrite lookup_insert_ne by assumption. apply Hb.
Qed.

Lemma addProblem_complete (c : string) (categories : gmap string CSESManager.category)
  (cat : CSESManager.category) :
  categories !! c = Some cat -> CSESManager.solved cat = CSESManager.total cat ->
  CSESManager.addProblem c categories = categories.
Proof.
  unfold CSESManager.addProblem. intros -> Heq.
  destruct (Z.ltb_spec (CSESManager.solved cat) (CSESManager.total cat)); [lia | reflexivity].
Qed.

Lemma CSESManager_clicked_bounded (clicks : list string) (n : nat)
  (categories : gmap string CSESManager.category) :
  CSESManager.bounded categories ->
  CSESManager.bounded (CSESManager.clicked clicks n categories).
Proof.
  unfold CSESManager.clicked. generalize (take n clicks) as l. intros l.
  revert categories.
  induction l as [|c l IH]; simpl; intros categories Hb; [assumption|].
  apply IH. by apply addProblem_bounded.
Qed.

(** The claim C1 fails for the sync: twenty rows for task 1068 push the
    counter of [intro] to 20, above its total 19. *)
Lemma sync_counter_exceeds_total :
  exists r cats cat,
    PlatformAPI.fetchCSESProgress Scenario.repeatedRows "alice" = Async.Fulfilled r
    /\ PlatformAPI.c_categories r = Some cats
    /\ cats !! "intro" = Some cat
    /\ PlatformAPI.solved cat = 20
    /\ PlatformAPI.total cat = 19.
Proof.
  eexists _, _, _. split; [reflexivity|]. split; [reflexivity|].
  split; [vm_compute; reflexivity|]. split; reflexivity.
Qed.

(** C1, as the code has it.  Starting from integer counters within their
    totals, every prefix of a sequence of [addCSESProblem] (or
    [addProblem]) clicks leaves every counter within its total, and a
    click on a category with [solved = total] changes nothing.  The
    counters of a CSES sync are within their totals when the scraped list
    of solved problems has no two rows with the same numeric id. *)
Theorem counters_within_totals :
  (forall (clicks : list string) (n : nat) (cses : gmap string CPJourney.category),
      CPJourney.bounded cses ->
      CPJourney.bounded (CPJourney.clicked clicks n cses))
  /\ (forall (c : string) (cses : gmap string CPJourney.category) cat,
         cses !! c = Some cat -> CPJourney.solved cat = CPJourney.total cat ->
         CPJourney.addCSESProblem c cses = cses)
  /\ (forall (clicks : list string) (n : nat)
             (categories : gmap string CSESManager.category),
         CSESManager.bounded categories ->
         CSESManager.bounded (CSESManager.clicked clicks n categories))
  /\ (forall (c : string) (categories : gmap string CSESManager.category) cat,
         categories !! c = Some cat ->
         CSESManager.solved cat = CSESManager.total cat ->
         CSESManager.addProblem c categories = categories)
  /\ (forall (w : World.world) (username : string) r cats,
         PlatformAPI.fetchCSESProgress w username = Async.Fulfilled r ->
         PlatformAPI.c_categories r = Some cats ->
         (forall doc,
             World.getPage w (PlatformAPI.csesUserUrl username) = Async.ret doc ->
             NoDup (omap (fun p => JS.parseInt (PlatformAPI.sp_id p))
                         (PlatformAPI.scrapeSolved doc))) ->
         forall c cat,
           cats !! c = Some cat ->
           PlatformAPI.solved cat <= PlatformAPI.total cat).
Proof.
  split; [exact CPJourney_clicked_bounded|].
  split; [exact addCSESProblem_complete|].
  split; [exact CSESManager_clicked_bounded|].
  split; [exact addProblem_complete|].
  intros w username r cats Hfetch Hcats Hnd c cat Hlook.
  unfold PlatformAPI.fetchCSESProgress in Hfetch.
  destruct (World.getPage w _) as [e|doc] eqn:Hpage; simpl in Hfetch.
  - injection Hfetch as <-. discriminate.
  - injection Hfetch as <-. simpl in Hcats. injection Hcats as <-.
    eapply categorizeSolved_bounded; [|exact Hlook]. by apply Hnd.
Qed.

Lemma counters_within_totals_witness :
  CPJourney.bounded
    (CPJourney.clicked ["intro"; "intro"; "intro"] 3
       {[ "intro" := {| CPJourney.solved := 18; CPJourney.total := 19 |} ]})
  /\ (forall cat,
         PlatformAPI.categorizeSolved
           (PlatformAPI.scrapeSolved
              {| World.taskScoreFull :=
                   [ ("Weird Algorithm", Some "/problemset/task/1068");
                     ("Dice Combinations", Some "/problemset/task/1633") ];
                 World.h2 := []; World.containsProblems := [];
                 World.solvedText := ""; World.submittedText := "";
                 World.activityCells := []; World.submissionRows := [] |})
         !! "intro" = Some cat ->
         PlatformAPI.solved cat <= PlatformAPI.total cat).
Proof.
  destruct counters_within_totals as (Hclicks & _ & _ & _ & Hsync). split.
  - apply Hclicks. intros c cat Hlook.
    apply lookup_singleton_Some in Hlook as [_ <-]. simpl. lia.
  - intros cat.
    apply (Hsync Scenario.twoSolved "alice" _ _ eq_refl eq_refl).
    intros doc [= <-]. apply (bool_decide_unpack _). vm_compute. reflexivity.
Defined.

(** ** Codeforces *)

Lemma bind_ret {A B : Type} (a : A) (k : A -> Async.M B) :
  Async.bind (Async.ret a) k = k a.
Proof. reflexivity. Qed.

Section CodeforcesFacts.

Import World PlatformAPI.

Variable w : world.

Lemma findKey_elem_of (k : string) (l : list dailySolve) :
  findKey k l = true <-> k ∈ key <$> l.
Proof.
  unfold findKey. induction l as [|e l IH]; simpl.
  - split; [discriminate | intros H; inversion H].
  - rewrite elem_of_cons, <- IH, orb_true_iff.
    destruct (String.eqb_spec (key e) k); intuition congruence.
Qed.

(** The first loop on an accepted submission that carries its problem. *)
Lemma recordSolve_accepted (s : submission) (pb : problem)
  (S : gset string) (D : gmap string (list dailySolve)) :
  s_verdict s = Some "OK" -> s_problem s = Some pb ->
  exists today,
    recordSolve w s (S, D)
    = Async.ret ({[ problemKey pb ]} ∪ S, <[ solveDate w s := today ]> D)
    /\ problemKey pb ∈ key <$> today
    /\ (forall k, k ∈ key <$> default [] (D !! solveDate w s) -> k ∈ key <$> today)
    /\ (NoDup (key <$> default [] (D !! solveDate w s)) -> NoDup (key <$> today)).
Proof.
  intros Hv Hpb. unfold recordSolve. rewrite Hpb.
  rewrite bool_decide_eq_true_2 by assumption.
  set (old := default [] (D !! solveDate w s)).
  destruct (findKey (problemKey pb) old) eqn:Hfind.
  - exists old. repeat split; try tauto. by apply findKey_elem_of.
  - eexists. split; [reflexivity|]. rewrite fmap_app. simpl. repeat split.
    + apply elem_of_app. right. left.
    + intros k Hk. apply elem_of_app. by left.
    + intros Hnd. apply NoDup_app. repeat split; [assumption | | apply NoDup_singleton].
      intros k Hk Hk'. apply list_elem_of_singleton in Hk' as ->.
      apply findKey_elem_of in Hk. congruence.
Qed.

Lemma recordSolve_skipped (s : submission)
  (st : gset string * gmap string (list dailySolve)) :
  s_verdict s <> Some "OK" -> recordSolve w s st = Async.ret st.
Proof.
  intros Hv. unfold recordSolve. destruct st as [S D].
  by rewrite bool_decide_eq_false_2.
Qed.

(** What the first loop leaves in the set and in the map. *)
Lemma forEach_recordSolve (subs : list submission)
  (S0 S : gset string) (D0 D : gmap string (list dailySolve)) :
  Async.forEach (recordSolve w) subs (S0, D0) = Async.ret (S, D) ->
  (forall k,
      k ∈ S <->
      k ∈ S0 \/ exists s pb, s ∈ subs /\ s_verdict s = Some "OK"
                             /\ s_problem s = Some pb /\ k = problemKey pb)
  /\ (forall d k, listed D0 d k -> listed D d k)
  /\ (forall s pb, s ∈ subs -> s_verdict s = Some "OK" -> s_problem s = Some pb ->
                   listed D (solveDate w s) (problemKey pb))
  /\ ((forall d l, D0 !! d = Some l -> NoDup (key <$> l)) ->
      forall d l, D !! d = Some l -> NoDup (key <$> l)).
Proof.
  revert S0 D0. induction subs as [|s subs IH]; cbn [Async.forEach]; intros S0 D0 Hrun.
  - injection Hrun as <- <-. repeat split; try tauto.
    + intros [H|(s & pb & Hs & _)]; [assumption | inversion Hs].
    + intros s pb Hs. inversion Hs.
  - destruct (decide (s_verdict s = Some "OK")) as [Hv|Hv]; cycle 1.
    { rewrite recordSolve_skipped, bind_ret in Hrun by assumption.
      destruct (IH _ _ Hrun) as (HS & Hmono & Hnew & Hnd).
      repeat split; try assumption.
      - intros Hk. apply HS in Hk as [Hk|(s' & pb & Hs' & Hrest)]; [by left|].
        right. exists s', pb. split; [by right | assumption].
      - intros [Hk|(s' & pb & Hs' & Hv' & Hrest)]; apply HS; [by left|].
        apply elem_of_cons in Hs' as [->|Hs']; [congruence|].
        right. by exists s', pb.
      - intros s' pb Hs' Hv'. apply elem_of_cons in Hs' as [->|Hs']; [congruence|].
        by apply Hnew. }
    destruct (s_problem s) as [pb|] eqn:Hpb; cycle 1.
    { unfold recordSolve in Hrun. rewrite Hpb in Hrun.
      rewrite bool_decide_eq_true_2 in Hrun by assumption. discriminate. }
    destruct (recordSolve_accepted s pb S0 D0 Hv Hpb)
      as (today & Hstep & Hkey & Hold & Hnodup).
    rewrite Hstep, bind_ret in Hrun.
    destruct (IH _ _ Hrun) as (HS & Hmono & Hnew & Hnd).
    assert (forall d k, listed D0 d k -> listed (<[solveDate w s:=today]> D0) d k)
      as Hmono0.
    { intros d k (l & Hl & Hk). unfold listed.
      destruct (decide (solveDate w s = d)) as [<-|Hne].
      - exists today. rewrite lookup_insert_eq. split; [reflexivity|].
        apply Hold. by rewrite Hl.
      - exists l. by rewrite lookup_insert_ne. }
    repeat split.
    + intros Hk. apply HS in Hk as [Hk|(s' & pb' & Hs' & Hrest)].
      * apply elem_of_union in Hk as [Hk|Hk]; [|by left].
        apply elem_of_singleton in Hk as ->. right. exists s, pb.
        repeat split; [left | assumption | assumption].
      * right. exists s', pb'. split; [by right | assumption].
    + intros [Hk|(s' & pb' & Hs' & Hv' & Hpb' & ->)]; apply HS.
      * left. apply elem_of_union. by right.
      * apply elem_of_cons in Hs' as [->|Hs'].
        -- left. apply elem_of_union. left. apply elem_of_singleton. congruence.
        -- right. by exists s', pb'.
    + intros d k Hl. by apply Hmono, Hmono0.
    + intros s' pb' Hs' Hv' Hpb'. apply elem_of_cons in Hs' as [->|Hs'].
      * apply Hmono. exists today. rewrite lookup_insert_eq.
        split; [reflexivity | congruence].
      * by apply Hnew.
    + intros Hnd0. apply Hnd. intros d l.
      destruct (decide (solveDate w s = d)) as [<-|Hne].
      * rewrite lookup_insert_eq. intros [= <-]. apply Hnodup.
        destruct (D0 !! solveDate w s) as [l0|] eqn:Hl0; simpl;
          [by eapply Hnd0 | constructor].
      * rewrite lookup_insert_ne by assumption. apply Hnd0.
Qed.

(** The first loop runs to its end when every accepted submission carries
    its problem. *)
Lemma forEach_recordSolve_returns (subs : list submission)
  (st : gset string * gmap string (list dailySolve)) :
  Forall (fun s => is_Some (s_problem s)) subs ->
  exists st', Async.forEach (recordSolve w) subs st = Async.ret st'.
Proof.
  intros HF. revert st. induction HF as [|s subs [pb Hpb] HF IH]; intros [S D]; cbn [Async.forEach].
  - by eexists.
  - destruct (decide (s_verdict s = Some "OK")) as [Hv|Hv].
    + destruct (recordSolve_accepted s pb S D Hv Hpb) as (today & -> & _).
      rewrite bind_ret. apply IH.
    + rewrite recordSolve_skipped, bind_ret by assumption. apply IH.
Qed.

(** What the second loop leaves in the set of contests. *)
Lemma forEach_recordContest (subs : list submission) (C0 C : gset (option Z)) :
  Async.forEach recordContest subs C0 = Async.ret C ->
  forall x,
    x ∈ C <->
    x ∈ C0 \/ exists s a, s ∈ subs /\ s_author s = Some a
                          /\ participantType a = "CONTESTANT"
                          /\ s_contestId s = x.
Proof.
  revert C0. induction subs as [|s subs IH]; cbn [Async.forEach]; intros C0 Hrun x.
  - injection Hrun as <-. split; [by left|].
    intros [H|(s & a & Hs & _)]; [assumption | inversion Hs].
  - unfold recordContest in Hrun at 1.
    destruct (s_author s) as [a|] eqn:Ha; [|discriminate].
    destruct (String.eqb_spec (participantType a) "CONTESTANT") as [Hp|Hp];
      rewrite bind_ret in Hrun; rewrite (IH _ Hrun x).
    + rewrite elem_of_union, elem_of_singleton. split.
      * intros [[->|Hx]|(s' & a' & Hs' & Hrest)].
        -- right. exists s, a. repeat split; [left | assumption | assumption].
        -- by left.
        -- right. exists s', a'. split; [by right | assumption].
      * intros [Hx|(s' & a' & Hs' & Ha' & Hp' & Hx)]; [left; by right|].
        apply elem_of_cons in Hs' as [->|Hs'].
        -- left. left. congruence.
        -- right. by exists s', a'.
    + split.
      * intros [Hx|(s' & a' & Hs' & Hrest)]; [by left|].
        right. exists s', a'. split; [by right | assumption].
      * intros [Hx|(s' & a' & Hs' & Ha' & Hp' & Hx)]; [by left|].
        apply elem_of_cons in Hs' as [->|Hs']; [congruence|].
        right. by exists s', a'.
Qed.

Lemma forEach_recordContest_returns (subs : list submission) (C0 : gset (option Z)) :
  Forall (fun s => is_Some (s_author s)) subs ->
  exists C, Async.forEach recordContest subs C0 = Async.ret C.
Proof.
  intros HF. revert C0. induction HF as [|s subs [a Ha] HF IH]; intros C0; cbn [Async.forEach].
  - by eexists.
  - unfold recordContest at 1. rewrite Ha.
    destruct (String.eqb _ _); rewrite bind_ret; apply IH.
Qed.

End CodeforcesFacts.

Section CodeforcesResult.

Import World PlatformAPI.

(** The two ways [fetchCodeforcesProgress] settles: the [catch] branch, or
    the [return] of the [try] block after both requests and both loops. *)
Lemma fetchCodeforcesProgress_cases (w : world) (username : string) :
  (exists msg,
      fetchCodeforcesProgress w username
      = Async.Fulfilled
          {| cf_success := false; cf_error := Some msg; cf_username := None;
             cf_rating := JS.Str "Error"; cf_maxRating := None;
             cf_problemsSolved := 0; cf_contests := 0;
             cf_dailySolves := None; cf_lastUpdated := None |})
  \/ (exists info rest subs S D C,
         getUserInfo w (userInfoUrl username)
         = Async.ret {| ui_status := "OK"; ui_result := info :: rest |}
         /\ getUserStatus w (submissionsUrl username)
            = Async.ret {| us_status := "OK"; us_result := subs |}
         /\ Async.forEach (recordSolve w) subs (∅, ∅) = Async.ret (S, D)
         /\ Async.forEach recordContest subs ∅ = Async.ret C
         /\ fetchCodeforcesProgress w username
            = Async.Fulfilled
                {| cf_success := true; cf_error := None;
                   cf_username := Some username;
                   cf_rating := JS.orElse (u_rating info) (JS.Str "Unrated");
                   cf_maxRating :=
                     Some (JS.orElse (u_maxRating info)
                             (JS.orElse (u_rating info) (JS.Str "Unrated")));
                   cf_problemsSolved := Z.of_nat (size S);
                   cf_contests := Z.of_nat (size C);
                   cf_dailySolves := Some D;
                   cf_lastUpdated := Some (now w CodeforcesLastUpdated) |}).
Proof.
  unfold fetchCodeforcesProgress.
  destruct (getUserInfo w _) as [e|[status1 result1]] eqn:Hinfo;
    [left; by eexists|]. cbn [Async.bind ui_status ui_result].
  destruct (String.eqb_spec status1 "OK") as [->|Hs1]; [|left; by eexists].
  cbn [negb]. destruct result1 as [|info rest]; [left; by eexists|].
  destruct (getUserStatus w _) as [e|[status2 subs]] eqn:Hstatus;
    [left; by eexists|]. cbn [Async.bind us_status us_result].
  destruct (String.eqb_spec status2 "OK") as [->|Hs2]; [|left; by eexists].
  cbn [negb].
  destruct (Async.forEach (recordSolve w) subs (∅, ∅)) as [e|[S D]] eqn:Hloop1;
    [left; by eexists|]. cbn [Async.bind].
  destruct (Async.forEach recordContest subs ∅) as [e|C] eqn:Hloop2;
    [left; by eexists|]. cbn [Async.bind].
  right. exists info, rest, subs, S, D, C. repeat split; assumption.
Qed.

End CodeforcesResult.

(** C10. A failed Codeforces fetch resolves to exactly
    [{success: false, error, rating: 'Error', problemsSolved: 0,
    contests: 0}]: the rating is the string ['Error'], and [username],
    [maxRating], [dailySolves] and [lastUpdated] are absent. *)
Theorem codeforces_failure_shape (w : World.world) (username : string)
  (r : PlatformAPI.codeforcesResult) :
  PlatformAPI.fetchCodeforcesProgress w username = Async.Fulfilled r ->
  PlatformAPI.cf_success r = false ->
  exists msg,
    r = {| PlatformAPI.cf_success := false;
           PlatformAPI.cf_error := Some msg;
           PlatformAPI.cf_username := None;
           PlatformAPI.cf_rating := JS.Str "Error";
           PlatformAPI.cf_maxRating := None;
           PlatformAPI.cf_problemsSolved := 0;
           PlatformAPI.cf_contests := 0;
           PlatformAPI.cf_dailySolves := None;
           PlatformAPI.cf_lastUpdated := None |}.
Proof.
  intros Hfetch Hfail.
  destruct (fetchCodeforcesProgress_cases w username)
    as [[msg Hr]|(info & rest & subs & S & D & C & _ & _ & _ & _ & Hr)];
    rewrite Hr in Hfetch; injection Hfetch as <-.
  - by exists msg.
  - discriminate.
Qed.

Lemma codeforces_failure_shape_witness :
  exists msg,
    {| PlatformAPI.cf_success := false;
       PlatformAPI.cf_error := Some "Network Error";
       PlatformAPI.cf_username := None;
       PlatformAPI.cf_rating := JS.Str "Error";
       PlatformAPI.cf_maxRating := None;
       PlatformAPI.cf_problemsSolved := 0;
       PlatformAPI.cf_contests := 0;
       PlatformAPI.cf_dailySolves := None;
       PlatformAPI.cf_lastUpdated := None |}
    = {| PlatformAPI.cf_success := false;
         PlatformAPI.cf_error := Some msg;
         PlatformAPI.cf_username := None;
         PlatformAPI.cf_rating := JS.Str "Error";
         PlatformAPI.cf_maxRating := None;
         PlatformAPI.cf_problemsSolved := 0;
         PlatformAPI.cf_contests := 0;
         PlatformAPI.cf_dailySolves := None;
         PlatformAPI.cf_lastUpdated := None |}.
Proof.
  apply (codeforces_failure_shape Scenario.offline "alice"); reflexivity.
Defined.

(** The causes of failure and the message each one reports. *)
Example codeforces_failure_messages :
  (exists r, PlatformAPI.fetchCodeforcesProgress Scenario.offline "alice"
             = Async.Fulfilled r
             /\ PlatformAPI.cf_error r = Some "Network Error"
             /\ PlatformAPI.cf_rating r = JS.Str "Error")
  /\ (forall w username e,
         World.getUserInfo w (PlatformAPI.userInfoUrl username) = Async.throw e ->
         exists r, PlatformAPI.fetchCodeforcesProgress w username = Async.Fulfilled r
                   /\ PlatformAPI.cf_success r = false
                   /\ PlatformAPI.cf_error r = Some (Async.message e))
  /\ (forall w username resp,
         World.getUserInfo w (PlatformAPI.userInfoUrl username) = Async.ret resp ->
         World.ui_status resp <> "OK" ->
         exists r, PlatformAPI.fetchCodeforcesProgress w username = Async.Fulfilled r
                   /\ PlatformAPI.cf_success r = false
                   /\ PlatformAPI.cf_error r = Some "User not found on Codeforces").
Proof.
  split; [by eexists|]. split.
  - intros w username e He. unfold PlatformAPI.fetchCodeforcesProgress.
    rewrite He. eexists. split; [reflexivity|]. split; reflexivity.
  - intros w username resp Hresp Hstatus. unfold PlatformAPI.fetchCodeforcesProgress.
    rewrite Hresp. cbn [Async.bind Async.ret].
    destruct (String.eqb_spec (World.ui_status resp) "OK"); [congruence|].
    eexists. split; [reflexivity|]. split; reflexivity.
Qed.

(** C7. The [contests] counter of a successful Codeforces fetch is the
    number of distinct [contestId] values of the submissions whose author
    has participant type [CONTESTANT]: a contest counts once however many
    such submissions it has, and submissions of any other participant type
    contribute nothing.  (A missing [contestId] is the value [undefined],
    which the [Set] holds like any other.) *)
Theorem contests_counts_distinct_contestant_ids (w : World.world)
  (username : string) (r : PlatformAPI.codeforcesResult)
  (resp : World.statusResponse) (ids : list (option Z)) :
  PlatformAPI.fetchCodeforcesProgress w username = Async.Fulfilled r ->
  PlatformAPI.cf_success r = true ->
  World.getUserStatus w (PlatformAPI.submissionsUrl username) = Async.ret resp ->
  NoDup ids ->
  (forall x,
      x ∈ ids <->
      exists s a, s ∈ World.us_result resp
                  /\ World.s_author s = Some a
                  /\ World.participantType a = "CONTESTANT"
                  /\ World.s_contestId s = x) ->
  PlatformAPI.cf_contests r = Z.of_nat (length ids).
Proof.
  intros Hfetch Hok Hresp Hnd Hids.
  destruct (fetchCodeforcesProgress_cases w username)
    as [[msg Hr]|(info & rest & subs & S & D & C & _ & Hsubs & _ & Hloop & Hr)];
    rewrite Hr in Hfetch; injection Hfetch as <-; [discriminate|].
  rewrite Hsubs in Hresp. injection Hresp as <-. simpl in *.
  f_equal. unfold size, set_size. simpl. apply Permutation_length.
  apply NoDup_Permutation; [apply NoDup_elements | assumption |].
  intros x. rewrite elem_of_elements, (forEach_recordContest _ _ _ Hloop x), Hids.
  split; [intros [H|H]; [by apply not_elem_of_empty in H | assumption] | by right].
Qed.

Lemma contests_counts_distinct_contestant_ids_witness :
  exists r,
    PlatformAPI.fetchCodeforcesProgress
      (Scenario.codeforcesOnly Scenario.midnight) "alice" = Async.Fulfilled r
    /\ PlatformAPI.cf_contests r = Z.of_nat (length [Some 1700]).
Proof.
  eexists. split; [reflexivity|].
  apply (contests_counts_distinct_contestant_ids
           (Scenario.codeforcesOnly Scenario.midnight) "alice" _
           {| World.us_status := "OK"; World.us_result := Scenario.threeDays |}).
  - reflexivity.
  - reflexivity.
  - reflexivity.
  - apply NoDup_singleton.
  - intros x. rewrite list_elem_of_singleton. split.
    + intros ->. eexists (Scenario.accepted "B" "Palindromic Numbers" 1704114000), _.
      split; [right; right; left|]. repeat split.
    + intros (s & a & Hs & _ & _ & <-). simpl in Hs.
      repeat (apply elem_of_cons in Hs as [->|Hs]; [reflexivity|]).
      inversion Hs.
Defined.

Section CodeforcesScenario.

Import World PlatformAPI.

Lemma fetchCodeforcesProgress_ok (w : world) (username : string)
  (info : userInfo) (rest : list userInfo) (subs : list submission)
  (S : gset string) (D : gmap string (list dailySolve)) (C : gset (option Z)) :
  getUserInfo w (userInfoUrl username)
  = Async.ret {| ui_status := "OK"; ui_result := info :: rest |} ->
  getUserStatus w (submissionsUrl username)
  = Async.ret {| us_status := "OK"; us_result := subs |} ->
  Async.forEach (recordSolve w) subs (∅, ∅) = Async.ret (S, D) ->
  Async.forEach recordContest subs ∅ = Async.ret C ->
  fetchCodeforcesProgress w username
  = Async.Fulfilled
      {| cf_success := true; cf_error := None;
         cf_username := Some username;
         cf_rating := JS.orElse (u_rating info) (JS.Str "Unrated");
         cf_maxRating :=
           Some (JS.orElse (u_maxRating info)
                   (JS.orElse (u_rating info) (JS.Str "Unrated")));
         cf_problemsSolved := Z.of_nat (size S);
         cf_contests := Z.of_nat (size C);
         cf_dailySolves := Some D;
         cf_lastUpdated := Some (now w CodeforcesLastUpdated) |}.
Proof.
  intros Hinfo Hstatus Hloop1 Hloop2. unfold fetchCodeforcesProgress.
  rewrite Hinfo. cbn [Async.bind Async.ret ui_status ui_result String.eqb Ascii.eqb Bool.eqb negb].
  rewrite Hstatus. cbn [Async.bind Async.ret us_status us_result String.eqb Ascii.eqb Bool.eqb negb].
  rewrite Hloop1. cbn [Async.bind Async.ret]. rewrite Hloop2. reflexivity.
Qed.

End CodeforcesScenario.

(** The claim C3 fails in its own scenario: with (1700,A) accepted on 1, 2
    and 3 January 2024 and (1700,B) on 1 January, [dailySolves] lists
    (1700,A) under all three dates. *)
Lemma three_days_all_listed :
  exists r daily,
    PlatformAPI.fetchCodeforcesProgress
      (Scenario.codeforcesOnly Scenario.midnight) "alice" = Async.Fulfilled r
    /\ PlatformAPI.cf_problemsSolved r = 2
    /\ PlatformAPI.cf_dailySolves r = Some daily
    /\ PlatformAPI.key <$> default [] (daily !! "Mon Jan 01 2024") = ["1700B"; "1700A"]
    /\ PlatformAPI.key <$> default [] (daily !! "Tue Jan 02 2024") = ["1700A"]
    /\ PlatformAPI.key <$> default [] (daily !! "Wed Jan 03 2024") = ["1700A"].
Proof.
  eexists _, _. split; [reflexivity|]. split; [reflexivity|].
  split; [reflexivity|]. split; [|split]; vm_compute; reflexivity.
Qed.

(** C3, as the code has it.  With three accepted submissions for (1700,A)
    on three different calendar days and one for (1700,B), in any order,
    the fetch reports [problemsSolved = 2], and [dailySolves] lists
    (1700,A) under each of the three dates, once per date. *)
Theorem three_days_scenario (w : World.world) (username : string)
  (info : World.userInfo) (rest : list World.userInfo)
  (subs : list World.submission) (nameA nameB : string) (t1 t2 t3 tb : Z) :
  World.getUserInfo w (PlatformAPI.userInfoUrl username)
  = Async.ret {| World.ui_status := "OK"; World.ui_result := info :: rest |} ->
  World.getUserStatus w (PlatformAPI.submissionsUrl username)
  = Async.ret {| World.us_status := "OK"; World.us_result := subs |} ->
  subs ≡ₚ [ Scenario.accepted "A" nameA t1; Scenario.accepted "A" nameA t2;
            Scenario.accepted "A" nameA t3; Scenario.accepted "B" nameB tb ] ->
  World.toDateString w (t1 * 1000) <> World.toDateString w (t2 * 1000) ->
  World.toDateString w (t1 * 1000) <> World.toDateString w (t3 * 1000) ->
  World.toDateString w (t2 * 1000) <> World.toDateString w (t3 * 1000) ->
  exists r daily,
    PlatformAPI.fetchCodeforcesProgress w username = Async.Fulfilled r
    /\ PlatformAPI.cf_problemsSolved r = 2
    /\ PlatformAPI.cf_dailySolves r = Some daily
    /\ forall t, t ∈ [t1; t2; t3] ->
         exists l, daily !! World.toDateString w (t * 1000) = Some l
                   /\ NoDup (PlatformAPI.key <$> l)
                   /\ "1700A" ∈ PlatformAPI.key <$> l.
Proof.
  intros Hinfo Hstatus Hperm _ _ _.
  assert (forall s, s ∈ subs ->
            exists i n t, s = Scenario.accepted i n t /\ (i = "A" \/ i = "B")) as Hall.
  { intros s Hs. rewrite Hperm in Hs.
    repeat (apply elem_of_cons in Hs as [->|Hs]; [do 3 eexists; split; [reflexivity|tauto]|]).
    inversion Hs. }
  destruct (forEach_recordSolve_returns w subs (∅, ∅)) as [[S D] Hloop1].
  { apply Forall_forall. intros s Hs.
    destruct (Hall s Hs) as (i & n & t & -> & _). by eexists. }
  destruct (forEach_recordContest_returns subs ∅) as [C Hloop2].
  { apply Forall_forall. intros s Hs.
    destruct (Hall s Hs) as (i & n & t & -> & _). by eexists. }
  destruct (forEach_recordSolve w _ _ _ _ _ Hloop1) as (HS & _ & Hnew & Hnd).
  eexists _, D. split; [by eapply fetchCodeforcesProgress_ok|].
  split; [|split; [reflexivity|]].
  - simpl. assert (S = {[ "1700A"; "1700B" ]}) as ->; [|reflexivity].
    apply set_eq. intros k. rewrite HS, elem_of_union, !elem_of_singleton. split.
    + intros [Hk|(s & pb & Hs & _ & Hpb & ->)]; [by apply not_elem_of_empty in Hk|].
      destruct (Hall s Hs) as (i & n & t & -> & [->| ->]);
        injection Hpb as <-; [by left | by right].
    + intros [->| ->]; right.
      * exists (Scenario.accepted "A" nameA t1), {| World.p_contestId := Some 1700;
          World.p_index := "A"; World.p_name := nameA; World.p_rating := Some 800 |}.
        rewrite Hperm. repeat split. left.
      * exists (Scenario.accepted "B" nameB tb), {| World.p_contestId := Some 1700;
          World.p_index := "B"; World.p_name := nameB; World.p_rating := Some 800 |}.
        rewrite Hperm. repeat split. do 3 right. left.
  - intros t Ht.
    destruct (Hnew (Scenario.accepted "A" nameA t)
                   {| World.p_contestId := Some 1700; World.p_index := "A";
                      World.p_name := nameA; World.p_rating := Some 800 |})
      as (l & Hl & Hkey); [| reflexivity | reflexivity |].
    { rewrite Hperm.
      repeat (apply elem_of_cons in Ht as [->|Ht]; [repeat first [by left | right]|]).
      inversion Ht. }
    exists l. split; [exact Hl|]. split; [|exact Hkey].
    eapply Hnd; [|exact Hl]. intros d l0 Hl0. by rewrite lookup_empty in Hl0.
Qed.

Lemma three_days_scenario_witness :
  exists r daily,
    PlatformAPI.fetchCodeforcesProgress
      (Scenario.codeforcesOnly Scenario.midnight) "alice" = Async.Fulfilled r
    /\ PlatformAPI.cf_problemsSolved r = 2
    /\ PlatformAPI.cf_dailySolves r = Some daily
    /\ forall t, t ∈ [1704110400; 1704196800; 1704283200] ->
         exists l, daily !! UTC.toDateString (t * 1000) = Some l
                   /\ NoDup (PlatformAPI.key <$> l)
                   /\ "1700A" ∈ PlatformAPI.key <$> l.
Proof.
  apply (three_days_scenario (Scenario.codeforcesOnly Scenario.midnight) "alice"
           {| World.u_rating := Some 1500; World.u_maxRating := Some 1600 |} []
           Scenario.threeDays "Great Sequence" "Palindromic Numbers"
           1704110400 1704196800 1704283200 1704114000).
  - reflexivity.
  - reflexivity.
  - unfold Scenario.threeDays.
    etransitivity; [apply Permutation_rev|]. cbn [rev app].
    apply perm_skip.
    apply (Permutation_cons_append
             [Scenario.accepted "A" "Great Sequence" 1704196800;
              Scenario.accepted "A" "Great Sequence" 1704283200]).
  - vm_compute. discriminate.
  - vm_compute. discriminate.
  - vm_compute. discriminate.
Defined.

(** ** Settling *)

Section Settling.

Import World PlatformAPI.

Lemma fetchCSESProgress_settles (w : world) (username : string) :
  (exists doc,
      getPage w (csesUserUrl username) = Async.ret doc
      /\ fetchCSESProgress w username
         = Async.Fulfilled
             {| c_success := true; c_error := None;
                c_totalSolved := Z.of_nat (length (scrapeSolved doc));
                c_categories := Some (categorizeSolved (scrapeSolved doc));
                c_lastUpdated := Some (now w CsesLastUpdated) |})
  \/ (exists e,
         getPage w (csesUserUrl username) = Async.throw e
         /\ fetchCSESProgress w username
            = Async.Fulfilled
                {| c_success := false; c_error := Some (Async.message e);
                   c_totalSolved := 0; c_categories := None;
                   c_lastUpdated := None |}).
Proof.
  unfold fetchCSESProgress.
  destruct (getPage w (csesUserUrl username)) as [e|doc].
  - right. by exists e.
  - left. by exists doc.
Qed.

Lemma fetchVJudgeProgress_settles (w : world) (username : string) :
  exists r,
    fetchVJudgeProgress w username = Async.Fulfilled r
    /\ (v_success r = false ->
        exists msg,
          r = {| v_success := false; v_error := Some msg; v_username := None;
                 v_totalSolved := 0; v_totalSubmitted := None;
                 v_dailyActivity := None; v_recentSolves := None;
                 v_lastUpdated := None |}).
Proof.
  unfold fetchVJudgeProgress.
  destruct (getPage w (vjudgeUserUrl username)) as [e|doc];
    [eexists; split; [reflexivity | by eexists]|].
  cbn [Async.bind].
  destruct (getPage w (vjudgeSubmissionsUrl username)) as [e|subs];
    [eexists; split; [reflexivity | by eexists]|].
  eexists. split; [reflexivity | discriminate].
Qed.

Lemma fetchCSESProgress_fulfils (w : world) (username : string) :
  exists r, fetchCSESProgress w username = Async.Fulfilled r.
Proof.
  destruct (fetchCSESProgress_settles w username) as [(doc & _ & ->)|(e & _ & ->)];
    by eexists.
Qed.

Lemma fetchCodeforcesProgress_fulfils (w : world) (username : string) :
  exists r, fetchCodeforcesProgress w username = Async.Fulfilled r.
Proof.
  destruct (fetchCodeforcesProgress_cases w username)
    as [[msg ->]|(info & rest & subs & S & D & C & _ & _ & _ & _ & ->)];
    by eexists.
Qed.

Lemma fetchVJudgeProgress_fulfils (w : world) (username : string) :
  exists r, fetchVJudgeProgress w username = Async.Fulfilled r.
Proof.
  destruct (fetchVJudgeProgress_settles w username) as (r & -> & _). by eexists.
Qed.

(** The run that settles the promises in array order. *)
Lemma allSettled_in_order (w : world) (pending : list promise) (r : syncResults) :
  allSettled w pending r (fold_left (settle w) pending r).
Proof.
  revert r. induction pending as [|p pending IH]; intros r; simpl.
  - constructor.
  - apply (allSettled_settle w [] pending p). apply IH.
Qed.

Lemma allSettled_syncTime (w : world) (pending : list promise) (r0 r : syncResults) :
  allSettled w pending r0 r -> r_syncTime r = r_syncTime r0.
Proof.
  induction 1 as [r|before after p r r' _ IH]; [reflexivity|].
  rewrite IH. unfold settle.
  destruct p as [u|u|u];
    [destruct (fetchCSESProgress w u) | destruct (fetchCodeforcesProgress w u)
     | destruct (fetchVJudgeProgress w u)]; reflexivity.
Qed.

Lemma elem_of_middle_ne {A : Type} (x p : A) (before after : list A) :
  x ∈ (before ++ p :: after)%list -> x <> p -> x ∈ (before ++ after)%list.
Proof.
  rewrite !elem_of_app, elem_of_cons. intuition congruence.
Qed.

Lemma elem_of_middle {A : Type} (x p : A) (before after : list A) :
  x ∈ (before ++ after)%list -> x ∈ (before ++ p :: after)%list.
Proof.
  rewrite !elem_of_app, elem_of_cons. intuition.
Qed.

(** Whatever the order of settlement, the [cses] entry is the result of
    the CSES fetch once that fetch has been requested. *)
Lemma allSettled_cses (w : world) (pending : list promise) (r0 r : syncResults)
  (u : string) (res : csesResult) :
  allSettled w pending r0 r ->
  fetchCSESProgress w u = Async.Fulfilled res ->
  (forall u', CsesPromise u' ∈ pending -> u' = u) ->
  r_cses r0 = Some res \/ CsesPromise u ∈ pending ->
  r_cses r = Some res.
Proof.
  intros Hrun Hres. induction Hrun as [r|before after p r r' _ IH]; intros Huniq Hstart.
  - destruct Hstart as [H|H]; [assumption | inversion H].
  - apply IH.
    + intros u' Hu'. apply Huniq. by apply elem_of_middle.
    + destruct p as [u'|u'|u']; unfold settle.
      * assert (u' = u) as -> by (apply Huniq, elem_of_app; right; left).
        rewrite Hres. by left.
      * destruct (fetchCodeforcesProgress w u'); simpl;
          (destruct Hstart as [H|H]; [by left | right]);
          by apply (elem_of_middle_ne _ (CodeforcesPromise u')).
      * destruct (fetchVJudgeProgress w u'); simpl;
          (destruct Hstart as [H|H]; [by left | right]);
          by apply (elem_of_middle_ne _ (VJudgePromise u')).
Qed.

Lemma allSettled_codeforces (w : world) (pending : list promise)
  (r0 r : syncResults) (u : string) (res : codeforcesResult) :
  allSettled w pending r0 r ->
  fetchCodeforcesProgress w u = Async.Fulfilled res ->
  (forall u', CodeforcesPromise u' ∈ pending -> u' = u) ->
  r_codeforces r0 = Some res \/ CodeforcesPromise u ∈ pending ->
  r_codeforces r = Some res.
Proof.
  intros Hrun Hres. induction Hrun as [r|before after p r r' _ IH]; intros Huniq Hstart.
  - destruct Hstart as [H|H]; [assumption | inversion H].
  - apply IH.
    + intros u' Hu'. apply Huniq. by apply elem_of_middle.
    + destruct p as [u'|u'|u']; unfold settle.
      * destruct (fetchCSESProgress w u'); simpl;
          (destruct Hstart as [H|H]; [by left | right]);
          by apply (elem_of_middle_ne _ (CsesPromise u')).
      * assert (u' = u) as -> by (apply Huniq, elem_of_app; right; left).
        rewrite Hres. by left.
      * destruct (fetchVJudgeProgress w u'); simpl;
          (destruct Hstart as [H|H]; [by left | right]);
          by apply (elem_of_middle_ne _ (VJudgePromise u')).
Qed.

Lemma allSettled_vjudge (w : world) (pending : list promise)
  (r0 r : syncResults) (u : string) (res : vjudgeResult) :
  allSettled w pending r0 r ->
  fetchVJudgeProgress w u = Async.Fulfilled res ->
  (forall u', VJudgePromise u' ∈ pending -> u' = u) ->
  r_vjudge r0 = Some res \/ VJudgePromise u ∈ pending ->
  r_vjudge r = Some res.
Proof.
  intros Hrun Hres. induction Hrun as [r|before after p r r' _ IH]; intros Huniq Hstart.
  - destruct Hstart as [H|H]; [assumption | inversion H].
  - apply IH.
    + intros u' Hu'. apply Huniq. by apply elem_of_middle.
    + destruct p as [u'|u'|u']; unfold settle.
      * destruct (fetchCSESProgress w u'); simpl;
          (destruct Hstart as [H|H]; [by left | right]);
          by apply (elem_of_middle_ne _ (CsesPromise u')).
      * destruct (fetchCodeforcesProgress w u'); simpl;
          (destruct Hstart as [H|H]; [by left | right]);
          by apply (elem_of_middle_ne _ (CodeforcesPromise u')).
      * assert (u' = u) as -> by (apply Huniq, elem_of_app; right; left).
        rewrite Hres. by left.
Qed.

(** A platform that was not requested keeps its [null] entry. *)
Lemma allSettled_untouched (w : world) (pending : list promise) (r0 r : syncResults) :
  allSettled w pending r0 r ->
  ((forall u, CsesPromise u ∉ pending) -> r_cses r = r_cses r0)
  /\ ((forall u, CodeforcesPromise u ∉ pending) -> r_codeforces r = r_codeforces r0)
  /\ ((forall u, VJudgePromise u ∉ pending) -> r_vjudge r = r_vjudge r0).
Proof.
  induction 1 as [r|before after p r r' _ (IH1 & IH2 & IH3)]; [tauto|].
  repeat split; intros Hnone.
  - rewrite IH1 by (intros u Hu; by apply (Hnone u), elem_of_middle).
    destruct p as [u|u|u]; unfold settle.
    + exfalso. apply (Hnone u), elem_of_app. right. left.
    + by destruct (fetchCodeforcesProgress w u).
    + by destruct (fetchVJudgeProgress w u).
  - rewrite IH2 by (intros u Hu; by apply (Hnone u), elem_of_middle).
    destruct p as [u|u|u]; unfold settle.
    + by destruct (fetchCSESProgress w u).
    + exfalso. apply (Hnone u), elem_of_app. right. left.
    + by destruct (fetchVJudgeProgress w u).
  - rewrite IH3 by (intros u Hu; by apply (Hnone u), elem_of_middle).
    destruct p as [u|u|u]; unfold settle.
    + by destruct (fetchCSESProgress w u).
    + by destruct (fetchCodeforcesProgress w u).
    + exfalso. apply (Hnone u), elem_of_app. right. left.
Qed.

(** The [promises] array holds a promise for [p] exactly when the handle
    of [p] is present and not empty. *)
Lemma elem_of_promises (u : usernames) (p : promise) :
  p ∈ promises u <->
  match p with
  | CsesPromise n => cses u = Some n /\ JS.truthy n = true
  | CodeforcesPromise n => codeforces u = Some n /\ JS.truthy n = true
  | VJudgePromise n => vjudge u = Some n /\ JS.truthy n = true
  end.
Proof.
  unfold promises, requested. rewrite !elem_of_app.
  destruct u as [[a|] [b|] [c|]]; simpl;
    repeat match goal with |- context [JS.truthy ?x] => destruct (JS.truthy x) eqn:? end;
    rewrite ?list_elem_of_singleton; destruct p as [n|n|n];
    split; intros H; decompose [and or] H; subst;
    try match goal with H : _ ∈ [] |- _ => inversion H end;
    try discriminate; simplify_eq; try congruence; auto.
Qed.

End Settling.

(** The entries of the object a run returns, as functions of the
    handles. *)
Lemma sync_cses_entry (w : World.world) (u : PlatformAPI.usernames)
  (r : PlatformAPI.syncResults) :
  PlatformAPI.syncAllPlatforms_returns w u r ->
  PlatformAPI.r_cses r
  = match PlatformAPI.requested (PlatformAPI.cses u) PlatformAPI.CsesPromise with
    | [] => None
    | _ => n ← PlatformAPI.cses u;
           match PlatformAPI.fetchCSESProgress w n with
           | Async.Fulfilled res => Some res
           | Async.Rejected _ => None
           end
    end.
Proof.
  unfold PlatformAPI.syncAllPlatforms_returns. intros Hrun.
  unfold PlatformAPI.requested.
  destruct (PlatformAPI.cses u) as [n|] eqn:Hn; cycle 1.
  { destruct (allSettled_untouched _ _ _ _ Hrun) as (Hkeep & _).
    rewrite Hkeep; [reflexivity|].
    intros n' Hn'. apply elem_of_promises in Hn' as [Hn' _]. congruence. }
  destruct (JS.truthy n) eqn:Ht; cycle 1.
  { destruct (allSettled_untouched _ _ _ _ Hrun) as (Hkeep & _).
    rewrite Hkeep; [reflexivity|].
    intros n' Hn'. apply elem_of_promises in Hn' as [Hn' Ht']. congruence. }
  destruct (fetchCSESProgress_fulfils w n) as [res Hres]. simpl. rewrite Hres.
  eapply allSettled_cses; [exact Hrun | exact Hres | |].
  - intros n' Hn'. apply elem_of_promises in Hn' as [Hn' _]. congruence.
  - right. by apply elem_of_promises.
Qed.

Lemma sync_codeforces_entry (w : World.world) (u : PlatformAPI.usernames)
  (r : PlatformAPI.syncResults) :
  PlatformAPI.syncAllPlatforms_returns w u r ->
  PlatformAPI.r_codeforces r
  = match PlatformAPI.requested (PlatformAPI.codeforces u)
            PlatformAPI.CodeforcesPromise with
    | [] => None
    | _ => n ← PlatformAPI.codeforces u;
           match PlatformAPI.fetchCodeforcesProgress w n with
           | Async.Fulfilled res => Some res
           | Async.Rejected _ => None
           end
    end.
Proof.
  unfold PlatformAPI.syncAllPlatforms_returns. intros Hrun.
  unfold PlatformAPI.requested.
  destruct (PlatformAPI.codeforces u) as [n|] eqn:Hn; cycle 1.
  { destruct (allSettled_untouched _ _ _ _ Hrun) as (_ & Hkeep & _).
    rewrite Hkeep; [reflexivity|].
    intros n' Hn'. apply elem_of_promises in Hn' as [Hn' _]. congruence. }
  destruct (JS.truthy n) eqn:Ht; cycle 1.
  { destruct (allSettled_untouched _ _ _ _ Hrun) as (_ & Hkeep & _).
    rewrite Hkeep; [reflexivity|].
    intros n' Hn'. apply elem_of_promises in Hn' as [Hn' Ht']. congruence. }
  destruct (fetchCodeforcesProgress_fulfils w n) as [res Hres]. simpl. rewrite Hres.
  eapply allSettled_codeforces; [exact Hrun | exact Hres | |].
  - intros n' Hn'. apply elem_of_promises in Hn' as [Hn' _]. congruence.
  - right. by apply elem_of_promises.
Qed.

Lemma sync_vjudge_entry (w : World.world) (u : PlatformAPI.usernames)
  (r : PlatformAPI.syncResults) :
  PlatformAPI.syncAllPlatforms_returns w u r ->
  PlatformAPI.r_vjudge r
  = match PlatformAPI.requested (PlatformAPI.vjudge u) PlatformAPI.VJudgePromise with
    | [] => None
    | _ => n ← PlatformAPI.vjudge u;
           match PlatformAPI.fetchVJudgeProgress w n with
           | Async.Fulfilled res => Some res
           | Async.Rejected _ => None
           end
    end.
Proof.
  unfold PlatformAPI.syncAllPlatforms_returns. intros Hrun.
  unfold PlatformAPI.requested.
  destruct (PlatformAPI.vjudge u) as [n|] eqn:Hn; cycle 1.
  { destruct (allSettled_untouched _ _ _ _ Hrun) as (_ & _ & Hkeep).
    rewrite Hkeep; [reflexivity|].
    intros n' Hn'. apply elem_of_promises in Hn' as [Hn' _]. congruence. }
  destruct (JS.truthy n) eqn:Ht; cycle 1.
  { destruct (allSettled_untouched _ _ _ _ Hrun) as (_ & _ & Hkeep).
    rewrite Hkeep; [reflexivity|].
    intros n' Hn'. apply elem_of_promises in Hn' as [Hn' Ht']. congruence. }
  destruct (fetchVJudgeProgress_fulfils w n) as [res Hres]. simpl. rewrite Hres.
  eapply allSettled_vjudge; [exact Hrun | exact Hres | |].
  - intros n' Hn'. apply elem_of_promises in Hn' as [Hn' _]. congruence.
  - right. by apply elem_of_promises.
Qed.

(** The entry of each platform, by handle. *)
Lemma synced_cses (w : World.world) (u : PlatformAPI.usernames)
  (r : PlatformAPI.syncResults) :
  PlatformAPI.syncAllPlatforms_returns w u r ->
  match Server.orNull (PlatformAPI.cses u) with
  | Some n =>
      exists res,
        PlatformAPI.fetchCSESProgress w n = Async.Fulfilled res
        /\ PlatformAPI.r_cses r = Some res
  | None => PlatformAPI.r_cses r = None
  end.
Proof.
  intros Hrun. rewrite (sync_cses_entry w u r Hrun).
  unfold PlatformAPI.requested, Server.orNull.
  destruct (PlatformAPI.cses u) as [n|]; [|reflexivity].
  destruct (JS.truthy n); [|reflexivity]. cbn.
  destruct (fetchCSESProgress_fulfils w n) as [res ->]. by exists res.
Qed.

Lemma synced_codeforces (w : World.world) (u : PlatformAPI.usernames)
  (r : PlatformAPI.syncResults) :
  PlatformAPI.syncAllPlatforms_returns w u r ->
  match Server.orNull (PlatformAPI.codeforces u) with
  | Some n =>
      exists res,
        PlatformAPI.fetchCodeforcesProgress w n = Async.Fulfilled res
        /\ PlatformAPI.r_codeforces r = Some res
  | None => PlatformAPI.r_codeforces r = None
  end.
Proof.
  intros Hrun. rewrite (sync_codeforces_entry w u r Hrun).
  unfold PlatformAPI.requested, Server.orNull.
  destruct (PlatformAPI.codeforces u) as [n|]; [|reflexivity].
  destruct (JS.truthy n); [|reflexivity]. cbn.
  destruct (fetchCodeforcesProgress_fulfils w n) as [res ->]. by exists res.
Qed.

Lemma synced_vjudge (w : World.world) (u : PlatformAPI.usernames)
  (r : PlatformAPI.syncResults) :
  PlatformAPI.syncAllPlatforms_returns w u r ->
  match Server.orNull (PlatformAPI.vjudge u) with
  | Some n =>
      exists res,
        PlatformAPI.fetchVJudgeProgress w n = Async.Fulfilled res
        /\ PlatformAPI.r_vjudge r = Some res
  | None => PlatformAPI.r_vjudge r = None
  end.
Proof.
  intros Hrun. rewrite (sync_vjudge_entry w u r Hrun).
  unfold PlatformAPI.requested, Server.orNull.
  destruct (PlatformAPI.vjudge u) as [n|]; [|reflexivity].
  destruct (JS.truthy n); [|reflexivity]. cbn.
  destruct (fetchVJudgeProgress_fulfils w n) as [res ->]. by exists res.
Qed.

(** For an object argument the call fulfils with the result of the run
    that settles the promises in array order. *)
Lemma syncAllPlatforms_handles (w : World.world) (u : PlatformAPI.usernames) :
  PlatformAPI.syncAllPlatforms w (PlatformAPI.Handles u)
  = Async.Fulfilled
      (fold_left (PlatformAPI.settle w) (PlatformAPI.promises u)
         (PlatformAPI.initialResults w)).
Proof.
  unfold PlatformAPI.syncAllPlatforms, PlatformAPI.property, PlatformAPI.promises.
  rewrite !bind_ret. cbv zeta. by rewrite <- app_assoc.
Qed.

(** All runs of [syncAllPlatforms] return the same object, whatever the
    order in which the promises settle. *)
Lemma sync_run_unique (w : World.world) (u : PlatformAPI.usernames)
  (r : PlatformAPI.syncResults) :
  PlatformAPI.syncAllPlatforms_returns w u r ->
  r = fold_left (PlatformAPI.settle w) (PlatformAPI.promises u)
        (PlatformAPI.initialResults w).
Proof.
  intros Hrun.
  pose proof (allSettled_in_order w (PlatformAPI.promises u)
                (PlatformAPI.initialResults w)) as Hrun0.
  fold (PlatformAPI.syncAllPlatforms_returns w u
          (fold_left (PlatformAPI.settle w) (PlatformAPI.promises u)
             (PlatformAPI.initialResults w))) in Hrun0.
  pose proof (sync_cses_entry w u _ Hrun) as H1.
  pose proof (sync_codeforces_entry w u _ Hrun) as H2.
  pose proof (sync_vjudge_entry w u _ Hrun) as H3.
  pose proof (allSettled_syncTime _ _ _ _ Hrun) as H4.
  rewrite <- (sync_cses_entry w u _ Hrun0) in H1.
  rewrite <- (sync_codeforces_entry w u _ Hrun0) in H2.
  rewrite <- (sync_vjudge_entry w u _ Hrun0) in H3.
  rewrite <- (allSettled_syncTime _ _ _ _ Hrun0) in H4.
  destruct r, (fold_left _ _ _); cbn in *. congruence.
Qed.

(** The claim C5 fails for the full sync: [usernames.cses] is read outside
    any [try], so a call without an argument, or with [null], rejects even
    when every site answers. *)
Lemma sync_rejects_missing_usernames :
  PlatformAPI.syncAllPlatforms (Scenario.online Scenario.midnight)
    PlatformAPI.Undefined
  = Async.Rejected
      (Async.Error "Cannot read properties of undefined (reading 'cses')")
  /\ PlatformAPI.syncAllPlatforms (Scenario.online Scenario.midnight)
       PlatformAPI.Null
     = Async.Rejected
         (Async.Error "Cannot read properties of null (reading 'cses')").
Proof. split; reflexivity. Qed.

(** C5, as the code has it.  Each per-platform fetch always fulfils with a
    response object; a fetch that failed fulfils with [success: false],
    the error message and the platform's zeroed fields.  The full sync
    fulfils for every argument whose properties can be read, and rejects
    exactly for [null] and [undefined]. *)
Theorem fetches_always_resolve :
  (forall (w : World.world) (username : string),
      exists r,
        PlatformAPI.fetchCSESProgress w username = Async.Fulfilled r
        /\ (PlatformAPI.c_success r = false ->
            exists msg,
              r = {| PlatformAPI.c_success := false;
                     PlatformAPI.c_error := Some msg;
                     PlatformAPI.c_totalSolved := 0;
                     PlatformAPI.c_categories := None;
                     PlatformAPI.c_lastUpdated := None |}))
  /\ (forall (w : World.world) (username : string),
         exists r,
           PlatformAPI.fetchCodeforcesProgress w username = Async.Fulfilled r
           /\ (PlatformAPI.cf_success r = false ->
               exists msg,
                 r = {| PlatformAPI.cf_success := false;
                        PlatformAPI.cf_error := Some msg;
                        PlatformAPI.cf_username := None;
                        PlatformAPI.cf_rating := JS.Str "Error";
                        PlatformAPI.cf_maxRating := None;
                        PlatformAPI.cf_problemsSolved := 0;
                        PlatformAPI.cf_contests := 0;
                        PlatformAPI.cf_dailySolves := None;
                        PlatformAPI.cf_lastUpdated := None |}))
  /\ (forall (w : World.world) (username : string),
         exists r,
           PlatformAPI.fetchVJudgeProgress w username = Async.Fulfilled r
           /\ (PlatformAPI.v_success r = false ->
               exists msg,
                 r = {| PlatformAPI.v_success := false;
                        PlatformAPI.v_error := Some msg;
                        PlatformAPI.v_username := None;
                        PlatformAPI.v_totalSolved := 0;
                        PlatformAPI.v_totalSubmitted := None;
                        PlatformAPI.v_dailyActivity := None;
                        PlatformAPI.v_recentSolves := None;
                        PlatformAPI.v_lastUpdated := None |}))
  /\ (forall (w : World.world) (u : PlatformAPI.usernames),
         exists r,
           PlatformAPI.syncAllPlatforms w (PlatformAPI.Handles u) = Async.Fulfilled r
           /\ PlatformAPI.syncAllPlatforms_returns w u r)
  /\ (forall (w : World.world) (a : PlatformAPI.argument),
         (exists e, PlatformAPI.syncAllPlatforms w a = Async.Rejected e)
         <-> a = PlatformAPI.Null \/ a = PlatformAPI.Undefined).
Proof.
  split; [|split; [|split; [|split]]].
  - intros w username.
    destruct (fetchCSESProgress_settles w username) as [(doc & _ & ->)|(e & _ & ->)];
      eexists; (split; [reflexivity|]); [discriminate | by eexists].
  - intros w username.
    destruct (fetchCodeforcesProgress_cases w username)
      as [[msg ->]|(info & rest & subs & S & D & C & _ & _ & _ & _ & ->)];
      eexists; (split; [reflexivity|]); [by eexists | discriminate].
  - apply fetchVJudgeProgress_settles.
  - intros w u. eexists. split; [apply syncAllPlatforms_handles|].
    apply allSettled_in_order.
  - intros w [| |u]; split.
    + by left.
    + intros _. by eexists.
    + by right.
    + intros _. by eexists.
    + rewrite syncAllPlatforms_handles. by intros [e He].
    + by intros [|].
Qed.

(** With every request failing, the sync still fulfils, with three
    failure entries. *)
Lemma fetches_always_resolve_witness :
  exists r,
    PlatformAPI.syncAllPlatforms Scenario.offline
      (PlatformAPI.Handles Scenario.allHandles)
    = Async.Fulfilled r
    /\ PlatformAPI.syncAllPlatforms_returns Scenario.offline Scenario.allHandles r
    /\ PlatformAPI.c_success <$> PlatformAPI.r_cses r = Some false
    /\ PlatformAPI.cf_success <$> PlatformAPI.r_codeforces r = Some false
    /\ PlatformAPI.v_success <$> PlatformAPI.r_vjudge r = Some false.
Proof.
  destruct fetches_always_resolve as (_ & _ & _ & Hsync & _).
  destruct (Hsync Scenario.offline Scenario.allHandles) as (r & Heq & Hrun).
  exists r. split; [exact Heq|]. split; [exact Hrun|].
  injection Heq as <-. repeat split.
Defined.

(** C4. A call of [syncAllPlatforms] with an object of handles fulfils,
    and it fulfils with the same object in whatever order the fetches
    settle.  In that object the entry of each requested platform is the
    result of that platform's own fetch (so a failure elsewhere neither
    alters nor drops it), no requested entry is still [null], and the
    entry of a platform that was not requested is [null]. *)
Theorem sync_isolates_platforms (w : World.world) (u : PlatformAPI.usernames) :
  exists r,
    PlatformAPI.syncAllPlatforms w (PlatformAPI.Handles u) = Async.Fulfilled r
    /\ PlatformAPI.syncAllPlatforms_returns w u r
    /\ (forall r', PlatformAPI.syncAllPlatforms_returns w u r' -> r' = r)
    /\ (forall n, PlatformAPI.cses u = Some n -> JS.truthy n = true ->
                  exists res, PlatformAPI.fetchCSESProgress w n = Async.Fulfilled res
                              /\ PlatformAPI.r_cses r = Some res)
    /\ (forall n, PlatformAPI.codeforces u = Some n -> JS.truthy n = true ->
                  exists res, PlatformAPI.fetchCodeforcesProgress w n = Async.Fulfilled res
                              /\ PlatformAPI.r_codeforces r = Some res)
    /\ (forall n, PlatformAPI.vjudge u = Some n -> JS.truthy n = true ->
                  exists res, PlatformAPI.fetchVJudgeProgress w n = Async.Fulfilled res
                              /\ PlatformAPI.r_vjudge r = Some res)
    /\ (PlatformAPI.requested (PlatformAPI.cses u) PlatformAPI.CsesPromise = [] ->
        PlatformAPI.r_cses r = None)
    /\ (PlatformAPI.requested (PlatformAPI.codeforces u) PlatformAPI.CodeforcesPromise = [] ->
        PlatformAPI.r_codeforces r = None)
    /\ (PlatformAPI.requested (PlatformAPI.vjudge u) PlatformAPI.VJudgePromise = [] ->
        PlatformAPI.r_vjudge r = None).
Proof.
  eexists. split; [apply syncAllPlatforms_handles|].
  pose proof (allSettled_in_order w (PlatformAPI.promises u)
                (PlatformAPI.initialResults w)) as Hrun.
  split; [exact Hrun|]. split; [intros r'; apply sync_run_unique|].
  pose proof (sync_cses_entry w u _ Hrun) as Hcses.
  pose proof (sync_codeforces_entry w u _ Hrun) as Hcf.
  pose proof (sync_vjudge_entry w u _ Hrun) as Hvj.
  split; [|split; [|split; [|split; [|split]]]].
  - intros n Hn Ht. destruct (fetchCSESProgress_fulfils w n) as [res Hres].
    exists res. split; [exact Hres|].
    unfold PlatformAPI.requested in Hcses. rewrite Hn, Ht in Hcses. simpl in Hcses.
    by rewrite Hres in Hcses.
  - intros n Hn Ht. destruct (fetchCodeforcesProgress_fulfils w n) as [res Hres].
    exists res. split; [exact Hres|].
    unfold PlatformAPI.requested in Hcf. rewrite Hn, Ht in Hcf. simpl in Hcf.
    by rewrite Hres in Hcf.
  - intros n Hn Ht. destruct (fetchVJudgeProgress_fulfils w n) as [res Hres].
    exists res. split; [exact Hres|].
    unfold PlatformAPI.requested in Hvj. rewrite Hn, Ht in Hvj. simpl in Hvj.
    by rewrite Hres in Hvj.
  - intros Hnone. by rewrite Hnone in Hcses.
  - intros Hnone. by rewrite Hnone in Hcf.
  - intros Hnone. by rewrite Hnone in Hvj.
Qed.

(** The example of the specification: CSES fails and Codeforces succeeds;
    the run in which the promises settle in the order VJudge, CSES,
    Codeforces returns what the call returns. *)
Lemma sync_isolates_platforms_witness :
  exists r cf cs,
    PlatformAPI.syncAllPlatforms (Scenario.codeforcesOnly Scenario.midnight)
      (PlatformAPI.Handles Scenario.allHandles)
    = Async.Fulfilled r
    /\ PlatformAPI.r_codeforces r = Some cf
    /\ PlatformAPI.cf_success cf = true
    /\ PlatformAPI.cf_problemsSolved cf = 2
    /\ PlatformAPI.r_cses r = Some cs
    /\ PlatformAPI.c_success cs = false
    /\ forall r',
         PlatformAPI.allSettled (Scenario.codeforcesOnly Scenario.midnight)
           [ PlatformAPI.CodeforcesPromise "alice" ]
           (PlatformAPI.settle (Scenario.codeforcesOnly Scenario.midnight)
              (PlatformAPI.settle (Scenario.codeforcesOnly Scenario.midnight)
                 (PlatformAPI.initialResults (Scenario.codeforcesOnly Scenario.midnight))
                 (PlatformAPI.VJudgePromise "alice"))
              (PlatformAPI.CsesPromise "alice"))
           r' ->
         r' = r.
Proof.
  pose (w := Scenario.codeforcesOnly Scenario.midnight).
  destruct (sync_isolates_platforms w Scenario.allHandles)
    as (r & Hcall & _ & Hunique & Hcses & Hcf & _).
  destruct (Hcses "alice" eq_refl eq_refl) as (cs & Hcs & Hrcs).
  destruct (Hcf "alice" eq_refl eq_refl) as (cf & Hcfr & Hrcf).
  exists r, cf, cs. split; [exact Hcall|].
  injection Hcs as <-. injection Hcfr as <-.
  split; [exact Hrcf|]. split; [reflexivity|]. split; [reflexivity|].
  split; [exact Hrcs|]. split; [reflexivity|].
  intros r' Hrest. apply Hunique.
  unfold PlatformAPI.syncAllPlatforms_returns.
  apply (PlatformAPI.allSettled_settle w
           [PlatformAPI.CsesPromise "alice"; PlatformAPI.CodeforcesPromise "alice"]
           [] (PlatformAPI.VJudgePromise "alice")).
  apply (PlatformAPI.allSettled_settle w []
           [PlatformAPI.CodeforcesPromise "alice"] (PlatformAPI.CsesPromise "alice")).
  exact Hrest.
Defined.

(** ** The clock *)

Section Clock.

Import World PlatformAPI.

Lemma recordSolve_atClock (clock : site -> string) (w : world) :
  recordSolve (atClock clock w) = recordSolve w.
Proof. reflexivity. Qed.

Lemma recordRecent_atClock (clock : site -> string) (w : world) :
  recordRecent (atClock clock w) = recordRecent w.
Proof. reflexivity. Qed.

(** A fetch at two clocks over the same sites: the same fields, and the
    time stamp of each clock when it reports success. *)
Lemma fetchCSESProgress_clock (w : world) (c1 c2 : site -> string) (n : string) :
  exists a b,
    fetchCSESProgress (atClock c1 w) n = Async.Fulfilled a
    /\ fetchCSESProgress (atClock c2 w) n = Async.Fulfilled b
    /\ csesFields a = csesFields b
    /\ c_lastUpdated a = (if c_success a then Some (c1 CsesLastUpdated) else None)
    /\ c_lastUpdated b = (if c_success b then Some (c2 CsesLastUpdated) else None).
Proof.
  unfold fetchCSESProgress. cbn [atClock getPage now].
  destruct (getPage w (csesUserUrl n)); eexists _, _; by repeat split.
Qed.

Lemma fetchCodeforcesProgress_clock (w : world) (c1 c2 : site -> string)
  (n : string) :
  exists a b,
    fetchCodeforcesProgress (atClock c1 w) n = Async.Fulfilled a
    /\ fetchCodeforcesProgress (atClock c2 w) n = Async.Fulfilled b
    /\ codeforcesFields a = codeforcesFields b
    /\ cf_lastUpdated a
       = (if cf_success a then Some (c1 CodeforcesLastUpdated) else None)
    /\ cf_lastUpdated b
       = (if cf_success b then Some (c2 CodeforcesLastUpdated) else None).
Proof.
  unfold fetchCodeforcesProgress. rewrite !recordSolve_atClock.
  cbn [atClock getUserInfo getUserStatus now].
  destruct (getUserInfo w (userInfoUrl n)) as [e|ur];
    [eexists _, _; by repeat split|].
  cbn [Async.bind].
  destruct (negb _); [eexists _, _; by repeat split|].
  destruct (ui_result ur) as [|info rest]; [eexists _, _; by repeat split|].
  cbv zeta.
  destruct (getUserStatus w (submissionsUrl n)) as [e|sr];
    [eexists _, _; by repeat split|].
  cbn [Async.bind].
  destruct (negb _); [eexists _, _; by repeat split|].
  cbv zeta.
  destruct (Async.forEach (recordSolve w) (us_result sr) (∅, ∅)) as [e|st];
    [eexists _, _; by repeat split|].
  cbn [Async.bind].
  destruct (Async.forEach recordContest (us_result sr) ∅) as [e|C];
    eexists _, _; by repeat split.
Qed.

Lemma fetchVJudgeProgress_clock (w : world) (c1 c2 : site -> string) (n : string) :
  exists a b,
    fetchVJudgeProgress (atClock c1 w) n = Async.Fulfilled a
    /\ fetchVJudgeProgress (atClock c2 w) n = Async.Fulfilled b
    /\ vjudgeFields a = vjudgeFields b
    /\ v_lastUpdated a = (if v_success a then Some (c1 VJudgeLastUpdated) else None)
    /\ v_lastUpdated b = (if v_success b then Some (c2 VJudgeLastUpdated) else None).
Proof.
  unfold fetchVJudgeProgress. rewrite !recordRecent_atClock.
  cbn [atClock getPage now].
  destruct (getPage w (vjudgeUserUrl n)) as [e|doc];
    [eexists _, _; by repeat split|].
  cbn [Async.bind]. cbv zeta.
  destruct (getPage w (vjudgeSubmissionsUrl n)) as [e|subs];
    eexists _, _; by repeat split.
Qed.

End Clock.

(** The claim C8 fails for the time stamps.  Two calls one second apart,
    with every site answering both times in the same way and every fetch
    successful, return objects that differ in [syncTime] and in the
    [lastUpdated] of each entry.  Even when the three fetches are stamped
    alike, so that the per-platform records of the two calls are equal,
    the objects returned differ in [syncTime]. *)
Lemma sync_differs_by_clock :
  exists r1 r2 r3,
    PlatformAPI.syncAllPlatforms (Scenario.online Scenario.midnight)
      (PlatformAPI.Handles Scenario.allHandles) = Async.Fulfilled r1
    /\ PlatformAPI.syncAllPlatforms (Scenario.online Scenario.oneSecondLater)
         (PlatformAPI.Handles Scenario.allHandles) = Async.Fulfilled r2
    /\ PlatformAPI.syncAllPlatforms (Scenario.online Scenario.syncOneSecondLater)
         (PlatformAPI.Handles Scenario.allHandles) = Async.Fulfilled r3
    /\ PlatformAPI.c_success <$> PlatformAPI.r_cses r1 = Some true
    /\ PlatformAPI.cf_success <$> PlatformAPI.r_codeforces r1 = Some true
    /\ PlatformAPI.v_success <$> PlatformAPI.r_vjudge r1 = Some true
    /\ PlatformAPI.r_syncTime r1 <> PlatformAPI.r_syncTime r2
    /\ PlatformAPI.r_cses r1 <> PlatformAPI.r_cses r2
    /\ PlatformAPI.r_codeforces r1 <> PlatformAPI.r_codeforces r2
    /\ PlatformAPI.r_vjudge r1 <> PlatformAPI.r_vjudge r2
    /\ PlatformAPI.r_cses r1 = PlatformAPI.r_cses r3
    /\ PlatformAPI.r_codeforces r1 = PlatformAPI.r_codeforces r3
    /\ PlatformAPI.r_vjudge r1 = PlatformAPI.r_vjudge r3
    /\ PlatformAPI.r_syncTime r1 <> PlatformAPI.r_syncTime r3.
Proof.
  eexists _, _, _.
  split; [apply syncAllPlatforms_handles|].
  split; [apply syncAllPlatforms_handles|].
  split; [apply syncAllPlatforms_handles|].
  split; [reflexivity|]. split; [reflexivity|]. split; [reflexivity|].
  split; [vm_compute; discriminate|].
  split.
  { intros Heq. apply (f_equal (fun o => o ≫= PlatformAPI.c_lastUpdated)) in Heq.
    vm_compute in Heq. discriminate. }
  split.
  { intros Heq. apply (f_equal (fun o => o ≫= PlatformAPI.cf_lastUpdated)) in Heq.
    vm_compute in Heq. discriminate. }
  split.
  { intros Heq. apply (f_equal (fun o => o ≫= PlatformAPI.v_lastUpdated)) in Heq.
    vm_compute in Heq. discriminate. }
  split; [reflexivity|]. split; [reflexivity|]. split; [reflexivity|].
  vm_compute. discriminate.
Qed.

(** C8, as the code has it.  Two calls of [syncAllPlatforms] with the same
    handles, made while the sites answer in the same way, at any two
    clocks: both fulfil, each with the same object in whatever order its
    promises settle; the two objects agree in every field of every entry
    other than the time stamps, and the time stamps of each are the
    readings of its own clock.  The same holds of each per-platform
    fetch. *)
Theorem sync_repeatable_up_to_clock (w : World.world)
  (clock1 clock2 : World.site -> string) (u : PlatformAPI.usernames) :
  (exists r1 r2,
      PlatformAPI.syncAllPlatforms (World.atClock clock1 w) (PlatformAPI.Handles u)
      = Async.Fulfilled r1
      /\ PlatformAPI.syncAllPlatforms (World.atClock clock2 w) (PlatformAPI.Handles u)
         = Async.Fulfilled r2
      /\ (forall r, PlatformAPI.syncAllPlatforms_returns (World.atClock clock1 w) u r ->
                    r = r1)
      /\ (forall r, PlatformAPI.syncAllPlatforms_returns (World.atClock clock2 w) u r ->
                    r = r2)
      /\ PlatformAPI.syncFields r1 = PlatformAPI.syncFields r2
      /\ PlatformAPI.stampedBy clock1 r1
      /\ PlatformAPI.stampedBy clock2 r2)
  /\ (forall n,
         exists a b,
           PlatformAPI.fetchCSESProgress (World.atClock clock1 w) n = Async.Fulfilled a
           /\ PlatformAPI.fetchCSESProgress (World.atClock clock2 w) n = Async.Fulfilled b
           /\ PlatformAPI.csesFields a = PlatformAPI.csesFields b)
  /\ (forall n,
         exists a b,
           PlatformAPI.fetchCodeforcesProgress (World.atClock clock1 w) n
           = Async.Fulfilled a
           /\ PlatformAPI.fetchCodeforcesProgress (World.atClock clock2 w) n
              = Async.Fulfilled b
           /\ PlatformAPI.codeforcesFields a = PlatformAPI.codeforcesFields b)
  /\ (forall n,
         exists a b,
           PlatformAPI.fetchVJudgeProgress (World.atClock clock1 w) n = Async.Fulfilled a
           /\ PlatformAPI.fetchVJudgeProgress (World.atClock clock2 w) n = Async.Fulfilled b
           /\ PlatformAPI.vjudgeFields a = PlatformAPI.vjudgeFields b).
Proof.
  split; [|split; [|split]]; cycle 1.
  - intros n. destruct (fetchCSESProgress_clock w clock1 clock2 n)
      as (a & b & Ha & Hb & Hab & _). by exists a, b.
  - intros n. destruct (fetchCodeforcesProgress_clock w clock1 clock2 n)
      as (a & b & Ha & Hb & Hab & _). by exists a, b.
  - intros n. destruct (fetchVJudgeProgress_clock w clock1 clock2 n)
      as (a & b & Ha & Hb & Hab & _). by exists a, b.
  - eexists _, _.
    split; [apply syncAllPlatforms_handles|].
    split; [apply syncAllPlatforms_handles|].
    split; [intros r; apply sync_run_unique|].
    split; [intros r; apply sync_run_unique|].
    set (w1 := World.atClock clock1 w). set (w2 := World.atClock clock2 w).
    pose proof (allSettled_in_order w1 (PlatformAPI.promises u)
                  (PlatformAPI.initialResults w1)) as Hrun1.
    pose proof (allSettled_in_order w2 (PlatformAPI.promises u)
                  (PlatformAPI.initialResults w2)) as Hrun2.
    set (r1 := fold_left (PlatformAPI.settle w1) _ _) in *.
    set (r2 := fold_left (PlatformAPI.settle w2) _ _) in *.
    pose proof (synced_cses w1 u r1 Hrun1) as Hc1.
    pose proof (synced_cses w2 u r2 Hrun2) as Hc2.
    pose proof (synced_codeforces w1 u r1 Hrun1) as Hf1.
    pose proof (synced_codeforces w2 u r2 Hrun2) as Hf2.
    pose proof (synced_vjudge w1 u r1 Hrun1) as Hv1.
    pose proof (synced_vjudge w2 u r2 Hrun2) as Hv2.
    pose proof (allSettled_syncTime _ _ _ _ Hrun1) as Ht1.
    pose proof (allSettled_syncTime _ _ _ _ Hrun2) as Ht2.
    assert (PlatformAPI.csesFields <$> PlatformAPI.r_cses r1
            = PlatformAPI.csesFields <$> PlatformAPI.r_cses r2
            /\ (forall c, PlatformAPI.r_cses r1 = Some c ->
                  PlatformAPI.c_lastUpdated c
                  = if PlatformAPI.c_success c
                    then Some (clock1 World.CsesLastUpdated) else None)
            /\ (forall c, PlatformAPI.r_cses r2 = Some c ->
                  PlatformAPI.c_lastUpdated c
                  = if PlatformAPI.c_success c
                    then Some (clock2 World.CsesLastUpdated) else None))
      as (Hce & Hcs1 & Hcs2).
    { destruct (Server.orNull (PlatformAPI.cses u)) as [n|];
        [|rewrite Hc1, Hc2; by repeat split].
      destruct Hc1 as (a' & Ha' & ->), Hc2 as (b' & Hb' & ->).
      destruct (fetchCSESProgress_clock w clock1 clock2 n)
        as (a & b & Ha & Hb & Hab & Hsa & Hsb).
      fold w1 in Ha. fold w2 in Hb.
      rewrite Ha in Ha'. rewrite Hb in Hb'.
      injection Ha' as <-. injection Hb' as <-.
      split; [cbn; by rewrite Hab|]. split; by intros c [= <-]. }
    assert (PlatformAPI.codeforcesFields <$> PlatformAPI.r_codeforces r1
            = PlatformAPI.codeforcesFields <$> PlatformAPI.r_codeforces r2
            /\ (forall c, PlatformAPI.r_codeforces r1 = Some c ->
                  PlatformAPI.cf_lastUpdated c
                  = if PlatformAPI.cf_success c
                    then Some (clock1 World.CodeforcesLastUpdated) else None)
            /\ (forall c, PlatformAPI.r_codeforces r2 = Some c ->
                  PlatformAPI.cf_lastUpdated c
                  = if PlatformAPI.cf_success c
                    then Some (clock2 World.CodeforcesLastUpdated) else None))
      as (Hfe & Hfs1 & Hfs2).
    { destruct (Server.orNull (PlatformAPI.codeforces u)) as [n|];
        [|rewrite Hf1, Hf2; by repeat split].
      destruct Hf1 as (a' & Ha' & ->), Hf2 as (b' & Hb' & ->).
      destruct (fetchCodeforcesProgress_clock w clock1 clock2 n)
        as (a & b & Ha & Hb & Hab & Hsa & Hsb).
      fold w1 in Ha. fold w2 in Hb.
      rewrite Ha in Ha'. rewrite Hb in Hb'.
      injection Ha' as <-. injection Hb' as <-.
      split; [cbn; by rewrite Hab|]. split; by intros c [= <-]. }
    assert (PlatformAPI.vjudgeFields <$> PlatformAPI.r_vjudge r1
            = PlatformAPI.vjudgeFields <$> PlatformAPI.r_vjudge r2
            /\ (forall c, PlatformAPI.r_vjudge r1 = Some c ->
                  PlatformAPI.v_lastUpdated c
                  = if PlatformAPI.v_success c
                    then Some (clock1 World.VJudgeLastUpdated) else None)
            /\ (forall c, PlatformAPI.r_vjudge r2 = Some c ->
                  PlatformAPI.v_lastUpdated c
                  = if PlatformAPI.v_success c
                    then Some (clock2 World.VJudgeLastUpdated) else None))
      as (Hve & Hvs1 & Hvs2).
    { destruct (Server.orNull (PlatformAPI.vjudge u)) as [n|];
        [|rewrite Hv1, Hv2; by repeat split].
      destruct Hv1 as (a' & Ha' & ->), Hv2 as (b' & Hb' & ->).
      destruct (fetchVJudgeProgress_clock w clock1 clock2 n)
        as (a & b & Ha & Hb & Hab & Hsa & Hsb).
      fold w1 in Ha. fold w2 in Hb.
      rewrite Ha in Ha'. rewrite Hb in Hb'.
      injection Ha' as <-. injection Hb' as <-.
      split; [cbn; by rewrite Hab|]. split; by intros c [= <-]. }
    split; [unfold PlatformAPI.syncFields; by rewrite Hce, Hfe, Hve|].
    split; unfold PlatformAPI.stampedBy; by repeat split.
Qed.

(** Every site answers and three fetches succeed, at two clocks one second
    apart. *)
Lemma sync_repeatable_up_to_clock_witness :
  exists r1 r2,
    PlatformAPI.syncAllPlatforms (Scenario.online Scenario.midnight)
      (PlatformAPI.Handles Scenario.allHandles) = Async.Fulfilled r1
    /\ PlatformAPI.syncAllPlatforms (Scenario.online Scenario.oneSecondLater)
         (PlatformAPI.Handles Scenario.allHandles) = Async.Fulfilled r2
    /\ PlatformAPI.syncFields r1 = PlatformAPI.syncFields r2
    /\ PlatformAPI.c_success <$> PlatformAPI.r_cses r1 = Some true
    /\ PlatformAPI.cf_success <$> PlatformAPI.r_codeforces r1 = Some true
    /\ PlatformAPI.v_success <$> PlatformAPI.r_vjudge r1 = Some true
    /\ PlatformAPI.r_syncTime r1 = "2024-01-04T00:00:00.000Z"
    /\ PlatformAPI.r_syncTime r2 = "2024-01-04T00:00:01.000Z".
Proof.
  destruct (sync_repeatable_up_to_clock (Scenario.online Scenario.midnight)
              Scenario.midnight Scenario.oneSecondLater Scenario.allHandles)
    as [(r1 & r2 & H1 & H2 & _ & _ & Hfields & (Ht1 & _) & (Ht2 & _)) _].
  exists r1, r2.
  split; [exact H1|]. split; [exact H2|]. split; [exact Hfields|].
  rewrite syncAllPlatforms_handles in H1. injection H1 as <-.
  split; [reflexivity|]. split; [reflexivity|]. split; [reflexivity|].
  split; [exact Ht1 | exact Ht2].
Defined.

(** ** Topic catalogue *)

(** C6. When the request for the problem-set page fails, or the page
    yields no topic, [fetchCSESTopics] fulfils with [success: true],
    [fromCache: true] and the static catalogue of eleven topics (and with
    [error] set when the request failed); in no case does it reject or
    return an empty list. *)
Theorem topics_fall_back (w : World.world) :
  (forall e,
      World.getPage w PlatformAPI.topicsUrl = Async.throw e ->
      PlatformAPI.fetchCSESTopics w
      = Async.Fulfilled
          {| PlatformAPI.t_success := true;
             PlatformAPI.t_fromCache := Some true;
             PlatformAPI.t_error := Some (Async.message e);
             PlatformAPI.t_topics := PlatformAPI.fallbackTopics |})
  /\ (forall doc,
         World.getPage w PlatformAPI.topicsUrl = Async.ret doc ->
         PlatformAPI.parseTopics doc = [] ->
         PlatformAPI.fetchCSESTopics w
         = Async.Fulfilled
             {| PlatformAPI.t_success := true;
                PlatformAPI.t_fromCache := Some true;
                PlatformAPI.t_error := None;
                PlatformAPI.t_topics := PlatformAPI.fallbackTopics |})
  /\ length PlatformAPI.fallbackTopics = 11%nat
  /\ exists r,
       PlatformAPI.fetchCSESTopics w = Async.Fulfilled r
       /\ PlatformAPI.t_success r = true
       /\ PlatformAPI.t_topics r <> [].
Proof.
  unfold PlatformAPI.fetchCSESTopics. repeat split.
  - intros e ->. reflexivity.
  - intros doc -> Hnone. rewrite bind_ret. cbv zeta. rewrite Hnone. reflexivity.
  - destruct (World.getPage w PlatformAPI.topicsUrl) as [e|doc].
    + eexists. repeat split. discriminate.
    + cbn [Async.bind]. cbv zeta.
      destruct (PlatformAPI.parseTopics doc) as [|t ts].
      * eexists. repeat split. discriminate.
      * eexists. repeat split. discriminate.
Qed.

Lemma topics_fall_back_witness :
  PlatformAPI.fetchCSESTopics Scenario.offline
  = Async.Fulfilled
      {| PlatformAPI.t_success := true;
         PlatformAPI.t_fromCache := Some true;
         PlatformAPI.t_error := Some "Network Error";
         PlatformAPI.t_topics := PlatformAPI.fallbackTopics |}
  /\ PlatformAPI.fetchCSESTopics Scenario.blankPages
     = Async.Fulfilled
         {| PlatformAPI.t_success := true;
            PlatformAPI.t_fromCache := Some true;
            PlatformAPI.t_error := None;
            PlatformAPI.t_topics := PlatformAPI.fallbackTopics |}.
Proof.
  split.
  - apply (proj1 (topics_fall_back Scenario.offline) (Async.Error "Network Error")).
    reflexivity.
  - apply (proj1 (proj2 (topics_fall_back Scenario.blankPages)) Scenario.emptyDocument);
      reflexivity.
Defined.

(** A page with one heading and three task links is parsed, not replaced
    by the fallback. *)
Example topics_parsed :
  PlatformAPI.parseTopics
    {| World.taskScoreFull := [];
       World.h2 :=
         [ {| World.h2Text := " Introductory Problems ";
              World.h2Siblings :=
                [ [ {| World.href := "/problemset/task/1068";
                       World.linkText := "Weird Algorithm" |};
                    {| World.href := "/problemset/task/1083";
                       World.linkText := "Missing Number" |};
                    {| World.href := "/problemset/task/1069";
                       World.linkText := "Repetitions" |} ] ] |} ];
       World.containsProblems := [];
       World.solvedText := ""; World.submittedText := "";
       World.activityCells := []; World.submissionRows := [] |}
  = [ {| PlatformAPI.title := "Introductory Problems";
         PlatformAPI.slug := "introductory-problems";
         PlatformAPI.count := 3;
         PlatformAPI.problems :=
           Some [ {| PlatformAPI.pl_title := "Weird Algorithm";
                     PlatformAPI.pl_url := "https://cses.fi/problemset/task/1068" |};
                  {| PlatformAPI.pl_title := "Missing Number";
                     PlatformAPI.pl_url := "https://cses.fi/problemset/task/1083" |};
                  {| PlatformAPI.pl_title := "Repetitions";
                     PlatformAPI.pl_url := "https://cses.fi/problemset/task/1069" |} ];
         PlatformAPI.url := "https://cses.fi/problemset/#introductory-problems";
         PlatformAPI.description := None |} ].
Proof. vm_compute. reflexivity. Qed.

(** The second parsing method and the filter: titles are compared without
    regard to case, and a title without a letter is dropped. *)
Example topics_method2 :
  PlatformAPI.title <$>
    PlatformAPI.parseTopics
      {| World.taskScoreFull := []; World.h2 := [];
         World.containsProblems :=
           [ ("Sorting Problems", 5); ("sorting problems", 7);
             ("Problems", 3); ("12 34", 2) ];
         World.solvedText := ""; World.submittedText := "";
         World.activityCells := []; World.submissionRows := [] |}
  = ["Sorting Problems"].
Proof. vm_compute. reflexivity. Qed.

(** * Further properties *)

(** ** Codeforces: the solved set and the daily lists *)

Section CodeforcesDaily.

Import World PlatformAPI.

Variable w : world.

(** The list the first loop stores under the date of an accepted
    submission. *)
Lemma recordSolve_accepted_eq (s : submission) (pb : problem)
  (S : gset string) (D : gmap string (list dailySolve)) :
  s_verdict s = Some "OK" -> s_problem s = Some pb ->
  recordSolve w s (S, D)
  = Async.ret
      ({[ problemKey pb ]} ∪ S,
       <[ solveDate w s :=
            if findKey (problemKey pb) (default [] (D !! solveDate w s))
            then default [] (D !! solveDate w s)
            else (default [] (D !! solveDate w s)
                  ++ [ {| key := problemKey pb; name := p_name pb;
                          rating := JS.orElse (p_rating pb) (JS.Str "Unrated") |} ])%list ]> D).
Proof.
  intros Hv Hpb. unfold recordSolve. rewrite Hpb.
  by rewrite bool_decide_eq_true_2 by assumption.
Qed.

(** Every entry the first loop adds stems from an accepted submission of
    that date, and no list it stores is empty. *)
Lemma forEach_recordSolve_sound (subs : list submission)
  (S0 S : gset string) (D0 D : gmap string (list dailySolve)) :
  Async.forEach (recordSolve w) subs (S0, D0) = Async.ret (S, D) ->
  (forall d l e,
      D !! d = Some l -> e ∈ l ->
      (exists l0, D0 !! d = Some l0 /\ e ∈ l0)
      \/ exists s pb,
           s ∈ subs /\ s_verdict s = Some "OK" /\ s_problem s = Some pb
           /\ solveDate w s = d
           /\ e = {| key := problemKey pb; name := p_name pb;
                     rating := JS.orElse (p_rating pb) (JS.Str "Unrated") |})
  /\ ((forall d, D0 !! d <> Some []) -> forall d, D !! d <> Some []).
Proof.
  revert S0 D0. induction subs as [|s subs IH]; cbn [Async.forEach]; intros S0 D0 Hrun.
  - injection Hrun as <- <-. split; [|tauto]. intros d l e Hl He. left. by exists l.
  - destruct (decide (s_verdict s = Some "OK")) as [Hv|Hv]; cycle 1.
    { rewrite recordSolve_skipped, bind_ret in Hrun by assumption.
      destruct (IH _ _ Hrun) as [Hsound Hne]. split; [|exact Hne].
      intros d l e Hl He.
      destruct (Hsound d l e Hl He) as [H|(s' & pb & Hs' & Hrest)]; [by left|].
      right. exists s', pb. split; [by right | exact Hrest]. }
    destruct (s_problem s) as [pb|] eqn:Hpb; cycle 1.
    { unfold recordSolve in Hrun. rewrite Hpb in Hrun.
      rewrite bool_decide_eq_true_2 in Hrun by assumption. discriminate. }
    rewrite (recordSolve_accepted_eq s pb S0 D0 Hv Hpb), bind_ret in Hrun.
    destruct (IH _ _ Hrun) as [Hsound Hne]. split.
    + intros d l e Hl He.
      destruct (Hsound d l e Hl He) as [(l0 & Hl0 & He0)|(s' & pb' & Hs' & Hrest)];
        [|right; exists s', pb'; split; [by right | exact Hrest]].
      destruct (decide (solveDate w s = d)) as [<-|Hd];
        [|rewrite lookup_insert_ne in Hl0 by assumption; left; by exists l0].
      rewrite lookup_insert_eq in Hl0. injection Hl0 as <-.
      destruct (findKey _ _).
      * destruct (D0 !! solveDate w s) as [l1|] eqn:Hl1; simpl in He0;
          [left; by exists l1 | inversion He0].
      * apply elem_of_app in He0 as [He0|He0].
        -- destruct (D0 !! solveDate w s) as [l1|] eqn:Hl1; simpl in He0;
             [left; by exists l1 | inversion He0].
        -- apply list_elem_of_singleton in He0 as ->. right. exists s, pb.
           repeat split; [left | assumption | assumption].
    + intros Hne0. apply Hne. intros d.
      destruct (decide (solveDate w s = d)) as [<-|Hd];
        [|rewrite lookup_insert_ne by assumption; apply Hne0].
      rewrite lookup_insert_eq. intros [= Hempty].
      destruct (findKey _ _) eqn:Hfind.
      * rewrite Hempty in Hfind. discriminate.
      * by apply app_nil in Hempty as [_ ?].
Qed.

End CodeforcesDaily.

(** X1. The [problemsSolved] counter of a successful Codeforces fetch is the
    number of distinct problem keys among the accepted submissions. *)
Theorem problemsSolved_counts_distinct_keys (w : World.world)
  (username : string) (r : PlatformAPI.codeforcesResult)
  (resp : World.statusResponse) (keys : list string) :
  PlatformAPI.fetchCodeforcesProgress w username = Async.Fulfilled r ->
  PlatformAPI.cf_success r = true ->
  World.getUserStatus w (PlatformAPI.submissionsUrl username) = Async.ret resp ->
  NoDup keys ->
  (forall k,
      k ∈ keys <->
      exists s pb, s ∈ World.us_result resp
                   /\ World.s_verdict s = Some "OK"
                   /\ World.s_problem s = Some pb
                   /\ k = PlatformAPI.problemKey pb) ->
  PlatformAPI.cf_problemsSolved r = Z.of_nat (length keys).
Proof.
  intros Hfetch Hok Hresp Hnd Hkeys.
  destruct (fetchCodeforcesProgress_cases w username)
    as [[msg Hr]|(info & rest & subs & S & D & C & _ & Hsubs & Hloop & _ & Hr)];
    rewrite Hr in Hfetch; injection Hfetch as <-; [discriminate|].
  rewrite Hsubs in Hresp. injection Hresp as <-. simpl in *.
  destruct (forEach_recordSolve w _ _ _ _ _ Hloop) as (HS & _).
  f_equal. unfold size, set_size. simpl. apply Permutation_length.
  apply NoDup_Permutation; [apply NoDup_elements | assumption |].
  intros k. rewrite elem_of_elements, HS, Hkeys.
  split; [intros [H|H]; [by apply not_elem_of_empty in H | assumption] | by right].
Qed.

Lemma problemsSolved_counts_distinct_keys_witness :
  exists r,
    PlatformAPI.fetchCodeforcesProgress
      (Scenario.codeforcesOnly Scenario.midnight) "alice" = Async.Fulfilled r
    /\ PlatformAPI.cf_problemsSolved r = Z.of_nat (length ["1700A"; "1700B"]).
Proof.
  eexists. split; [reflexivity|].
  apply (problemsSolved_counts_distinct_keys
           (Scenario.codeforcesOnly Scenario.midnight) "alice" _
           {| World.us_status := "OK"; World.us_result := Scenario.threeDays |}).
  - reflexivity.
  - reflexivity.
  - reflexivity.
  - apply (bool_decide_unpack _). vm_compute. reflexivity.
  - intros k. split.
    + intros Hk. apply elem_of_cons in Hk as [->|Hk];
        [|apply list_elem_of_singleton in Hk as ->].
      * eexists (Scenario.accepted "A" "Great Sequence" 1704283200), _.
        split; [left|]. repeat split.
      * eexists (Scenario.accepted "B" "Palindromic Numbers" 1704114000), _.
        split; [right; right; left|]. repeat split.
    + intros (s & pb & Hs & _ & Hpb & ->). simpl in Hs.
      repeat (apply elem_of_cons in Hs as [->|Hs];
              [injection Hpb as <-; vm_compute; repeat first [by left | right]|]).
      inversion Hs.
Defined.

(** X2. In the [dailySolves] map of a successful Codeforces fetch every
    stored list is non-empty and free of repeated keys, every entry is the
    key, name and rating of an accepted submission made on that date, and
    every accepted submission is listed under its date. *)
Theorem dailySolves_sound_and_complete (w : World.world) (username : string)
  (r : PlatformAPI.codeforcesResult) (resp : World.statusResponse)
  (daily : gmap string (list PlatformAPI.dailySolve)) :
  PlatformAPI.fetchCodeforcesProgress w username = Async.Fulfilled r ->
  PlatformAPI.cf_dailySolves r = Some daily ->
  World.getUserStatus w (PlatformAPI.submissionsUrl username) = Async.ret resp ->
  (forall d l,
      daily !! d = Some l ->
      l <> []
      /\ NoDup (PlatformAPI.key <$> l)
      /\ forall e, e ∈ l ->
           exists s pb,
             s ∈ World.us_result resp
             /\ World.s_verdict s = Some "OK"
             /\ World.s_problem s = Some pb
             /\ PlatformAPI.solveDate w s = d
             /\ e = {| PlatformAPI.key := PlatformAPI.problemKey pb;
                       PlatformAPI.name := World.p_name pb;
                       PlatformAPI.rating :=
                         JS.orElse (World.p_rating pb) (JS.Str "Unrated") |})
  /\ (forall s pb,
         s ∈ World.us_result resp -> World.s_verdict s = Some "OK" ->
         World.s_problem s = Some pb ->
         exists l, daily !! PlatformAPI.solveDate w s = Some l
                   /\ PlatformAPI.problemKey pb ∈ PlatformAPI.key <$> l).
Proof.
  intros Hfetch Hdaily Hresp.
  destruct (fetchCodeforcesProgress_cases w username)
    as [[msg Hr]|(info & rest & subs & S & D & C & _ & Hsubs & Hloop & _ & Hr)];
    rewrite Hr in Hfetch; injection Hfetch as <-; [discriminate|].
  rewrite Hsubs in Hresp. injection Hresp as <-.
  simpl in Hdaily. injection Hdaily as <-. simpl.
  destruct (forEach_recordSolve w _ _ _ _ _ Hloop) as (_ & _ & Hnew & Hnd).
  destruct (forEach_recordSolve_sound w _ _ _ _ _ Hloop) as (Hsound & Hne).
  split; [|exact Hnew].
  intros d l Hl. split; [|split].
  - intros ->. apply (Hne ltac:(intros d'; by rewrite lookup_empty) d Hl).
  - eapply Hnd; [|exact Hl]. intros d' l'. by rewrite lookup_empty.
  - intros e He. destruct (Hsound d l e Hl He) as [(l0 & Hl0 & _)|H]; [|exact H].
    by rewrite lookup_empty in Hl0.
Qed.

Lemma dailySolves_sound_and_complete_witness :
  exists r daily,
    PlatformAPI.fetchCodeforcesProgress
      (Scenario.codeforcesOnly Scenario.midnight) "alice" = Async.Fulfilled r
    /\ PlatformAPI.cf_dailySolves r = Some daily
    /\ forall d l, daily !! d = Some l -> l <> [] /\ NoDup (PlatformAPI.key <$> l).
Proof.
  eexists _, _. split; [reflexivity|]. split; [reflexivity|].
  intros d l Hl.
  destruct (dailySolves_sound_and_complete
              (Scenario.codeforcesOnly Scenario.midnight) "alice" _
              {| World.us_status := "OK"; World.us_result := Scenario.threeDays |}
              _ eq_refl eq_refl eq_refl) as [Hlists _].
  destruct (Hlists d l Hl) as (Hne & Hnd & _). by split.
Defined.

(** ** CSES: what the tally counts *)

Section TallyExact.

Import World PlatformAPI.

(** The category a problem is classified into is a key of the table. *)
Lemma classify_key (p : solvedProblem) (c : string) :
  classify p = Some c -> c ∈ Classifier.getCSESCategories.*1.
Proof.
  unfold classify, Classifier.categorizeCSESProblem.
  destruct (JS.parseInt (sp_id p)) as [id|]; [|discriminate]. intros Hscan.
  destruct (scan_Some _ _ _ Hscan) as (before & ids & after & -> & _).
  rewrite fmap_app, fmap_cons. apply elem_of_app. right. left.
Qed.

Lemma table_keys_truthy (c : string) :
  c ∈ Classifier.getCSESCategories.*1 -> JS.truthy c = true.
Proof.
  intros Hc. simpl in Hc.
  repeat (apply elem_of_cons in Hc as [->|Hc]; [reflexivity|]). inversion Hc.
Qed.

Lemma emptyCategories_keys (c : string) :
  is_Some (emptyCategories !! c) <-> c ∈ Classifier.getCSESCategories.*1.
Proof.
  unfold emptyCategories. split.
  - intros [cat Hcat]. apply elem_of_list_to_map_2 in Hcat.
    apply (list_elem_of_fmap_2 fst) in Hcat. exact Hcat.
  - intros Hc. simpl in Hc.
    repeat (apply elem_of_cons in Hc as [->|Hc]; [by eexists|]). inversion Hc.
Qed.

(** The loop appends to a category exactly the listed problems classified
    into it, in list order, and adds their number to its counter. *)
Lemma fold_tally_exact (l : list solvedProblem)
  (categories : gmap string csesCategory) (c : string) :
  JS.truthy c = true ->
  fold_left tally l categories !! c
  = (fun cat =>
       {| solved := solved cat
                    + Z.of_nat (length (filter (fun p => classify p = Some c) l));
          total := total cat;
          catProblems :=
            (catProblems cat ++ filter (fun p => classify p = Some c) l)%list |})
      <$> categories !! c.
Proof.
  intros Ht. revert categories. induction l as [|p l IH]; intros categories; simpl.
  - destruct (categories !! c) as [[s t ps]|]; simpl; [|reflexivity].
    rewrite app_nil_r. do 2 f_equal. lia.
  - rewrite IH, filter_cons. destruct (decide (classify p = Some c)) as [Hc|Hc].
    + unfold tally. rewrite Hc, Ht.
      destruct (categories !! c) as [[s t ps]|] eqn:Hlook; simpl.
      * rewrite lookup_insert_eq. simpl. rewrite <- app_assoc. simpl.
        do 2 f_equal. lia.
      * by rewrite Hlook.
    + by rewrite tally_other.
Qed.

(** The loop adds no category. *)
Lemma fold_tally_absent (l : list solvedProblem)
  (categories : gmap string csesCategory) (c : string) :
  categories !! c = None -> fold_left tally l categories !! c = None.
Proof.
  revert categories. induction l as [|p l IH]; intros m Hm; simpl; [exact Hm|].
  apply IH. destruct (decide (classify p = Some c)) as [Hp|Hp].
  - unfold tally. rewrite Hp. destruct (JS.truthy c); by rewrite Hm.
  - by rewrite tally_other.
Qed.

(** Each listed problem is classified into at most one key. *)
Lemma classified_once (keys : list string) (x : option string) :
  NoDup keys ->
  (foldr Z.add 0 ((fun c => if decide (x = Some c) then 1 else 0) <$> keys)
   = if decide (x ∈ Some <$> keys) then 1 else 0)%Z.
Proof.
  induction 1 as [|k keys Hfresh Hnd IH].
  - rewrite decide_False; [reflexivity|]. intros Hin. inversion Hin.
  - rewrite !fmap_cons. cbn [foldr]. rewrite IH.
    destruct (decide (x = Some k)) as [->|Hk].
    + rewrite decide_False, decide_True; [reflexivity | left |].
      intros Hin. apply list_elem_of_fmap in Hin as (c & [= <-] & Hc). contradiction.
    + destruct (decide (x ∈ Some <$> keys)) as [Hin|Hno].
      * rewrite decide_True; [reflexivity | by right].
      * rewrite decide_False; [reflexivity|]. rewrite elem_of_cons. tauto.
Qed.

Lemma hits_sum (keys : list string) (l : list solvedProblem) :
  NoDup keys ->
  (forall p c, classify p = Some c -> c ∈ keys) ->
  (Z.of_nat (length l)
   = foldr Z.add 0
       ((fun c => Z.of_nat (length (filter (fun p => classify p = Some c) l)))
          <$> keys)
     + Z.of_nat (length (filter (fun p => classify p = None) l)))%Z.
Proof.
  intros Hnd Hkeys. induction l as [|p l IH].
  - clear. induction keys as [|k keys IHk]; [reflexivity|].
    rewrite fmap_cons. cbn [foldr]. rewrite !filter_nil in *. simpl length in *. lia.
  - assert (forall ks : list string,
        foldr Z.add 0
          ((fun c => Z.of_nat (length (filter (fun q => classify q = Some c) (p :: l))))
             <$> ks)
        = (foldr Z.add 0
             ((fun c => if decide (classify p = Some c) then 1 else 0) <$> ks)
           + foldr Z.add 0
               ((fun c => Z.of_nat (length (filter (fun q => classify q = Some c) l)))
                  <$> ks))%Z) as Hsplit.
    { induction ks as [|k ks IHk]; [reflexivity|].
      rewrite !fmap_cons. cbn [foldr]. rewrite IHk, filter_cons.
      destruct (decide (classify p = Some k)); simpl length; lia. }
    rewrite Hsplit, (classified_once keys (classify p) Hnd), filter_cons.
    simpl length. destruct (classify p) as [c|] eqn:Hc.
    + rewrite decide_True, (decide_False (P := Some c = None)) by
        first [discriminate | apply list_elem_of_fmap; exists c;
                              split; [reflexivity | by eapply Hkeys]].
      lia.
    + rewrite decide_False, (decide_True (P := None = None)); [simpl length; lia | reflexivity |].
      intros Hin. apply list_elem_of_fmap in Hin as (c & [=] & _).
Qed.

(** The categories after the loop, key by key. *)
Lemma categorizeSolved_lookup (l : list solvedProblem) (c : string) :
  categorizeSolved l !! c
  = (fun cat =>
       {| solved := solved cat
                    + Z.of_nat (length (filter (fun p => classify p = Some c) l));
          total := total cat;
          catProblems :=
            (catProblems cat ++ filter (fun p => classify p = Some c) l)%list |})
      <$> emptyCategories !! c.
Proof.
  unfold categorizeSolved. destruct (emptyCategories !! c) as [cat0|] eqn:Hc.
  - rewrite <- Hc. apply fold_tally_exact, table_keys_truthy, emptyCategories_keys.
    by eexists.
  - by apply fold_tally_absent.
Qed.

Lemma emptyCategories_fresh (c : string) (cat0 : csesCategory) :
  emptyCategories !! c = Some cat0 -> solved cat0 = 0 /\ catProblems cat0 = [].
Proof.
  intros Hc. apply elem_of_list_to_map_2 in Hc.
  repeat (apply elem_of_cons in Hc as [[= _ ->]|Hc]; [by split|]). inversion Hc.
Qed.

End TallyExact.

(** X3. After a successful CSES fetch the six categories, and no other,
    are present; each keeps its total, lists exactly the scraped problems
    classified into it, in page order, and its counter is the length of
    that list. *)
Theorem cses_counter_is_list_length (w : World.world) (username : string)
  (doc : World.document) (r : PlatformAPI.csesResult)
  (cats : gmap string PlatformAPI.csesCategory) :
  World.getPage w (PlatformAPI.csesUserUrl username) = Async.ret doc ->
  PlatformAPI.fetchCSESProgress w username = Async.Fulfilled r ->
  PlatformAPI.c_categories r = Some cats ->
  (forall c, is_Some (cats !! c)
             <-> c ∈ ["intro"; "sort"; "dp"; "graph"; "range"; "tree"])
  /\ forall c cat,
       cats !! c = Some cat ->
       PlatformAPI.catProblems cat
       = filter (fun p => PlatformAPI.classify p = Some c) (PlatformAPI.scrapeSolved doc)
       /\ PlatformAPI.solved cat = Z.of_nat (length (PlatformAPI.catProblems cat))
       /\ (exists cat0, PlatformAPI.emptyCategories !! c = Some cat0
                        /\ PlatformAPI.total cat = PlatformAPI.total cat0).
Proof.
  intros Hpage Hfetch Hcats. unfold PlatformAPI.fetchCSESProgress in Hfetch.
  rewrite Hpage, bind_ret in Hfetch. injection Hfetch as <-.
  simpl in Hcats. injection Hcats as <-.
  split.
  - intros c. rewrite categorizeSolved_lookup, fmap_is_Some.
    apply emptyCategories_keys.
  - intros c cat. rewrite categorizeSolved_lookup.
    destruct (PlatformAPI.emptyCategories !! c) as [cat0|] eqn:Hc; [|discriminate].
    simpl. intros [= <-]. simpl.
    destruct (emptyCategories_fresh c cat0 Hc) as [-> ->].
    split; [reflexivity|]. split; [cbn [app]; lia|]. by exists cat0.
Qed.

Lemma cses_counter_is_list_length_witness :
  exists r cats,
    PlatformAPI.fetchCSESProgress Scenario.twoSolved "alice" = Async.Fulfilled r
    /\ PlatformAPI.c_categories r = Some cats
    /\ forall c cat,
         cats !! c = Some cat ->
         PlatformAPI.solved cat = Z.of_nat (length (PlatformAPI.catProblems cat)).
Proof.
  eexists _, _. split; [reflexivity|]. split; [reflexivity|].
  intros c cat Hcat.
  destruct (cses_counter_is_list_length Scenario.twoSolved "alice" _ _ _
              eq_refl eq_refl eq_refl) as [_ Hall].
  by destruct (Hall c cat Hcat) as (_ & Hlen & _).
Defined.

(** X4. Every scraped row is counted once: [totalSolved] is the sum of the
    six category counters plus the number of rows whose id is in no
    bucket of the table. *)
Theorem cses_rows_counted_once (w : World.world) (username : string)
  (doc : World.document) (r : PlatformAPI.csesResult)
  (cats : gmap string PlatformAPI.csesCategory) :
  World.getPage w (PlatformAPI.csesUserUrl username) = Async.ret doc ->
  PlatformAPI.fetchCSESProgress w username = Async.Fulfilled r ->
  PlatformAPI.c_categories r = Some cats ->
  PlatformAPI.c_totalSolved r
  = foldr Z.add 0
      ((fun c => default 0 (PlatformAPI.solved <$> cats !! c))
         <$> ["intro"; "sort"; "dp"; "graph"; "range"; "tree"])
    + Z.of_nat (length (filter (fun p => PlatformAPI.classify p = None)
                          (PlatformAPI.scrapeSolved doc))).
Proof.
  intros Hpage Hfetch Hcats. unfold PlatformAPI.fetchCSESProgress in Hfetch.
  rewrite Hpage, bind_ret in Hfetch. injection Hfetch as <-.
  simpl in Hcats. injection Hcats as <-. cbn [PlatformAPI.c_totalSolved].
  rewrite (hits_sum ["intro"; "sort"; "dp"; "graph"; "range"; "tree"]
             (PlatformAPI.scrapeSolved doc)).
  - f_equal. apply (f_equal (foldr Z.add 0)). apply list_fmap_ext.
    intros i c Hc. apply list_elem_of_lookup_2 in Hc.
    rewrite categorizeSolved_lookup.
    destruct (proj2 (emptyCategories_keys c) Hc) as [cat0 Hcat0]. rewrite Hcat0.
    destruct (emptyCategories_fresh c cat0 Hcat0) as [H0 _]. simpl. lia.
  - apply (bool_decide_unpack _). vm_compute. reflexivity.
  - apply classify_key.
Qed.

Lemma cses_rows_counted_once_witness :
  exists r cats,
    PlatformAPI.fetchCSESProgress Scenario.repeatedRows "alice" = Async.Fulfilled r
    /\ PlatformAPI.c_categories r = Some cats
    /\ PlatformAPI.c_totalSolved r
       = foldr Z.add 0
           ((fun c => default 0 (PlatformAPI.solved <$> cats !! c))
              <$> ["intro"; "sort"; "dp"; "graph"; "range"; "tree"])
         + Z.of_nat 0.
Proof.
  eexists _, _. split; [reflexivity|]. split; [reflexivity|].
  apply (cses_rows_counted_once Scenario.repeatedRows "alice" _ _ _
           eq_refl eq_refl eq_refl).
Defined.

(** X5. The result of a CSES fetch does not depend on the order of the
    rows of the profile page: two pages with the same rows in different
    orders give the same [totalSolved], the same counters and totals, and
    the same problems in each category. *)
Theorem cses_counters_ignore_row_order (w1 w2 : World.world) (n1 n2 : string)
  (doc1 doc2 : World.document) (r1 r2 : PlatformAPI.csesResult)
  (cats1 cats2 : gmap string PlatformAPI.csesCategory) :
  World.getPage w1 (PlatformAPI.csesUserUrl n1) = Async.ret doc1 ->
  World.getPage w2 (PlatformAPI.csesUserUrl n2) = Async.ret doc2 ->
  World.taskScoreFull doc1 ≡ₚ World.taskScoreFull doc2 ->
  PlatformAPI.fetchCSESProgress w1 n1 = Async.Fulfilled r1 ->
  PlatformAPI.fetchCSESProgress w2 n2 = Async.Fulfilled r2 ->
  PlatformAPI.c_categories r1 = Some cats1 ->
  PlatformAPI.c_categories r2 = Some cats2 ->
  PlatformAPI.c_totalSolved r1 = PlatformAPI.c_totalSolved r2
  /\ forall c,
       PlatformAPI.solved <$> cats1 !! c = PlatformAPI.solved <$> cats2 !! c
       /\ PlatformAPI.total <$> cats1 !! c = PlatformAPI.total <$> cats2 !! c
       /\ forall cat1 cat2,
            cats1 !! c = Some cat1 -> cats2 !! c = Some cat2 ->
            PlatformAPI.catProblems cat1 ≡ₚ PlatformAPI.catProblems cat2.
Proof.
  intros Hp1 Hp2 Hperm Hf1 Hf2 Hc1 Hc2.
  unfold PlatformAPI.fetchCSESProgress in Hf1, Hf2.
  rewrite Hp1, bind_ret in Hf1. rewrite Hp2, bind_ret in Hf2.
  injection Hf1 as <-. injection Hf2 as <-.
  simpl in Hc1, Hc2. injection Hc1 as <-. injection Hc2 as <-.
  assert (PlatformAPI.scrapeSolved doc1 ≡ₚ PlatformAPI.scrapeSolved doc2) as Hsolved.
  { unfold PlatformAPI.scrapeSolved. by apply Permutation_flat_map. }
  cbn [PlatformAPI.c_totalSolved]. split; [by rewrite Hsolved|].
  intros c. rewrite !categorizeSolved_lookup.
  destruct (PlatformAPI.emptyCategories !! c) as [cat0|]; simpl;
    [|repeat split; discriminate].
  split; [by rewrite Hsolved|]. split; [reflexivity|].
  intros cat1 cat2 [= <-] [= <-]. simpl. by rewrite Hsolved.
Qed.

Lemma cses_counters_ignore_row_order_witness :
  exists r1 r2,
    PlatformAPI.fetchCSESProgress Scenario.twoSolved "alice" = Async.Fulfilled r1
    /\ PlatformAPI.fetchCSESProgress Scenario.twoSolvedReversed "alice"
       = Async.Fulfilled r2
    /\ PlatformAPI.c_totalSolved r1 = PlatformAPI.c_totalSolved r2.
Proof.
  eexists _, _. split; [reflexivity|]. split; [reflexivity|].
  eapply (cses_counters_ignore_row_order Scenario.twoSolved Scenario.twoSolvedReversed
            "alice" "alice" _ _ _ _ _ _ eq_refl eq_refl);
    [|reflexivity | reflexivity | reflexivity | reflexivity].
  apply Permutation_swap.
Defined.

(** ** VJudge: the two daily maps *)

Section VJudgeMaps.

Import World PlatformAPI.

Variable w : world.

(** The rows the second loop files under date [d]. *)
Lemma fold_recordRecent (rows : list submissionRow)
  (recentSolves : gmap string (list recentSolve)) (d : string) :
  fold_left (recordRecent w) rows recentSolves !! d
  = match (fun row => {| rs_problem := JS.trim (problemTitleText row);
                         rs_timestamp := JS.trim (timestampText row) |})
          <$> filter (fun row => JS.trim (statusText row) = "Accepted"
                                 /\ dateOfText w (JS.trim (timestampText row)) = d)
                rows with
    | [] => recentSolves !! d
    | hits => Some (default [] (recentSolves !! d) ++ hits)%list
    end.
Proof.
  revert recentSolves. induction rows as [|row rows IH]; intros m; [reflexivity|].
  cbn [fold_left]. rewrite IH, filter_cons. unfold recordRecent.
  destruct (String.eqb_spec (JS.trim (statusText row)) "Accepted") as [Hs|Hs].
  - destruct (decide (dateOfText w (JS.trim (timestampText row)) = d)) as [Hd|Hd].
    + rewrite decide_True by done. rewrite fmap_cons, Hd, lookup_insert_eq.
      destruct (_ <$> filter _ rows) as [|h hits]; cbn [from_option id];
        [reflexivity | by rewrite <- app_assoc].
    + rewrite decide_False by tauto. by rewrite lookup_insert_ne.
  - by rewrite decide_False by tauto.
Qed.

(** The count the first loop leaves under date [d]: that of the last cell
    for [d] with a positive count; nothing is ever stored under
    [__proto__]. *)
Lemma fold_recordActivity (cells : list (string * option string))
  (dailyActivity : gmap string Z) (d : string) :
  fold_left recordActivity cells dailyActivity !! d
  = match last (omap (fun cell : string * option string =>
                        let n := JS.parseIntOrZero (JS.trim cell.1) in
                        if bool_decide (0 < n /\ cell.2 = Some d /\ d <> ""
                                        /\ d <> "__proto__")
                        then Some n else None) cells) with
    | Some n => Some n
    | None => dailyActivity !! d
    end.
Proof.
  revert dailyActivity. induction cells as [|[text date] cells IH]; intros m;
    [reflexivity|].
  cbn [fold_left omap list_omap]. rewrite IH.
  unfold recordActivity, assign. cbn [fst snd].
  set (n := JS.parseIntOrZero (JS.trim text)).
  assert (forall s : string, JS.truthy s = true <-> s <> "") as Htruthy.
  { intros [|a s]; simpl; split; congruence. }
  case_bool_decide as Hcell.
  - destruct Hcell as (Hn & -> & Hd & Hp). apply Z.ltb_lt in Hn as Hn'.
    rewrite Hn'. apply String.eqb_neq in Hp as Hp'.
    rewrite (proj2 (Htruthy d) Hd), Hp', last_cons, lookup_insert_eq.
    by destruct (last _).
  - destruct (last _) as [n'|]; [reflexivity|].
    destruct (Z.ltb_spec 0 n); [|reflexivity].
    destruct date as [date|]; [|reflexivity].
    destruct (JS.truthy date) eqn:Ht; [|reflexivity].
    destruct (String.eqb_spec date "__proto__") as [Hp|Hp]; [reflexivity|].
    apply lookup_insert_ne. intros ->. apply Hcell. repeat split; [lia| |exact Hp].
    by apply Htruthy.
Qed.

End VJudgeMaps.

(** X6. When both VJudge pages load, [recentSolves] holds under each date
    exactly the accepted rows of that date, in page order and with
    repetitions kept; a date without an accepted row is absent. *)
Theorem vjudge_recentSolves_groups_accepted_rows (w : World.world)
  (username : string) (doc subs : World.document) :
  World.getPage w (PlatformAPI.vjudgeUserUrl username) = Async.ret doc ->
  World.getPage w (PlatformAPI.vjudgeSubmissionsUrl username) = Async.ret subs ->
  exists r recent,
    PlatformAPI.fetchVJudgeProgress w username = Async.Fulfilled r
    /\ PlatformAPI.v_success r = true
    /\ PlatformAPI.v_recentSolves r = Some recent
    /\ forall d,
         recent !! d
         = match (fun row =>
                    {| PlatformAPI.rs_problem := JS.trim (World.problemTitleText row);
                       PlatformAPI.rs_timestamp := JS.trim (World.timestampText row) |})
                 <$> filter (fun row =>
                               JS.trim (World.statusText row) = "Accepted"
                               /\ World.dateOfText w (JS.trim (World.timestampText row)) = d)
                       (World.submissionRows subs) with
           | [] => None
           | hits => Some hits
           end.
Proof.
  intros Hdoc Hsubs. unfold PlatformAPI.fetchVJudgeProgress.
  rewrite Hdoc, bind_ret. cbv zeta. rewrite Hsubs, bind_ret.
  eexists _, _. split; [reflexivity|]. split; [reflexivity|].
  split; [reflexivity|]. intros d. rewrite fold_recordRecent, lookup_empty.
  reflexivity.
Qed.

Lemma vjudge_recentSolves_groups_accepted_rows_witness :
  exists r recent,
    PlatformAPI.fetchVJudgeProgress Scenario.vjudgeProfile "alice" = Async.Fulfilled r
    /\ PlatformAPI.v_recentSolves r = Some recent
    /\ length <$> recent !! "Mon Jan 01 2024" = Some 2%nat.
Proof.
  destruct (vjudge_recentSolves_groups_accepted_rows Scenario.vjudgeProfile "alice"
              _ _ eq_refl eq_refl) as (r & recent & Hr & _ & Hrecent & Hall).
  exists r, recent. split; [exact Hr|]. split; [exact Hrecent|].
  rewrite Hall. reflexivity.
Defined.

(** X7. When both VJudge pages load, [dailyActivity] holds under each date
    other than [__proto__] the count of the last activity cell for that
    date whose count is positive; cells with a count of zero, without a
    number, without a date or with the date [__proto__] leave no entry, so
    every stored count is positive and no key is empty or [__proto__]. *)
Theorem vjudge_dailyActivity_last_positive_cell (w : World.world)
  (username : string) (doc subs : World.document) :
  World.getPage w (PlatformAPI.vjudgeUserUrl username) = Async.ret doc ->
  World.getPage w (PlatformAPI.vjudgeSubmissionsUrl username) = Async.ret subs ->
  exists r activity,
    PlatformAPI.fetchVJudgeProgress w username = Async.Fulfilled r
    /\ PlatformAPI.v_dailyActivity r = Some activity
    /\ (forall d,
           activity !! d
           = last (omap (fun cell : string * option string =>
                           let n := JS.parseIntOrZero (JS.trim cell.1) in
                           if bool_decide (0 < n /\ cell.2 = Some d /\ d <> ""
                                           /\ d <> "__proto__")
                           then Some n else None)
                     (World.activityCells doc)))
    /\ forall d n,
         activity !! d = Some n -> 0 < n /\ d <> "" /\ d <> "__proto__".
Proof.
  intros Hdoc Hsubs. unfold PlatformAPI.fetchVJudgeProgress.
  rewrite Hdoc, bind_ret. cbv zeta. rewrite Hsubs, bind_ret.
  eexists _, _. split; [reflexivity|]. split; [reflexivity|].
  assert (forall d,
             fold_left PlatformAPI.recordActivity (World.activityCells doc) ∅ !! d
             = last (omap (fun cell : string * option string =>
                             let n := JS.parseIntOrZero (JS.trim cell.1) in
                             if bool_decide (0 < n /\ cell.2 = Some d /\ d <> ""
                                             /\ d <> "__proto__")
                             then Some n else None)
                       (World.activityCells doc))) as Hlook.
  { intros d. rewrite fold_recordActivity, lookup_empty. by destruct (last _). }
  split; [exact Hlook|]. intros d n. rewrite Hlook. intros Hlast.
  apply last_Some_elem_of, list_elem_of_omap in Hlast as ([text date] & _ & Hcell).
  cbv zeta in Hcell. case_bool_decide as Hb; [|discriminate].
  injection Hcell as <-. tauto.
Qed.

Lemma vjudge_dailyActivity_last_positive_cell_witness :
  exists r activity,
    PlatformAPI.fetchVJudgeProgress Scenario.vjudgeProtoDate "alice"
    = Async.Fulfilled r
    /\ PlatformAPI.v_dailyActivity r = Some activity
    /\ activity !! "Mon Jan 01 2024" = Some 3
    /\ activity !! "Tue Jan 02 2024" = None
    /\ activity !! "__proto__" = None.
Proof.
  destruct (vjudge_dailyActivity_last_positive_cell Scenario.vjudgeProtoDate "alice"
              _ _ eq_refl eq_refl) as (r & activity & Hr & Hact & Hall & _).
  exists r, activity. split; [exact Hr|]. split; [exact Hact|].
  rewrite !Hall. split; [reflexivity|]. split; reflexivity.
Defined.

(** ** When a fetch succeeds *)

Section SuccessConditions.

Import World PlatformAPI.

Lemma forEach_recordSolve_returns_iff (w : world) (subs : list submission)
  (st : gset string * gmap string (list dailySolve)) :
  (exists st', Async.forEach (recordSolve w) subs st = Async.ret st')
  <-> Forall (fun s => s_verdict s = Some "OK" -> is_Some (s_problem s)) subs.
Proof.
  revert st. induction subs as [|s subs IH]; intros [S D]; cbn [Async.forEach].
  - split; [constructor | by eexists].
  - rewrite Forall_cons. destruct (decide (s_verdict s = Some "OK")) as [Hv|Hv].
    + destruct (s_problem s) as [pb|] eqn:Hpb.
      * rewrite (recordSolve_accepted_eq w s pb S D Hv Hpb), bind_ret, IH.
        split; [intros H; split; [by eexists | exact H] | tauto].
      * unfold recordSolve. rewrite Hpb, bool_decide_eq_true_2 by assumption.
        split; [intros [st' Hst']; discriminate|].
        intros [H _]. by destruct (H Hv).
    + rewrite recordSolve_skipped, bind_ret, IH by assumption.
      split; [intros H; split; [tauto | exact H] | tauto].
Qed.

Lemma forEach_recordContest_returns_iff (subs : list submission)
  (C0 : gset (option Z)) :
  (exists C, Async.forEach recordContest subs C0 = Async.ret C)
  <-> Forall (fun s => is_Some (s_author s)) subs.
Proof.
  revert C0. induction subs as [|s subs IH]; intros C0; cbn [Async.forEach].
  - split; [constructor | by eexists].
  - rewrite Forall_cons. unfold recordContest at 1.
    destruct (s_author s) as [a|] eqn:Ha.
    + destruct (String.eqb _ _); rewrite bind_ret, IH;
        (split; [intros H; split; [by eexists | exact H] | tauto]).
    + split; [intros [C HC]; discriminate | intros [[a Ha'] _]; discriminate].
Qed.

End SuccessConditions.

(** X8. A Codeforces fetch succeeds exactly when both requests return,
    both answers have status [OK], the user list is not empty, every
    accepted submission carries its problem and every submission carries
    its author; in every other case the result is the failure object. *)
Theorem codeforces_success_condition (w : World.world) (username : string)
  (r : PlatformAPI.codeforcesResult) :
  PlatformAPI.fetchCodeforcesProgress w username = Async.Fulfilled r ->
  (PlatformAPI.cf_success r = true
   <-> exists info subs,
         World.getUserInfo w (PlatformAPI.userInfoUrl username) = Async.ret info
         /\ World.ui_status info = "OK"
         /\ World.ui_result info <> []
         /\ World.getUserStatus w (PlatformAPI.submissionsUrl username) = Async.ret subs
         /\ World.us_status subs = "OK"
         /\ Forall (fun s => World.s_verdict s = Some "OK" -> is_Some (World.s_problem s))
              (World.us_result subs)
         /\ Forall (fun s => is_Some (World.s_author s)) (World.us_result subs)).
Proof.
  intros Hfetch. split.
  - intros Hok.
    destruct (fetchCodeforcesProgress_cases w username)
      as [[msg Hr]|(info & rest & subs & S & D & C & Hinfo & Hsubs & Hl1 & Hl2 & Hr)];
      rewrite Hr in Hfetch; injection Hfetch as <-; [discriminate|].
    eexists _, _. split; [exact Hinfo|]. split; [reflexivity|].
    split; [discriminate|]. split; [exact Hsubs|]. split; [reflexivity|].
    split.
    + apply (forEach_recordSolve_returns_iff w subs (∅, ∅)). by eexists.
    + apply (forEach_recordContest_returns_iff subs ∅). by eexists.
  - intros ([status1 users] & [status2 subs] & Hinfo & Hs1 & Hne & Hsubs & Hs2 & Hp & Ha).
    simpl in *. subst status1 status2.
    destruct users as [|info rest]; [contradiction|].
    apply (forEach_recordSolve_returns_iff w subs (∅, ∅)) in Hp as [[S D] Hl1].
    apply (forEach_recordContest_returns_iff subs ∅) in Ha as [C Hl2].
    rewrite (fetchCodeforcesProgress_ok w username info rest subs S D C
               Hinfo Hsubs Hl1 Hl2) in Hfetch.
    by injection Hfetch as <-.
Qed.

Lemma codeforces_success_condition_witness :
  exists r,
    PlatformAPI.fetchCodeforcesProgress Scenario.authorMissing "alice"
    = Async.Fulfilled r
    /\ PlatformAPI.cf_success r = false
    /\ PlatformAPI.cf_error r
       = Some "Cannot read properties of undefined (reading 'participantType')".
Proof.
  eexists. split; [reflexivity|]. split; [|reflexivity].
  destruct (PlatformAPI.cf_success _) eqn:Hok; [|reflexivity]. exfalso.
  apply (codeforces_success_condition Scenario.authorMissing "alice" _ eq_refl) in Hok
    as (info & subs & _ & _ & _ & [= <-] & _ & _ & Ha).
  apply Forall_cons in Ha as [[a Ha] _]. discriminate.
Defined.

(** X9. A VJudge fetch succeeds exactly when the profile page and the
    submissions page both load.  When the profile page fails its message
    is reported; when only the submissions page fails, the counts read
    from the profile are dropped and [totalSolved] is 0. *)
Theorem vjudge_needs_both_pages (w : World.world) (username : string) :
  (forall e,
      World.getPage w (PlatformAPI.vjudgeUserUrl username) = Async.throw e ->
      PlatformAPI.fetchVJudgeProgress w username
      = Async.Fulfilled
          {| PlatformAPI.v_success := false;
             PlatformAPI.v_error := Some (Async.message e);
             PlatformAPI.v_username := None; PlatformAPI.v_totalSolved := 0;
             PlatformAPI.v_totalSubmitted := None;
             PlatformAPI.v_dailyActivity := None;
             PlatformAPI.v_recentSolves := None;
             PlatformAPI.v_lastUpdated := None |})
  /\ (forall doc e,
         World.getPage w (PlatformAPI.vjudgeUserUrl username) = Async.ret doc ->
         World.getPage w (PlatformAPI.vjudgeSubmissionsUrl username) = Async.throw e ->
         PlatformAPI.fetchVJudgeProgress w username
         = Async.Fulfilled
             {| PlatformAPI.v_success := false;
                PlatformAPI.v_error := Some (Async.message e);
                PlatformAPI.v_username := None; PlatformAPI.v_totalSolved := 0;
                PlatformAPI.v_totalSubmitted := None;
                PlatformAPI.v_dailyActivity := None;
                PlatformAPI.v_recentSolves := None;
                PlatformAPI.v_lastUpdated := None |})
  /\ (forall r,
         PlatformAPI.fetchVJudgeProgress w username = Async.Fulfilled r ->
         (PlatformAPI.v_success r = true
          <-> exists doc subs,
                World.getPage w (PlatformAPI.vjudgeUserUrl username) = Async.ret doc
                /\ World.getPage w (PlatformAPI.vjudgeSubmissionsUrl username)
                   = Async.ret subs
                /\ PlatformAPI.v_totalSolved r
                   = JS.parseIntOrZero (JS.trim (World.solvedText doc))
                /\ PlatformAPI.v_totalSubmitted r
                   = Some (JS.parseIntOrZero (JS.trim (World.submittedText doc))))).
Proof.
  unfold PlatformAPI.fetchVJudgeProgress. split; [|split].
  - intros e ->. reflexivity.
  - intros doc e -> Hsubs. rewrite bind_ret. cbv zeta. by rewrite Hsubs.
  - intros r.
    destruct (World.getPage w (PlatformAPI.vjudgeUserUrl username)) as [e|doc].
    { intros [= <-]. split; [discriminate | intros (? & ? & [=] & _)]. }
    rewrite bind_ret. cbv zeta.
    destruct (World.getPage w (PlatformAPI.vjudgeSubmissionsUrl username)) as [e|subs].
    { intros [= <-]. split; [discriminate | intros (? & ? & _ & [=] & _)]. }
    rewrite bind_ret. intros [= <-]. split; [|reflexivity].
    intros _. by exists doc, subs.
Qed.

Lemma vjudge_needs_both_pages_witness :
  exists r,
    PlatformAPI.fetchVJudgeProgress Scenario.submissionsDown "alice"
    = Async.Fulfilled r
    /\ PlatformAPI.v_success r = false
    /\ PlatformAPI.v_totalSolved r = 0.
Proof.
  eexists. split.
  - apply (proj1 (proj2 (vjudge_needs_both_pages Scenario.submissionsDown "alice"))
             Scenario.emptyDocument (Async.Error "Request failed with status code 404"));
      reflexivity.
  - split; reflexivity.
Defined.

(** ** Topic catalogue: what the parser lets through *)

Section TopicFilter.

Import World PlatformAPI.

Lemma filterTopics_spec (ts : list topic) (seen : gset string) :
  NoDup ((fun t => JS.toLowerCase (title t)) <$> filterTopics seen ts)
  /\ forall t, t ∈ filterTopics seen ts ->
       t ∈ ts /\ (JS.toLowerCase (title t) ∉ seen) /\ count t <> 0
       /\ JS.hasLetter (title t) = true /\ JS.strlen (title t) < 60.
Proof.
  revert seen. induction ts as [|t ts IH]; intros seen; cbn [filterTopics].
  - split; [constructor | intros t Ht; inversion Ht].
  - cbv zeta. destruct (bool_decide_reflect (JS.toLowerCase (title t) ∈ seen)) as [Hs|Hs];
      cbn [orb].
    { destruct (IH seen) as [Hnd Hall]. split; [exact Hnd|].
      intros t' Ht'. destruct (Hall t' Ht') as (? & ? & ? & ? & ?).
      repeat split; try assumption. by right. }
    destruct (Z.eqb_spec (count t) 0) as [Hc|Hc].
    { destruct (IH seen) as [Hnd Hall]. split; [exact Hnd|].
      intros t' Ht'. destruct (Hall t' Ht') as (? & ? & ? & ? & ?).
      repeat split; try assumption. by right. }
    destruct (IH ({[JS.toLowerCase (title t)]} ∪ seen)) as [Hnd Hall].
    assert (forall t', t' ∈ filterTopics ({[JS.toLowerCase (title t)]} ∪ seen) ts ->
              t' ∈ t :: ts /\ (JS.toLowerCase (title t') ∉ seen) /\ count t' <> 0
              /\ JS.hasLetter (title t') = true /\ JS.strlen (title t') < 60) as Hrest.
    { intros t' Ht'. destruct (Hall t' Ht') as (? & Hseen & ? & ? & ?).
      repeat split; try assumption; [by right|].
      intros Hin. apply Hseen, elem_of_union. by right. }
    destruct (JS.hasLetter (title t)) eqn:Hl; cbn [andb]; [|by split].
    destruct (Z.ltb_spec (JS.strlen (title t)) 60) as [Hlen|Hlen]; [|by split].
    split.
    + rewrite fmap_cons. apply NoDup_cons. split; [|exact Hnd].
      intros Hin. apply list_elem_of_fmap in Hin as (t' & Heq & Ht').
      destruct (Hall t' Ht') as (_ & Hseen & _). apply Hseen, elem_of_union.
      left. apply elem_of_singleton. congruence.
    + intros t' Ht'. apply elem_of_cons in Ht' as [->|Ht']; [|by apply Hrest].
      repeat split; try assumption. left.
Qed.

Lemma method1_spec (el : h2Element) (t : topic) :
  t ∈ method1 el ->
  0 < count t /\ slug t = slugOf (title t)
  /\ url t = (topicsUrl ++ "#" ++ slug t)%string
  /\ title t = JS.trim (h2Text el).
Proof.
  unfold method1. cbv zeta. destruct (_ || _)%bool; [inversion 1|].
  destruct (0 <? _) eqn:Hn; [|inversion 1]. apply Z.ltb_lt in Hn.
  intros Ht. apply list_elem_of_singleton in Ht as ->. by repeat split.
Qed.

Lemma method2_spec (el : string * Z) (t : topic) :
  t ∈ method2 el ->
  0 < count t /\ slug t = slugOf (title t)
  /\ url t = (topicsUrl ++ "#" ++ slug t)%string
  /\ title t = JS.trim el.1.
Proof.
  destruct el as [text n]. unfold method2. destruct (_ || _)%bool; [inversion 1|].
  destruct (0 <? n) eqn:Hn; [|inversion 1]. apply Z.ltb_lt in Hn.
  intros Ht. apply list_elem_of_singleton in Ht as ->. by repeat split.
Qed.

End TopicFilter.

Lemma getTopicDescription_cases (t : string) :
  (t ∈ JS.inheritedNames ->
   PlatformAPI.getTopicDescription t = PlatformAPI.Inherited t)
  /\ (t ∉ JS.inheritedNames ->
      exists text,
        PlatformAPI.getTopicDescription t = PlatformAPI.Text text /\ text <> "").
Proof.
  unfold PlatformAPI.getTopicDescription. split.
  - intros Hin. rewrite bool_decide_eq_true_2 by exact Hin.
    unfold JS.inheritedNames in Hin.
    repeat (apply elem_of_cons in Hin as [->|Hin]; [reflexivity|]).
    by apply elem_of_nil in Hin.
  - intros Hout. rewrite bool_decide_eq_false_2 by exact Hout.
    destruct (PlatformAPI.lookupDescription t PlatformAPI.descriptions)
      as [d|] eqn:Hd; [|by eexists].
    exists d. split; [reflexivity|]. intros ->.
    unfold PlatformAPI.descriptions in Hd. cbn [PlatformAPI.lookupDescription] in Hd.
    repeat match type of Hd with
           | (if ?b then _ else _) = _ => destruct b; [discriminate|]
           end.
    discriminate.
Qed.

(** X10. When [fetchCSESTopics] returns parsed topics (no [fromCache]),
    the list is not empty, no two titles are equal up to case, and every
    topic has a positive count, a title of fewer than 60 characters that
    contains a letter, the slug and anchor URL of its title, and the
    description [getTopicDescription] gives for its title: a text that is
    not empty, unless the title is a name inherited from
    [Object.prototype], for which the description is the inherited
    value and not a text. *)
Theorem parsed_topics_are_clean (w : World.world) (r : PlatformAPI.topicsResult) :
  PlatformAPI.fetchCSESTopics w = Async.Fulfilled r ->
  PlatformAPI.t_fromCache r = None ->
  PlatformAPI.t_topics r <> []
  /\ PlatformAPI.t_error r = None
  /\ NoDup ((fun t => JS.toLowerCase (PlatformAPI.title t)) <$> PlatformAPI.t_topics r)
  /\ forall t, t ∈ PlatformAPI.t_topics r ->
       0 < PlatformAPI.count t
       /\ JS.hasLetter (PlatformAPI.title t) = true
       /\ JS.strlen (PlatformAPI.title t) < 60
       /\ PlatformAPI.slug t = PlatformAPI.slugOf (PlatformAPI.title t)
       /\ PlatformAPI.url t
          = (PlatformAPI.topicsUrl ++ "#" ++ PlatformAPI.slug t)%string
       /\ PlatformAPI.description t
          = Some (PlatformAPI.getTopicDescription (PlatformAPI.title t))
       /\ (PlatformAPI.title t ∈ JS.inheritedNames ->
           PlatformAPI.description t
           = Some (PlatformAPI.Inherited (PlatformAPI.title t)))
       /\ ((PlatformAPI.title t ∉ JS.inheritedNames) ->
           exists text,
             PlatformAPI.description t = Some (PlatformAPI.Text text)
             /\ text <> "").
Proof.
  unfold PlatformAPI.fetchCSESTopics.
  destruct (World.getPage w PlatformAPI.topicsUrl) as [e|doc]; [intros [= <-]; discriminate|].
  rewrite bind_ret. cbv zeta.
  assert (NoDup ((fun t => JS.toLowerCase (PlatformAPI.title t))
                   <$> PlatformAPI.parseTopics doc)
          /\ forall t, t ∈ PlatformAPI.parseTopics doc ->
               0 < PlatformAPI.count t
               /\ JS.hasLetter (PlatformAPI.title t) = true
               /\ JS.strlen (PlatformAPI.title t) < 60
               /\ PlatformAPI.slug t = PlatformAPI.slugOf (PlatformAPI.title t)
               /\ PlatformAPI.url t
                  = (PlatformAPI.topicsUrl ++ "#" ++ PlatformAPI.slug t)%string)
    as Hclean.
  { unfold PlatformAPI.parseTopics. cbv zeta.
    set (topics := match flat_map PlatformAPI.method1 (World.h2 doc) with
                   | [] => flat_map PlatformAPI.method2 (World.containsProblems doc)
                   | _ => flat_map PlatformAPI.method1 (World.h2 doc)
                   end).
    assert (forall t, t ∈ topics ->
              0 < PlatformAPI.count t
              /\ PlatformAPI.slug t = PlatformAPI.slugOf (PlatformAPI.title t)
              /\ PlatformAPI.url t
                 = (PlatformAPI.topicsUrl ++ "#" ++ PlatformAPI.slug t)%string) as Hraw.
    { intros t Ht. subst topics.
      destruct (flat_map PlatformAPI.method1 (World.h2 doc)) as [|t1 ts1] eqn:H1.
      - apply list_elem_of_In, in_flat_map in Ht as (el & _ & Ht).
        apply list_elem_of_In, method2_spec in Ht. tauto.
      - rewrite <- H1 in Ht.
        apply list_elem_of_In, in_flat_map in Ht as (el & _ & Ht).
        apply list_elem_of_In, method1_spec in Ht. tauto. }
    destruct (filterTopics_spec topics ∅) as [Hnd Hall]. split; [exact Hnd|].
    intros t Ht. destruct (Hall t Ht) as (Hin & _ & _ & Hl & Hlen).
    destruct (Hraw t Hin) as (Hc & Hs & Hu). by repeat split. }
  revert Hclean. destruct (PlatformAPI.parseTopics doc) as [|t0 ts0];
    intros [Hnd Hall]; [intros [= <-]; discriminate|].
  cbv beta iota. remember (t0 :: ts0) as l eqn:Hl. intros [= <-] _.
  cbn [PlatformAPI.t_topics PlatformAPI.t_error].
  split; [rewrite Hl; discriminate|]. split; [reflexivity|]. split.
  - refine (eq_rect _ NoDup Hnd _ _).
    clear. induction l as [|t l IH]; [reflexivity|].
    cbn [map]. rewrite !fmap_cons. f_equal. exact IH.
  - intros t Ht. apply list_elem_of_In, in_map_iff in Ht as (t' & <- & Ht').
    apply list_elem_of_In in Ht'.
    destruct (Hall t' Ht') as (Hc & Hl' & Hlen & Hs & Hu).
    destruct (getTopicDescription_cases (PlatformAPI.title t')) as [Hin Hout].
    cbn [PlatformAPI.withDescription PlatformAPI.title PlatformAPI.count
         PlatformAPI.slug PlatformAPI.url PlatformAPI.description].
    do 6 (split; [done|]). split.
    + intros H. by rewrite (Hin H).
    + intros H. destruct (Hout H) as (text & -> & Hne). by exists text.
Qed.

(** A heading [constructor] yields a topic whose description is not a
    text. *)
Example topic_description_inherited :
  exists r t,
    PlatformAPI.fetchCSESTopics Scenario.inheritedTitle = Async.Fulfilled r
    /\ PlatformAPI.t_topics r = [t]
    /\ PlatformAPI.title t = "constructor"
    /\ PlatformAPI.description t = Some (PlatformAPI.Inherited "constructor").
Proof. eexists _, _. split; [reflexivity|]. by vm_compute. Qed.

Lemma parsed_topics_are_clean_witness :
  exists r,
    PlatformAPI.fetchCSESTopics Scenario.problemSet = Async.Fulfilled r
    /\ PlatformAPI.title <$> PlatformAPI.t_topics r = ["Sorting Problems"]
    /\ forall t, t ∈ PlatformAPI.t_topics r -> 0 < PlatformAPI.count t.
Proof.
  eexists. split; [reflexivity|]. split; [vm_compute; reflexivity|].
  intros t Ht.
  destruct (parsed_topics_are_clean Scenario.problemSet _ eq_refl eq_refl)
    as (_ & _ & _ & Hall).
  by destruct (Hall t Ht).
Defined.

(** ** Slugs *)

Section Slug.

Local Open Scope char_scope.

Lemma chars_rev_string (s : string) :
  list_ascii_of_string (JS.rev_string s) = rev (list_ascii_of_string s).
Proof. unfold JS.rev_string. apply list_ascii_of_string_of_list_ascii. Qed.

Lemma chars_dropLeadingDash (s : string) :
  list_ascii_of_string (JS.dropLeadingDash s)
  = match list_ascii_of_string s with
    | c :: l => if Ascii.eqb c "-" then l else c :: l
    | [] => []
    end.
Proof.
  destruct s as [|c s]; [reflexivity|]. cbn [list_ascii_of_string].
  destruct (Ascii.eqb_spec c "-") as [->|Hc]; [reflexivity|].
  destruct c as [[] [] [] [] [] [] [] []]; try reflexivity. contradiction.
Qed.

(** What [dashRuns] writes: characters of [[a-z0-9]] and single dashes,
    and no dash first when the run was already open. *)
Lemma dashRuns_chars (s : string) (inRun : bool) :
  Forall (fun c => JS.isLowerAlnum c = true \/ c = "-")
    (list_ascii_of_string (JS.dashRuns inRun s))
  /\ (inRun = true -> head (list_ascii_of_string (JS.dashRuns inRun s)) <> Some "-")
  /\ forall pre post,
       list_ascii_of_string (JS.dashRuns inRun s) <> (pre ++ "-" :: "-" :: post)%list.
Proof.
  revert inRun. induction s as [|c s IH]; intros inRun; cbn [JS.dashRuns].
  - repeat split; [constructor | discriminate |]. intros [|? ?] post; discriminate.
  - destruct (JS.isLowerAlnum c) eqn:Hc.
    + destruct (IH false) as (Hall & _ & Hadj). cbn [list_ascii_of_string].
      repeat split.
      * constructor; [by left | exact Hall].
      * intros _ [= ->]. discriminate.
      * intros [|a pre] post; [intros [= -> _]; discriminate|].
        intros [= _ H]. by apply (Hadj pre post).
    + destruct inRun.
      * apply (IH true).
      * destruct (IH true) as (Hall & Hhead & Hadj). cbn [list_ascii_of_string].
        repeat split.
        -- constructor; [by right | exact Hall].
        -- discriminate.
        -- intros [|a pre] post.
           ++ intros [= H]. apply Hhead; [reflexivity|]. by rewrite H.
           ++ intros [= _ H]. by apply (Hadj pre post).
Qed.

Lemma no_double_dash_rev (l : list ascii) :
  (forall pre post, l <> (pre ++ "-" :: "-" :: post)%list) ->
  forall pre post, rev l <> (pre ++ "-" :: "-" :: post)%list.
Proof.
  intros Hl pre post Hrev. apply (Hl (rev post) (rev pre)).
  rewrite <- (rev_involutive l), Hrev, rev_app_distr. simpl.
  by rewrite <- !app_assoc.
Qed.

(** Dropping one leading dash from a text without double dashes leaves a
    text that starts with no dash. *)
Lemma drop_dash_head (l : list ascii) :
  (forall pre post, l <> (pre ++ "-" :: "-" :: post)%list) ->
  let l' := match l with
            | c :: r => if Ascii.eqb c "-" then r else c :: r
            | [] => []
            end in
  head l' <> Some "-"
  /\ (forall pre post, l' <> (pre ++ "-" :: "-" :: post)%list)
  /\ (last l <> Some "-" -> last l' <> Some "-")
  /\ Forall (fun c => c ∈ l) l'.
Proof.
  intros Hl. destruct l as [|c r]; cbn zeta iota beta.
  - repeat split; [discriminate | intros [|? ?] ?; discriminate | tauto | constructor].
  - destruct (Ascii.eqb_spec c "-") as [->|Hc].
    + repeat split.
      * destruct r as [|c' r]; [discriminate|]. intros [= ->]. by apply (Hl [] r).
      * intros pre post ->. by apply (Hl ("-" :: pre) post).
      * intros Hlast Hr. apply Hlast. rewrite last_cons, Hr. reflexivity.
      * apply Forall_forall. intros x Hx. by right.
    + repeat split; [intros [= ->]; contradiction | exact Hl | tauto |].
      apply Forall_forall. tauto.
Qed.

End Slug.

(** X11. The slug of any title consists of lowercase letters, digits and
    dashes only, has no two dashes in a row, and neither starts nor ends
    with a dash. *)
Theorem slug_is_clean (t : string) :
  let cs := list_ascii_of_string (PlatformAPI.slugOf t) in
  Forall (fun c => JS.isLowerAlnum c = true \/ c = "-"%char) cs
  /\ head cs <> Some "-"%char
  /\ last cs <> Some "-"%char
  /\ forall pre post, cs <> (pre ++ "-"%char :: "-"%char :: post)%list.
Proof.
  unfold PlatformAPI.slugOf, JS.stripEdgeDashes. cbv zeta.
  set (u := JS.dashRuns false (JS.toLowerCase t)).
  destruct (dashRuns_chars (JS.toLowerCase t) false) as (Hchars & _ & Hadj).
  fold u in Hchars, Hadj.
  rewrite chars_rev_string, chars_dropLeadingDash, chars_rev_string,
    chars_dropLeadingDash.
  destruct (drop_dash_head _ Hadj) as (Hhead1 & Hadj1 & _ & Hsub1).
  cbv zeta in Hhead1, Hadj1, Hsub1.
  set (v := match list_ascii_of_string u with
            | c :: r => if Ascii.eqb c "-" then r else c :: r
            | [] => []
            end) in *.
  destruct (drop_dash_head (rev v) (no_double_dash_rev v Hadj1))
    as (Hhead2 & Hadj2 & Hlast2 & Hsub2).
  cbv zeta in Hhead2, Hadj2, Hlast2, Hsub2.
  set (x := match rev v with
            | c :: r => if Ascii.eqb c "-" then r else c :: r
            | [] => []
            end) in *.
  assert (forall l : list ascii, head (rev l) = last l) as Hhr.
  { intros l. induction l as [|a l IH] using rev_ind; [reflexivity|].
    by rewrite rev_app_distr, last_snoc. }
  assert (forall l : list ascii, last (rev l) = head l) as Hlr.
  { intros l. by rewrite <- (rev_involutive l) at 2; rewrite Hhr. }
  repeat split.
  - apply Forall_rev. apply Forall_forall. intros c Hc.
    rewrite Forall_forall in Hsub2.
    apply Hsub2, list_elem_of_In, (proj2 (in_rev _ _)), list_elem_of_In in Hc.
    rewrite Forall_forall in Hsub1. apply Hsub1 in Hc.
    rewrite Forall_forall in Hchars. by apply Hchars.
  - rewrite Hhr. apply Hlast2. by rewrite Hlr.
  - by rewrite Hlr.
  - by apply no_double_dash_rev.
Qed.

(** ** Numbers as text *)

Section NumberText.

Local Open Scope char_scope.

Lemma pretty_N_char_digit (x : N) :
  (x < 10)%N ->
  pretty_N_char x ∈ ["0"; "1"; "2"; "3"; "4"; "5"; "6"; "7"; "8"; "9"]
  /\ JS.digitValue (pretty_N_char x) = Some (Z.of_N x).
Proof.
  intros Hx.
  assert (x = 0 \/ x = 1 \/ x = 2 \/ x = 3 \/ x = 4 \/ x = 5 \/ x = 6 \/ x = 7
          \/ x = 8 \/ x = 9)%N as Hcases by lia.
  repeat (destruct Hcases as [->|Hcases];
          [split; [repeat first [by left | right] | reflexivity]|]).
  subst. split; [repeat first [by left | right] | reflexivity].
Qed.

(** The digits [pretty] writes in front of [s] read back as the number. *)
Lemma parseDigits_pretty_N_go (x : N) (s : string) :
  JS.parseDigits 10 (pretty_N_go x s) None
  = JS.parseDigits 10 s (if decide (x = 0%N) then None else Some (Z.of_N x)).
Proof.
  revert s. induction (N.lt_wf_0 x) as [x _ IH]. intros s.
  destruct (decide (x = 0%N)) as [->|Hx]; [reflexivity|].
  rewrite pretty_N_go_step by lia. rewrite IH by (apply N.div_lt; lia).
  cbn [JS.parseDigits].
  destruct (pretty_N_char_digit (x `mod` 10)%N) as [_ ->];
    [apply N.mod_lt; lia|].
  assert ((Z.of_N (x `mod` 10)%N <? 10)%Z = true) as ->.
  { apply Z.ltb_lt. pose proof (N.mod_lt x 10). lia. }
  f_equal. f_equal.
  destruct (decide (x `div` 10 = 0)%N) as [Hd|Hd]; cbn [from_option id].
  - pose proof (N.div_mod x 10). lia.
  - pose proof (N.div_mod x 10). lia.
Qed.

Lemma pretty_N_go_digits (x : N) (s : string) :
  Forall (fun c => c ∈ ["0"; "1"; "2"; "3"; "4"; "5"; "6"; "7"; "8"; "9"])
    (list_ascii_of_string s) ->
  Forall (fun c => c ∈ ["0"; "1"; "2"; "3"; "4"; "5"; "6"; "7"; "8"; "9"])
    (list_ascii_of_string (pretty_N_go x s)).
Proof.
  revert s. induction (N.lt_wf_0 x) as [x _ IH]. intros s Hs.
  destruct (decide (x = 0%N)) as [->|Hx]; [exact Hs|].
  rewrite pretty_N_go_step by lia. apply IH; [apply N.div_lt; lia|].
  cbn [list_ascii_of_string]. constructor; [|exact Hs].
  apply pretty_N_char_digit, N.mod_lt. lia.
Qed.

(** On a text of decimal digits [parseInt] finds neither white space nor
    a sign nor a hexadecimal prefix. *)
Lemma parseInt_digits (s : string) :
  Forall (fun c => c ∈ ["0"; "1"; "2"; "3"; "4"; "5"; "6"; "7"; "8"; "9"])
    (list_ascii_of_string s) ->
  JS.parseInt s = JS.parseDigits 10 s None
  /\ JS.parseInt (String "-" s) = Z.opp <$> JS.parseDigits 10 s None.
Proof.
  assert (forall o : option Z,
             match o with Some m => Some (1 * m)%Z | None => None end = o) as Hone.
  { intros [m|]; [f_equal; lia | reflexivity]. }
  assert (forall o : option Z,
             match o with Some m => Some (-1 * m)%Z | None => None end = Z.opp <$> o)
    as Hneg.
  { intros [m|]; [simpl; f_equal; lia | reflexivity]. }
  destruct s as [|c s]; [intros _; split; reflexivity|].
  cbn [list_ascii_of_string]. intros Hall.
  apply Forall_cons in Hall as [Hc Hall].
  destruct s as [|c2 s].
  - repeat (apply elem_of_cons in Hc as [->|Hc]; [split; reflexivity|]). inversion Hc.
  - cbn [list_ascii_of_string] in Hall. apply Forall_cons in Hall as [Hc2 _].
    repeat (apply elem_of_cons in Hc as [->|Hc];
            [repeat (apply elem_of_cons in Hc2 as [->|Hc2];
                     [unfold JS.parseInt; cbn [JS.trimStart JS.isWhiteSpace];
                      split; [apply Hone | apply Hneg]|]);
             inversion Hc2|]).
    inversion Hc.
Qed.

(** [parseInt(n.toString())] is [n]. *)
Lemma parseInt_pretty (n : Z) : JS.parseInt (pretty n) = Some n.
Proof.
  destruct n as [|p|p]; [reflexivity| |].
  - change (pretty (Z.pos p)) with (pretty_N_go (N.pos p) "").
    destruct (parseInt_digits (pretty_N_go (N.pos p) "")) as [-> _].
    { apply pretty_N_go_digits. constructor. }
    rewrite parseDigits_pretty_N_go. reflexivity.
  - change (pretty (Z.neg p)) with (String "-" (pretty_N_go (N.pos p) "")).
    destruct (parseInt_digits (pretty_N_go (N.pos p) "")) as [_ ->].
    { apply pretty_N_go_digits. constructor. }
    rewrite parseDigits_pretty_N_go. reflexivity.
Qed.

Lemma pretty_truthy (n : Z) : JS.truthy (pretty n) = true.
Proof.
  destruct (pretty n) as [|c s] eqn:Hp; [|reflexivity].
  pose proof (parseInt_pretty n) as H. rewrite Hp in H. discriminate.
Qed.

End NumberText.

(** ** Client cache *)

(** X12. An entry written by [setCachedData] is returned by
    [getCachedData] as long as less than the key's expiry time has passed
    (30, 5 or 15 minutes for the three configured keys, 10 minutes
    otherwise) and the cache stays as it is; from then on the read
    returns [null] and removes the entry.  Reads of other keys are not
    affected by the write. *)
Theorem cache_entry_lives_until_expiry {A : Type} (written read : Z)
  (key : string) (d : A) (cache : gmap string (ClientCache.cached A)) (limit : Z) :
  ClientCache.expiryOf key = Some limit ->
  limit ∈ [1800000; 300000; 900000; 600000]
  /\ (read - written < limit ->
      ClientCache.getCachedData read key
        (ClientCache.setCachedData written key d cache)
      = (Some d, ClientCache.setCachedData written key d cache))
  /\ (limit <= read - written ->
      ClientCache.getCachedData read key
        (ClientCache.setCachedData written key d cache)
      = (None, delete key cache))
  /\ forall other,
       other <> key ->
       (ClientCache.getCachedData read other
          (ClientCache.setCachedData written key d cache)).1
       = (ClientCache.getCachedData read other cache).1.
Proof.
  intros Hlimit. split; [|split; [|split]].
  - unfold ClientCache.expiryOf in Hlimit.
    destruct (ClientCache.ownProperty key ClientCache.cacheExpiry) as [v|] eqn:Hown.
    + injection Hlimit as <-. unfold ClientCache.cacheExpiry in Hown.
      cbn [ClientCache.ownProperty] in Hown.
      repeat (destruct (String.eqb _ key);
              [injection Hown as <-; repeat first [by left | right]|]).
      discriminate.
    + destruct (bool_decide _); [discriminate|]. injection Hlimit as <-.
      repeat first [by left | right].
  - intros Hfresh. unfold ClientCache.getCachedData, ClientCache.setCachedData.
    rewrite lookup_insert_eq, Hlimit. cbn [ClientCache.timestamp ClientCache.data].
    by rewrite (proj2 (Z.ltb_lt _ _) Hfresh).
  - intros Hstale. unfold ClientCache.getCachedData, ClientCache.setCachedData.
    rewrite lookup_insert_eq, Hlimit. cbn [ClientCache.timestamp].
    rewrite (proj2 (Z.ltb_ge _ _) Hstale). by rewrite delete_insert_eq.
  - intros other Hother. unfold ClientCache.getCachedData, ClientCache.setCachedData.
    rewrite lookup_insert_ne by congruence.
    destruct (cache !! other) as [c|]; [|reflexivity].
    destruct (ClientCache.expiryOf other); [|reflexivity].
    by destruct (_ <? _).
Qed.

Lemma cache_entry_lives_until_expiry_witness :
  ClientCache.getCachedData 1799999 "cses-topics"
    (ClientCache.setCachedData 0 "cses-topics" "topics" ∅)
  = (Some "topics", ClientCache.setCachedData 0 "cses-topics" "topics" ∅)
  /\ ClientCache.getCachedData 1800000 "cses-topics"
       (ClientCache.setCachedData 0 "cses-topics" "topics" ∅)
     = (None, delete "cses-topics" ∅).
Proof.
  destruct (cache_entry_lives_until_expiry (A := string) 0 1799999 "cses-topics"
              "topics" ∅ 1800000 eq_refl) as (_ & Hfresh & _).
  destruct (cache_entry_lives_until_expiry (A := string) 0 1800000 "cses-topics"
              "topics" ∅ 1800000 eq_refl) as (_ & _ & Hstale & _).
  split; [apply Hfresh | apply Hstale]; lia.
Defined.

(** A key that names a member of [Object.prototype] never hits. *)
Example cache_inherited_key :
  ClientCache.getCachedData 0 "constructor"
    (ClientCache.setCachedData 0 "constructor" "x" ∅)
  = (None, delete "constructor" ∅).
Proof. vm_compute. reflexivity. Qed.


(** ** Retries *)

(** X13. [fetchWithRetry] calls [fetch] at least once and at most
    [retries + 1] times.  Every call but the last was rejected with a
    [NetworkError] or a [TypeError]; the last call decides the result: an
    [ok] response is returned, a response that is not [ok] is thrown as an
    [HTTP error] without being retried, and any other rejection is thrown,
    a retryable one only after all the retries are used up. *)
Theorem fetchWithRetry_last_call_decides (network : nat -> FetchRetry.outcome)
  (calls retries total : nat) (res : FetchRetry.result) :
  FetchRetry.fetchWithRetry network calls retries = (res, total) ->
  (calls < total <= calls + retries + 1)%nat
  /\ (forall i, (calls <= i < total - 1)%nat ->
                exists name message,
                  network i = FetchRetry.Rejects name message
                  /\ (name = "NetworkError" \/ name = "TypeError"))
  /\ match network (total - 1)%nat with
     | FetchRetry.Responds true status => res = FetchRetry.Returned status
     | FetchRetry.Responds false status =>
         res = FetchRetry.Threw "Error" ("HTTP error! status: " ++ pretty status)
     | FetchRetry.Rejects name message =>
         res = FetchRetry.Threw name message
         /\ (name = "NetworkError" \/ name = "TypeError" ->
             total = (calls + retries + 1)%nat)
     end.
Proof.
  revert calls. induction retries as [|retries IH]; intros calls;
    cbn [FetchRetry.fetchWithRetry].
  - destruct (network calls) as [[|] status|name message] eqn:Hcall;
      cbn [FetchRetry.thrown from_option id]; intros [= <- <-];
      (split; [lia|]); (split; [intros i Hi; lia|]);
      replace (S calls - 1)%nat with calls by lia; rewrite Hcall;
      first [reflexivity | split; [reflexivity | intros _; lia]].
  - destruct (network calls) as [[|] status|name message] eqn:Hcall;
      cbn [FetchRetry.thrown from_option id].
    + intros [= <- <-]. split; [lia|]. split; [intros i Hi; lia|].
      replace (S calls - 1)%nat with calls by lia. by rewrite Hcall.
    + cbn [String.eqb Ascii.eqb Bool.eqb orb]. intros [= <- <-].
      split; [lia|]. split; [intros i Hi; lia|].
      replace (S calls - 1)%nat with calls by lia. by rewrite Hcall.
    + destruct (String.eqb name "NetworkError" || String.eqb name "TypeError")%bool
        eqn:Hretry.
      * intros Hrun. destruct (IH _ Hrun) as (Hbound & Hearlier & Hlast).
        split; [lia|]. split.
        -- intros i Hi. destruct (decide (i = calls)) as [->|Hne].
           ++ exists name, message. split; [exact Hcall|].
              apply orb_true_iff in Hretry as [H|H]; apply String.eqb_eq in H; tauto.
           ++ apply Hearlier. lia.
        -- destruct (network (total - 1)%nat) as [[|] status|name' message'];
             [exact Hlast | exact Hlast|].
           destruct Hlast as [-> Hall]. split; [reflexivity|].
           intros Hn. rewrite (Hall Hn). lia.
      * intros [= <- <-]. split; [lia|]. split; [intros i Hi; lia|].
        replace (S calls - 1)%nat with calls by lia. rewrite Hcall.
        split; [reflexivity|]. intros [-> | ->]; discriminate.
Qed.

Lemma fetchWithRetry_last_call_decides_witness :
  FetchRetry.fetchWithRetry
    (fun i => match i with
              | O => FetchRetry.Rejects "TypeError" "Failed to fetch"
              | _ => FetchRetry.Responds false 503
              end) 0 3
  = (FetchRetry.Threw "Error" "HTTP error! status: 503", 2%nat).
Proof.
  pose (network := fun i : nat =>
                     match i with
                     | O => FetchRetry.Rejects "TypeError" "Failed to fetch"
                     | _ => FetchRetry.Responds false 503
                     end).
  destruct (FetchRetry.fetchWithRetry network 0 3) as [res total] eqn:Hrun.
  destruct (fetchWithRetry_last_call_decides network 0 3 total res Hrun)
    as (_ & _ & _).
  vm_compute in Hrun. injection Hrun as <- <-. reflexivity.
Defined.

(** ** Rate limit *)

(** X14. After a call of [checkRateLimit] that went through at time
    [first], a call for the same endpoint at time [second] throws, and
    leaves the stored time untouched, exactly when fewer than 1000
    milliseconds have passed; otherwise it goes through and stores
    [second].  A call for another endpoint is not affected. *)
Theorem rate_limit_window (first second : Z) (endpoint : string)
  (storage storage1 : gmap string string) :
  RateLimit.checkRateLimit first endpoint storage = (Async.ret true, storage1) ->
  (second - first < 1000 ->
   RateLimit.checkRateLimit second endpoint storage1
   = (Async.throw (Async.Error "Too many requests. Please wait a moment and try again."),
      storage1))
  /\ (1000 <= second - first ->
      RateLimit.checkRateLimit second endpoint storage1
      = (Async.ret true, <[ ("rate_limit_" ++ endpoint)%string := pretty second ]> storage1))
  /\ forall other,
       other <> endpoint ->
       (RateLimit.checkRateLimit second other storage1).1
       = (RateLimit.checkRateLimit second other storage).1.
Proof.
  unfold RateLimit.checkRateLimit at 1. cbv zeta.
  destruct (match storage !! _ with Some _ => _ | None => _ end);
    [intros [= ?]|]. intros [= <-].
  split; [|split].
  - intros Hsoon. unfold RateLimit.checkRateLimit. cbv zeta.
    rewrite lookup_insert_eq, pretty_truthy, parseInt_pretty.
    by rewrite (proj2 (Z.ltb_lt _ _) Hsoon).
  - intros Hlate. unfold RateLimit.checkRateLimit. cbv zeta.
    rewrite lookup_insert_eq, pretty_truthy, parseInt_pretty.
    by rewrite (proj2 (Z.ltb_ge _ _) Hlate).
  - intros other Hother. unfold RateLimit.checkRateLimit. cbv zeta.
    rewrite lookup_insert_ne.
    { destruct (storage !! _) as [text|]; [|reflexivity].
      by destruct (JS.truthy text && _)%bool. }
    intros Heq. apply Hother. by injection Heq.
Qed.

Lemma rate_limit_window_witness :
  RateLimit.checkRateLimit 1704067200999 "sync"
    {[ "rate_limit_sync" := "1704067200000" ]}
  = (Async.throw (Async.Error "Too many requests. Please wait a moment and try again."),
     {[ "rate_limit_sync" := "1704067200000" ]})
  /\ (RateLimit.checkRateLimit 1704067201000 "sync"
        {[ "rate_limit_sync" := "1704067200000" ]}).1
     = Async.ret true.
Proof.
  destruct (rate_limit_window 1704067200000 1704067200999 "sync" ∅
              {[ "rate_limit_sync" := "1704067200000" ]}) as (Hsoon & _ & _).
  { vm_compute. reflexivity. }
  destruct (rate_limit_window 1704067200000 1704067201000 "sync" ∅
              {[ "rate_limit_sync" := "1704067200000" ]}) as (_ & Hlate & _).
  { vm_compute. reflexivity. }
  split; [apply Hsoon; lia | rewrite Hlate by lia; reflexivity].
Defined.

(** ** Input checks *)

Example sanitizeInput_markup :
  Security.sanitizeInput "  <img src=x onerror = alert(1)> bob " = "img src=x  alert(1) bob".
Proof. vm_compute. reflexivity. Qed.

(** Removing [javascript:] once can put a new [javascript:] together. *)
Example sanitizeInput_not_idempotent :
  Security.sanitizeInput "javajavascript:script:alert(1)" = "javascript:alert(1)".
Proof. vm_compute. reflexivity. Qed.

Example validateUsername_strips :
  Security.validateUsername "<bob_99>" = Async.ret "bob_99".
Proof. vm_compute. reflexivity. Qed.

Section Sanitize.

Lemma sublist_rev {A} (l k : list A) : sublist l k -> sublist (rev l) (rev k).
Proof.
  induction 1 as [|x l k _ IH|x l k _ IH]; cbn [rev].
  - constructor.
  - by apply sublist_app.
  - by apply sublist_inserts_r.
Qed.

Lemma chars_of_list (l : list ascii) :
  list_ascii_of_string (string_of_list_ascii l) = l.
Proof. apply list_ascii_of_string_of_list_ascii. Qed.

Lemma trimStart_sublist (s : string) :
  sublist (list_ascii_of_string (JS.trimStart s)) (list_ascii_of_string s).
Proof.
  induction s as [|c s IH]; [constructor|]. cbn [JS.trimStart].
  destruct (JS.isWhiteSpace c); [|reflexivity].
  cbn [list_ascii_of_string]. by apply sublist_cons.
Qed.

Lemma trimStart_head (s : string) (c : ascii) (r : string) :
  JS.trimStart s = String c r -> JS.isWhiteSpace c = false.
Proof.
  induction s as [|a s IH]; [discriminate|]. cbn [JS.trimStart].
  destruct (JS.isWhiteSpace a) eqn:Ha; [exact IH|]. by intros [= <- _].
Qed.

Lemma trimStart_snoc (l : list ascii) (c : ascii) :
  JS.isWhiteSpace c = false ->
  exists pre,
    list_ascii_of_string (JS.trimStart (string_of_list_ascii (l ++ [c])%list))
    = (pre ++ [c])%list.
Proof.
  intros Hc. induction l as [|a l IH].
  - exists []. cbn. by rewrite Hc.
  - cbn [app string_of_list_ascii JS.trimStart].
    destruct (JS.isWhiteSpace a); [exact IH|].
    exists (a :: l). cbn [list_ascii_of_string]. by rewrite chars_of_list.
Qed.

Lemma trimEnd_sublist (s : string) :
  sublist (list_ascii_of_string (JS.trimEnd s)) (list_ascii_of_string s).
Proof.
  unfold JS.trimEnd, JS.rev_string. rewrite chars_of_list.
  rewrite <- (rev_involutive (list_ascii_of_string s)) at 2.
  apply sublist_rev.
  etrans; [apply trimStart_sublist|]. by rewrite chars_of_list.
Qed.

Lemma trim_sublist (s : string) :
  sublist (list_ascii_of_string (JS.trim s)) (list_ascii_of_string s).
Proof.
  unfold JS.trim. etrans; [apply trimEnd_sublist|apply trimStart_sublist].
Qed.

(** A trimmed string neither starts nor ends with white space. *)
Lemma trim_edges (s : string) :
  (forall c, head (list_ascii_of_string (JS.trim s)) = Some c ->
             JS.isWhiteSpace c = false)
  /\ (forall c, last (list_ascii_of_string (JS.trim s)) = Some c ->
                JS.isWhiteSpace c = false).
Proof.
  unfold JS.trim, JS.trimEnd. rewrite chars_rev_string. split.
  - destruct (JS.trimStart s) as [|a r] eqn:Hs; [cbn; discriminate|].
    pose proof (trimStart_head _ _ _ Hs) as Ha.
    unfold JS.rev_string. cbn [list_ascii_of_string rev].
    destruct (trimStart_snoc (rev (list_ascii_of_string r)) a Ha) as (pre & ->).
    rewrite rev_app_distr. cbn. by intros c [= <-].
  - intros c Hc.
    destruct (JS.trimStart (JS.rev_string (JS.trimStart s))) as [|a r] eqn:Hs;
      [cbn in Hc; discriminate|].
    pose proof (trimStart_head _ _ _ Hs) as Ha.
    cbn [list_ascii_of_string rev] in Hc.
    rewrite last_snoc in Hc. by injection Hc as <-.
Qed.

Lemma removeAngles_sublist (s : string) :
  sublist (list_ascii_of_string (Security.removeAngles s))
          (list_ascii_of_string s).
Proof.
  induction s as [|c s IH]; [constructor|]. cbn [Security.removeAngles].
  destruct (_ || _)%bool; cbn [list_ascii_of_string];
    [by apply sublist_cons | by apply sublist_skip].
Qed.

Lemma removeAngles_clean (s : string) :
  Forall (fun c => c <> "<"%char /\ c <> ">"%char)
         (list_ascii_of_string (Security.removeAngles s)).
Proof.
  induction s as [|c s IH]; [constructor|]. cbn [Security.removeAngles].
  destruct (Ascii.eqb_spec c "<"); [exact IH|].
  destruct (Ascii.eqb_spec c ">"); [exact IH|].
  cbn [orb list_ascii_of_string]. by constructor.
Qed.

Lemma removeJavascript_sublist (s : string) (skip : nat) :
  sublist (list_ascii_of_string (Security.removeJavascript skip s))
          (list_ascii_of_string s).
Proof.
  revert skip. induction s as [|c s IH]; intros skip; [constructor|].
  cbn [Security.removeJavascript].
  destruct skip as [|k]; [|cbn [list_ascii_of_string]; by apply sublist_cons].
  destruct (Security.startsWithCI _ _); cbn [list_ascii_of_string];
    [by apply sublist_cons | by apply sublist_skip].
Qed.

Lemma removeHandlers_sublist (s : string) (skip : nat) :
  sublist (list_ascii_of_string (Security.removeHandlers skip s))
          (list_ascii_of_string s).
Proof.
  revert skip. induction s as [|c s IH]; intros skip; [constructor|].
  cbn [Security.removeHandlers].
  destruct skip as [|k]; [|cbn [list_ascii_of_string]; by apply sublist_cons].
  destruct (Security.handlerMatch _); cbn [list_ascii_of_string];
    [by apply sublist_cons | by apply sublist_skip].
Qed.

Lemma allChars_Forall (p : ascii -> bool) (s : string) :
  Security.allChars p s = true
  <-> Forall (fun c => p c = true) (list_ascii_of_string s).
Proof.
  induction s as [|c s IH]; cbn [Security.allChars list_ascii_of_string].
  - split; [constructor|reflexivity].
  - rewrite andb_true_iff, Forall_cons, IH. reflexivity.
Qed.

Lemma lowerChar_username (c : ascii) :
  Security.isUsernameChar c = true ->
  Security.isUsernameChar (JS.lowerChar c) = true.
Proof.
  destruct c as [[] [] [] [] [] [] [] []]; vm_compute; congruence.
Qed.

Lemma startsWithCI_allChars (pat s : string) :
  Security.startsWithCI pat s = true ->
  Security.allChars Security.isUsernameChar s = true ->
  Security.allChars Security.isUsernameChar pat = true.
Proof.
  revert s. induction pat as [|p pat IH]; intros s; [reflexivity|].
  destruct s as [|c s]; [discriminate|].
  cbn [Security.startsWithCI Security.allChars].
  rewrite !andb_true_iff. intros [Hp Hrest] [Hc Hs].
  apply Ascii.eqb_eq in Hp as <-. split; [by apply lowerChar_username|].
  by apply (IH s).
Qed.

Lemma dropChars_allChars (p : ascii -> bool) (n : nat) (s : string) :
  Security.allChars p s = true ->
  Security.allChars p (Security.dropChars n s) = true.
Proof.
  revert s. induction n as [|n IH]; intros s; [by destruct s|].
  destruct s as [|c s]; [done|]. cbn [Security.dropChars Security.allChars].
  rewrite andb_true_iff. intros [_ Hs]. by apply IH.
Qed.

Lemma handlerMatch_username (s : string) :
  Security.allChars Security.isUsernameChar s = true ->
  Security.handlerMatch s = None.
Proof.
  intros Hs. unfold Security.handlerMatch.
  destruct (Security.startsWithCI "on" s); [|reflexivity]. cbv zeta.
  destruct (Security.spanLength _ _) as [|k]; [reflexivity|].
  set (rest := Security.dropChars _ (Security.dropChars _ _)).
  assert (Security.allChars Security.isUsernameChar rest = true) as Hrest
    by (subst rest; do 3 apply dropChars_allChars; exact Hs).
  destruct rest as [|c r]; [reflexivity|].
  cbn [Security.allChars] in Hrest. apply andb_true_iff in Hrest as [Hc _].
  destruct (Ascii.eqb_spec c "="%char) as [->|Hne]; [discriminate Hc|].
  destruct c as [[] [] [] [] [] [] [] []]; try reflexivity; by destruct Hne.
Qed.

Lemma trimStart_username (s : string) :
  Security.allChars Security.isUsernameChar s = true -> JS.trimStart s = s.
Proof.
  destruct s as [|c s]; [reflexivity|]. cbn [Security.allChars JS.trimStart].
  rewrite andb_true_iff. intros [Hc _].
  destruct (JS.isWhiteSpace c) eqn:Hw; [|reflexivity].
  exfalso. revert Hc Hw.
  destruct c as [[] [] [] [] [] [] [] []]; vm_compute; congruence.
Qed.

Lemma rev_string_involutive (s : string) : JS.rev_string (JS.rev_string s) = s.
Proof.
  unfold JS.rev_string.
  by rewrite chars_of_list, rev_involutive, string_of_list_ascii_of_string.
Qed.

(** A string of username characters is left as it is. *)
Lemma sanitizeInput_username (s : string) :
  Security.allChars Security.isUsernameChar s = true ->
  Security.sanitizeInput s = s.
Proof.
  intros Hs. unfold Security.sanitizeInput.
  assert (Security.removeAngles s = s) as ->.
  { induction s as [|c s IH]; [reflexivity|].
    cbn [Security.allChars] in Hs. apply andb_true_iff in Hs as [Hc Hs].
    cbn [Security.removeAngles]. rewrite (IH Hs).
    destruct (Ascii.eqb_spec c "<"%char) as [->|_]; [discriminate Hc|].
    destruct (Ascii.eqb_spec c ">"%char) as [->|_]; [discriminate Hc|].
    reflexivity. }
  assert (Security.removeJavascript 0 s = s) as ->.
  { induction s as [|c s IH]; [reflexivity|].
    cbn [Security.removeJavascript].
    destruct (Security.startsWithCI _ _) eqn:Hstart.
    - by pose proof (startsWithCI_allChars _ _ Hstart Hs).
    - cbn [Security.allChars] in Hs. apply andb_true_iff in Hs as [_ Hs].
      by rewrite (IH Hs). }
  assert (Security.removeHandlers 0 s = s) as ->.
  { induction s as [|c s IH]; [reflexivity|].
    cbn [Security.removeHandlers]. rewrite (handlerMatch_username _ Hs).
    cbn [Security.allChars] in Hs. apply andb_true_iff in Hs as [_ Hs].
    by rewrite (IH Hs). }
  unfold JS.trim, JS.trimEnd. rewrite (trimStart_username _ Hs).
  rewrite trimStart_username; [apply rev_string_involutive|].
  apply allChars_Forall. unfold JS.rev_string. rewrite chars_of_list.
  apply Forall_rev. by apply allChars_Forall.
Qed.

End Sanitize.

(** X15. [sanitizeInput] only deletes characters: its result is a
    subsequence of the input, holds neither [<] nor [>], and neither starts
    nor ends with white space. *)
Theorem sanitizeInput_only_deletes (input : string) :
  let out := list_ascii_of_string (Security.sanitizeInput input) in
  sublist out (list_ascii_of_string input)
  /\ ("<"%char ∉ out) /\ (">"%char ∉ out)
  /\ (forall c, head out = Some c -> JS.isWhiteSpace c = false)
  /\ (forall c, last out = Some c -> JS.isWhiteSpace c = false).
Proof.
  cbv zeta. unfold Security.sanitizeInput.
  set (a := Security.removeAngles input).
  set (j := Security.removeJavascript 0 a).
  set (h := Security.removeHandlers 0 j).
  assert (sublist (list_ascii_of_string (JS.trim h)) (list_ascii_of_string a))
    as Hsub.
  { etrans; [apply trim_sublist|].
    etrans; [apply removeHandlers_sublist|]. apply removeJavascript_sublist. }
  assert (Forall (fun c => c <> "<"%char /\ c <> ">"%char)
                 (list_ascii_of_string (JS.trim h))) as Hclean.
  { pose proof (removeAngles_clean input) as Hall.
    rewrite Forall_forall in Hall. apply Forall_forall. intros c Hc.
    apply Hall. exact (elem_of_sublist _ _ _ Hc Hsub). }
  rewrite Forall_forall in Hclean.
  split; [etrans; [exact Hsub | apply removeAngles_sublist]|].
  split; [intros Hin; by destruct (Hclean _ Hin)|].
  split; [intros Hin; by destruct (Hclean _ Hin)|].
  apply trim_edges.
Qed.

(** X16. A username that [validateUsername] accepts comes back sanitized,
    is 3 to 20 characters long, is made of letters, digits, [_] and [-]
    only, and is accepted unchanged when validated again. *)
Theorem validateUsername_accepted (username s : string) :
  Security.validateUsername username = Async.ret s ->
  s = Security.sanitizeInput username
  /\ 3 <= JS.strlen s <= 20
  /\ Security.allChars Security.isUsernameChar s = true
  /\ Security.validateUsername s = Async.ret s.
Proof.
  unfold Security.validateUsername at 1.
  destruct (negb (JS.truthy username)); [discriminate|]. cbv zeta.
  destruct (JS.strlen _ <? 3) eqn:Hlo; [discriminate|].
  destruct (20 <? JS.strlen _) eqn:Hhi; [discriminate|]. cbn [orb].
  destruct (JS.truthy (Security.sanitizeInput username)) eqn:Ht;
    [|discriminate].
  destruct (Security.allChars _ _) eqn:Hall; [|discriminate].
  cbn [andb negb]. intros [= <-].
  apply Z.ltb_ge in Hlo, Hhi.
  split; [reflexivity|]. split; [lia|]. split; [exact Hall|].
  unfold Security.validateUsername.
  rewrite (sanitizeInput_username _ Hall), Ht, Hall.
  apply Z.ltb_ge in Hlo, Hhi. by rewrite Hlo, Hhi.
Qed.

Lemma validateUsername_accepted_witness :
  Security.validateUsername "<bob_99>" = Async.ret "bob_99"
  /\ Security.validateUsername "bob_99" = Async.ret "bob_99".
Proof.
  split; [reflexivity|].
  by destruct (validateUsername_accepted "<bob_99>" "bob_99" eq_refl)
    as (_ & _ & _ & H).
Defined.

(** ** Streak and totals *)

Section JourneyCounters.

Lemma active_snoc (days : list Z) (today : Z) (d : Journey.data) :
  Journey.active (days ++ [today]) d
  = Journey.updateStreak today (Journey.active days d).
Proof. unfold Journey.active. by rewrite fold_left_app. Qed.

(** What the streak fields say about the days on which [updateStreak] ran. *)
Lemma streak_invariant (days : list Z) :
  let d := Journey.active days Journey.getDefaultData in
  match Journey.lastActiveDate d with
  | None =>
      days = [] /\ Journey.currentStreak d = 0 /\ Journey.bestStreak d = 0
  | Some l =>
      last days = Some l
      /\ 1 <= Journey.currentStreak d <= Journey.bestStreak d
      /\ Journey.bestStreak d <= Z.of_nat (length days)
      /\ (forall i, 0 <= i < Journey.currentStreak d -> l - i ∈ days)
      /\ exists e, forall i, 0 <= i < Journey.bestStreak d -> e - i ∈ days
  end.
Proof.
  induction days as [|today days IH] using rev_ind; [by cbn|].
  cbv zeta in *. rewrite active_snoc.
  set (d := Journey.active days Journey.getDefaultData) in *.
  unfold Journey.updateStreak.
  destruct (Journey.lastActiveDate d) as [l|] eqn:Hlast.
  - destruct IH as (Hl & Hcur & Hlen & Hrun & e & Hbest).
    destruct (Z.eqb_spec l today) as [->|Hne].
    { rewrite Hlast, last_snoc, length_app. cbn [length].
      split; [reflexivity|]. split; [lia|]. split; [lia|].
      split; [intros i Hi; apply elem_of_app; left; by apply Hrun|].
      exists e. intros i Hi. apply elem_of_app. left. by apply Hbest. }
    destruct (Z.eqb_spec l (today - 1)) as [->|Hne'];
      cbn [Journey.setStreak Journey.lastActiveDate Journey.currentStreak
           Journey.bestStreak];
      rewrite last_snoc, length_app; cbn [length];
      (split; [reflexivity|]); (split; [lia|]); (split; [lia|]); split.
    + intros i Hi. apply elem_of_app.
      destruct (decide (i = 0)) as [->|Hi0].
      * right. rewrite Z.sub_0_r. apply list_elem_of_singleton. reflexivity.
      * left. replace (today - i) with (today - 1 - (i - 1)) by lia.
        apply Hrun. lia.
    + destruct (Z.max_spec (Journey.bestStreak d) (Journey.currentStreak d + 1))
        as [[Hlt ->]|[Hge ->]].
      * exists today. intros i Hi. apply elem_of_app.
        destruct (decide (i = 0)) as [->|Hi0].
        -- right. rewrite Z.sub_0_r. apply list_elem_of_singleton. reflexivity.
        -- left. replace (today - i) with (today - 1 - (i - 1)) by lia.
           apply Hrun. lia.
      * exists e. intros i Hi. apply elem_of_app. left. by apply Hbest.
    + intros i Hi. assert (i = 0) as -> by lia. rewrite Z.sub_0_r.
      apply elem_of_app. right. apply list_elem_of_singleton. reflexivity.
    + rewrite Z.max_l by lia.
      exists e. intros i Hi. apply elem_of_app. left. by apply Hbest.
  - destruct IH as (-> & Hcur & Hbest).
    cbn [Journey.setStreak Journey.lastActiveDate Journey.currentStreak
         Journey.bestStreak].
    rewrite Hbest. cbn.
    split; [reflexivity|]. split; [lia|]. split; [lia|].
    split; [|exists today]; intros i Hi; assert (i = 0) as -> by lia;
      rewrite Z.sub_0_r; apply list_elem_of_singleton; reflexivity.
Qed.

Lemma sum_shift {A} (g : A -> Z) (m : gmap string A) (b c : Z) :
  map_fold (fun _ x total => total + g x) (b + c) m
  = map_fold (fun _ x total => total + g x) b m + c.
Proof.
  apply (map_fold_comm_acc (fun _ x total => total + g x) (fun t => t + c)).
  intros. lia.
Qed.

Lemma sum_insert_fresh {A} (g : A -> Z) (m : gmap string A) (b : Z) k v :
  m !! k = None ->
  map_fold (fun _ x total => total + g x) b (<[ k := v ]> m)
  = map_fold (fun _ x total => total + g x) b m + g v.
Proof.
  intros Hk. rewrite map_fold_insert_L; [reflexivity| |exact Hk].
  intros. lia.
Qed.

Lemma sum_insert {A} (g : A -> Z) (m : gmap string A) (b : Z) k v v' :
  m !! k = Some v ->
  map_fold (fun _ x total => total + g x) b (<[ k := v' ]> m)
  = map_fold (fun _ x total => total + g x) b m + g v' - g v.
Proof.
  intros Hk. rewrite <- insert_delete_eq.
  rewrite sum_insert_fresh by apply lookup_delete_eq.
  rewrite (map_fold_delete_L _ b k v m); [lia| |exact Hk].
  intros. lia.
Qed.

Lemma orZero_id (n : Z) : Journey.orZero (Some n) = n.
Proof. unfold Journey.orZero. destruct (Z.eqb_spec n 0); lia. Qed.

Lemma updateStreak_total (today : Z) (d : Journey.data) :
  Journey.getTotalProblemsolved (Journey.updateStreak today d)
  = Journey.getTotalProblemsolved d.
Proof.
  unfold Journey.updateStreak.
  destruct (Journey.lastActiveDate d) as [l|]; [|reflexivity].
  destruct (l =? today); [reflexivity|]. by destruct (l =? today - 1).
Qed.

End JourneyCounters.

(** X17. Starting from the default data, after [updateStreak] has run on
    any sequence of days: [lastActiveDate] is the day of the last run, the
    current streak is at least 1 and at most the best streak, the best
    streak is at most the number of runs, each of the [currentStreak] days
    ending at the last one saw a run, and some [bestStreak] consecutive
    days each saw a run. *)
Theorem streak_counts_consecutive_days (days : list Z) :
  days <> [] ->
  let d := Journey.active days Journey.getDefaultData in
  Journey.lastActiveDate d = last days
  /\ 1 <= Journey.currentStreak d <= Journey.bestStreak d
  /\ Journey.bestStreak d <= Z.of_nat (length days)
  /\ (forall today i, last days = Some today ->
        0 <= i < Journey.currentStreak d -> today - i ∈ days)
  /\ exists e, forall i, 0 <= i < Journey.bestStreak d -> e - i ∈ days.
Proof.
  intros Hne. pose proof (streak_invariant days) as Hinv. cbv zeta in *.
  destruct (Journey.lastActiveDate _) as [l|]; [|by destruct Hinv].
  destruct Hinv as (Hl & Hcur & Hlen & Hrun & Hbest).
  split; [by rewrite Hl|]. split; [exact Hcur|]. split; [exact Hlen|].
  split; [|exact Hbest].
  intros today i Htoday. rewrite Hl in Htoday. injection Htoday as <-.
  apply Hrun.
Qed.

Lemma streak_counts_consecutive_days_witness :
  Journey.currentStreak
    (Journey.active [10; 11; 12; 12; 20; 21] Journey.getDefaultData) = 2
  /\ Journey.bestStreak
       (Journey.active [10; 11; 12; 12; 20; 21] Journey.getDefaultData) = 3
  /\ exists e, forall i, 0 <= i < 3 -> e - i ∈ [10; 11; 12; 12; 20; 21].
Proof.
  split; [reflexivity|]. split; [reflexivity|].
  destruct (streak_counts_consecutive_days [10; 11; 12; 12; 20; 21])
    as (_ & _ & _ & _ & e & He); [discriminate|].
  exists e. exact He.
Defined.

(** X18. A click on one of the four buttons raises the total that
    [getTotalProblemsolved] reports by exactly one when it stores a solved
    problem: a CSES category that exists and is not yet complete, a USACO
    level that holds a number, or the Codeforces problem button.  A click
    on a complete or unknown CSES category, on a USACO level that is
    missing or holds [NaN], or on the contest button leaves the total
    unchanged. *)
Theorem total_counts_stored_problems (today : Z) (c : Journey.click)
  (d : Journey.data) :
  Journey.getTotalProblemsolved (Journey.handle today c d)
  = Journey.getTotalProblemsolved d
    + (if Journey.counted c d then 1 else 0).
Proof.
  destruct c as [category|level| |]; cbn [Journey.handle Journey.counted].
  - unfold Journey.addCSESProblem.
    destruct (Journey.cses d !! category) as [cat|] eqn:Hcat; [|lia].
    destruct (CPJourney.solved cat <? CPJourney.total cat) eqn:Hlt; [|lia].
    rewrite updateStreak_total. unfold CPJourney.addCSESProblem.
    rewrite Hcat, Hlt. unfold Journey.getTotalProblemsolved.
    cbn [Journey.setCses Journey.cses Journey.usaco
         Journey.codeforcesProblemsSolved Journey.revisionProblems
         Journey.iupcProblemsSolved Journey.icpcGymProblems].
    cbv zeta.
    rewrite (sum_insert (fun x => Journey.orZero (Some (CPJourney.solved x)))
               _ _ _ _ _ Hcat).
    cbn [CPJourney.solved]. rewrite !orZero_id.
    replace (map_fold _ 0 (Journey.cses d) + (CPJourney.solved cat + 1)
             - CPJourney.solved cat)
      with (map_fold (fun _ x total =>
                        total + Journey.orZero (Some (CPJourney.solved x)))
                     0 (Journey.cses d) + 1) by lia.
    rewrite (sum_shift Journey.orZero). lia.
  - unfold Journey.addUSACOProblem. rewrite updateStreak_total.
    unfold Journey.getTotalProblemsolved, Journey.increment.
    cbn [Journey.setUsaco Journey.cses Journey.usaco
         Journey.codeforcesProblemsSolved Journey.revisionProblems
         Journey.iupcProblemsSolved Journey.icpcGymProblems].
    cbv zeta.
    destruct (Journey.usaco d !! level) as [[n|]|] eqn:Hlevel.
    + rewrite (sum_insert Journey.orZero _ _ _ _ _ Hlevel), !orZero_id. lia.
    + rewrite (sum_insert Journey.orZero _ _ _ _ _ Hlevel). cbn. lia.
    + destruct (String.eqb level "__proto__"); [lia|].
      rewrite (sum_insert_fresh Journey.orZero _ _ _ _ Hlevel). cbn. lia.
  - unfold Journey.addCodeforcesproblem. rewrite updateStreak_total.
    unfold Journey.getTotalProblemsolved.
    cbn [Journey.setCodeforces Journey.cses Journey.usaco
         Journey.codeforcesProblemsSolved Journey.revisionProblems
         Journey.iupcProblemsSolved Journey.icpcGymProblems].
    lia.
  - unfold Journey.addContest. rewrite updateStreak_total.
    unfold Journey.getTotalProblemsolved.
    cbn [Journey.setCodeforces Journey.cses Journey.usaco
         Journey.codeforcesProblemsSolved Journey.revisionProblems
         Journey.iupcProblemsSolved Journey.icpcGymProblems].
    lia.
Qed.

(** ** Stored CSES progress *)

Section StoredProgress.

Lemma loadProgress_shaped (saved : CSESProgress.storage) :
  CSESProgress.shaped (CSESProgress.construct saved).
Proof.
  intros k. unfold CSESProgress.construct, CSESProgress.loadProgress.
  destruct saved as [progress|]; [|reflexivity].
  rewrite map_lookup_imap.
  destruct (CSESProgress.categories !! k) as [c0|]; [|reflexivity].
  cbn. by destruct (progress !! k).
Qed.

Lemma addProblem_shaped (c : string) (m : gmap string CSESManager.category) :
  CSESProgress.shaped m -> CSESProgress.shaped (CSESManager.addProblem c m).
Proof.
  intros Hm k. unfold CSESManager.addProblem.
  destruct (m !! c) as [cat|] eqn:Hc; [|apply Hm].
  destruct (CSESManager.solved cat <? CSESManager.total cat); [|apply Hm].
  destruct (decide (c = k)) as [->|Hne].
  - rewrite lookup_insert_eq, <- Hm, Hc. reflexivity.
  - rewrite lookup_insert_ne by done. apply Hm.
Qed.

Lemma load_save (m : gmap string CSESManager.category) :
  CSESProgress.shaped m ->
  CSESProgress.construct (Some (CSESProgress.saveProgress m)) = m.
Proof.
  intros Hm. apply map_eq. intros k. specialize (Hm k).
  unfold CSESProgress.construct, CSESProgress.loadProgress,
    CSESProgress.saveProgress.
  rewrite map_lookup_imap, lookup_fmap.
  destruct (m !! k) as [[n t d s]|], (CSESProgress.categories !! k) as [[n0 t0 d0 s0]|];
    cbn in *; try discriminate; [|reflexivity].
  by injection Hm as -> -> ->.
Qed.

Lemma visit_invariant (clicks : list string)
  (st : gmap string CSESManager.category * CSESProgress.storage) :
  CSESProgress.shaped st.1 -> CSESProgress.construct st.2 = st.1 ->
  let st' := fold_left (fun st c => CSESProgress.addProblem c st) clicks st in
  CSESProgress.shaped st'.1 /\ CSESProgress.construct st'.2 = st'.1.
Proof.
  revert st. induction clicks as [|c clicks IH]; intros st Hshape Hload;
    [by split|].
  cbn [fold_left]. apply IH; unfold CSESProgress.addProblem;
    destruct (st.1 !! c) as [cat|]; try done;
    destruct (CSESManager.solved cat <? CSESManager.total cat); try done;
    cbn [fst snd].
  - by apply addProblem_shaped.
  - apply load_save. by apply addProblem_shaped.
Qed.

End StoredProgress.

(** X19. When the item stored as the page opens is absent or holds an
    object of integer counters, then whatever buttons are clicked during
    the visit, a manager built afterwards from the item stored at the end
    has exactly the counters the page had at the end of the visit. *)
Theorem reload_restores_progress (saved : CSESProgress.storage)
  (clicks : list string) :
  let st := CSESProgress.visit saved clicks in
  CSESProgress.construct st.2 = st.1.
Proof.
  cbv zeta. unfold CSESProgress.visit.
  apply (visit_invariant clicks (CSESProgress.construct saved, saved));
    [apply loadProgress_shaped | reflexivity].
Qed.

(** A stored counter above the size of its category is loaded as it is. *)
Example loadProgress_does_not_clamp :
  CSESManager.solved
    <$> CSESProgress.construct (Some {[ "geometry" := 9 ]}) !! "geometry"
  = Some 9.
Proof. vm_compute. reflexivity. Qed.

(** ** The sync routes of the server *)

Section ServerSync.

Lemma orNull_Some (x : option string) (n : string) :
  Server.orNull x = Some n -> x = Some n /\ JS.truthy n = true.
Proof.
  unfold Server.orNull. destruct x as [s|]; [|discriminate].
  destruct (JS.truthy s) eqn:Hs; [|discriminate]. by intros [= <-].
Qed.

(** With a [codeforces] object in the database the update always goes
    through, and gives this record. *)
Lemma mergeAll_returns (u : PlatformAPI.usernames) (r : PlatformAPI.syncResults)
  (j : Server.journeyData) (cf : Server.codeforcesData) :
  Server.j_codeforces j = Some cf ->
  exists j',
    Server.mergeAll u r j = Async.ret j'
    /\ Server.j_lastAutoSync j' = Some (PlatformAPI.r_syncTime r)
    /\ Server.j_cses j'
       = match PlatformAPI.r_cses r with
         | Some res =>
             if PlatformAPI.c_success res
             then Server.Categories (PlatformAPI.c_categories res)
             else Server.j_cses j
         | None => Server.j_cses j
         end
    /\ Server.j_codeforces j'
       = match PlatformAPI.r_codeforces r with
         | Some res =>
             if PlatformAPI.cf_success res
             then Some {| Server.rating := Some (PlatformAPI.cf_rating res);
                          Server.problemsSolved :=
                            Some (PlatformAPI.cf_problemsSolved res);
                          Server.contests := Some (PlatformAPI.cf_contests res) |}
             else Some cf
         | None => Some cf
         end
    /\ Server.status (Some j')
       = {| Server.st_lastAutoSync :=
              Server.orNull (Some (PlatformAPI.r_syncTime r));
            Server.st_cses :=
              match PlatformAPI.r_cses r with
              | Some res =>
                  Server.csesStatus
                    (Some (Server.CsesSyncedAll (PlatformAPI.cses u)
                             (PlatformAPI.c_lastUpdated res)
                             (PlatformAPI.c_success res)
                             (Server.orNull (PlatformAPI.c_error res))))
              | None => Server.st_cses (Server.status (Some j))
              end;
            Server.st_codeforces :=
              match PlatformAPI.r_codeforces r with
              | Some res =>
                  Server.codeforcesStatus
                    (Some (Server.CodeforcesSyncedAll (PlatformAPI.codeforces u)
                             (PlatformAPI.cf_lastUpdated res)
                             (PlatformAPI.cf_success res)
                             (Server.orNull (PlatformAPI.cf_error res))
                             (PlatformAPI.cf_maxRating res)
                             (PlatformAPI.cf_dailySolves res)))
              | None => Server.st_codeforces (Server.status (Some j))
              end;
            Server.st_vjudge :=
              match PlatformAPI.r_vjudge r with
              | Some res =>
                  Server.vjudgeStatus
                    (Some (Server.VJudgeSyncedAll (PlatformAPI.vjudge u)
                             (PlatformAPI.v_lastUpdated res)
                             (PlatformAPI.v_success res)
                             (Server.orNull (PlatformAPI.v_error res))
                             (PlatformAPI.v_totalSolved res)
                             (PlatformAPI.v_dailyActivity res)))
              | None => Server.st_vjudge (Server.status (Some j))
              end |}.
Proof.
  intros Hcf. unfold Server.mergeAll. rewrite Hcf.
  destruct (PlatformAPI.r_codeforces r) as [res|];
    [destruct (PlatformAPI.cf_success res)|];
    cbn [Server.assignCodeforces]; rewrite bind_ret; cbv zeta;
    (eexists; split; [reflexivity|]);
    cbn [Server.j_lastAutoSync Server.j_cses Server.j_codeforces];
    (split; [reflexivity|]); (split; [reflexivity|]); (split; [reflexivity|]);
    unfold Server.status; cbn [mbind option_bind Server.j_platforms
      Server.j_lastAutoSync Server.platformsOrEmpty from_option id
      Server.p_cses Server.p_codeforces Server.p_vjudge];
    f_equal;
    first [by destruct (PlatformAPI.r_cses r) | by destruct (PlatformAPI.r_vjudge r)].
Qed.

Lemma orNull_idem (x : option string) :
  Server.orNull (Server.orNull x) = Server.orNull x.
Proof.
  destruct x as [s|]; [|reflexivity]. cbn.
  destruct (JS.truthy s) eqn:Hs; [|reflexivity]. cbn. by rewrite Hs.
Qed.

End ServerSync.

(** X20. [POST /api/sync/all] never stores the counters of a failed fetch:
    when the database has a [codeforces] object the update goes through,
    [lastAutoSync] becomes the sync time, the stored CSES data is either
    left as it was or is the category table of a profile page that loaded
    for a handle that was given, and the stored Codeforces counters are
    either left as they were or are those of a fetch that reported
    success for a handle that was given. *)
Theorem sync_all_stores_only_successes (w : World.world)
  (u : PlatformAPI.usernames) (r : PlatformAPI.syncResults)
  (j : Server.journeyData) (cf : Server.codeforcesData) :
  PlatformAPI.syncAllPlatforms_returns w u r ->
  Server.j_codeforces j = Some cf ->
  exists j',
    Server.mergeAll u r j = Async.ret j'
    /\ Server.j_lastAutoSync j' = Some (World.now w World.SyncTime)
    /\ (Server.j_cses j' = Server.j_cses j
        \/ exists n doc,
             PlatformAPI.cses u = Some n /\ JS.truthy n = true
             /\ World.getPage w (PlatformAPI.csesUserUrl n) = Async.ret doc
             /\ Server.j_cses j'
                = Server.Categories
                    (Some (PlatformAPI.categorizeSolved
                             (PlatformAPI.scrapeSolved doc))))
    /\ (Server.j_codeforces j' = Some cf
        \/ exists n res,
             PlatformAPI.codeforces u = Some n /\ JS.truthy n = true
             /\ PlatformAPI.fetchCodeforcesProgress w n = Async.Fulfilled res
             /\ PlatformAPI.cf_success res = true
             /\ Server.j_codeforces j'
                = Some {| Server.rating := Some (PlatformAPI.cf_rating res);
                          Server.problemsSolved :=
                            Some (PlatformAPI.cf_problemsSolved res);
                          Server.contests :=
                            Some (PlatformAPI.cf_contests res) |}).
Proof.
  intros Hrun Hcf.
  destruct (mergeAll_returns u r j cf Hcf)
    as (j' & Hmerge & Htime & Hcses & Hcodeforces & _).
  exists j'. split; [exact Hmerge|]. split.
  { rewrite Htime. f_equal. apply (allSettled_syncTime _ _ _ _ Hrun). }
  rewrite Hcses, Hcodeforces. split.
  - pose proof (synced_cses w u r Hrun) as Hentry.
    destruct (Server.orNull (PlatformAPI.cses u)) as [n|] eqn:Hn;
      [|rewrite Hentry; by left].
    apply orNull_Some in Hn as [Hn Ht].
    destruct Hentry as (res & Hfetch & ->).
    destruct (fetchCSESProgress_settles w n)
      as [(doc & Hpage & Hres)|(e & _ & Hres)];
      rewrite Hres in Hfetch; injection Hfetch as <-; cbn;
      [right; by exists n, doc | by left].
  - pose proof (synced_codeforces w u r Hrun) as Hentry.
    destruct (Server.orNull (PlatformAPI.codeforces u)) as [n|] eqn:Hn;
      [|rewrite Hentry; by left].
    apply orNull_Some in Hn as [Hn Ht].
    destruct Hentry as (res & Hfetch & ->).
    destruct (PlatformAPI.cf_success res) eqn:Hsuccess; [|by left].
    right. by exists n, res.
Qed.

Lemma sync_all_stores_only_successes_witness :
  exists j',
    Server.mergeAll Scenario.allHandles
      (fold_left (PlatformAPI.settle Scenario.offline)
         (PlatformAPI.promises Scenario.allHandles)
         (PlatformAPI.initialResults Scenario.offline))
      Scenario.journeyFile
    = Async.ret j'
    /\ Server.j_lastAutoSync j' = Some "2024-01-04T00:00:00.000Z".
Proof.
  destruct (sync_all_stores_only_successes Scenario.offline Scenario.allHandles
              _ Scenario.journeyFile _
              (allSettled_in_order _ _ _) eq_refl)
    as (j' & Hmerge & Htime & _).
  exists j'. split; [exact Hmerge | exact Htime].
Defined.

(** X21. After [POST /api/sync/all] has written the database,
    [GET /api/sync/status] reports the sync time as [lastAutoSync] and,
    for every platform whose handle was given, that handle, the success
    flag of its fetch, its error message and its time stamp; a platform
    whose handle was missing or empty keeps the status it had. *)
Theorem status_reports_last_sync_all (w : World.world) (stamp : string)
  (u : PlatformAPI.usernames) (r : PlatformAPI.syncResults)
  (sync : PlatformAPI.usernames -> Async.settled PlatformAPI.syncResults)
  (j : Server.journeyData) (cf : Server.codeforcesData) :
  sync u = Async.Fulfilled r ->
  PlatformAPI.syncAllPlatforms_returns w u r ->
  Server.j_codeforces j = Some cf ->
  let out := Server.syncAll stamp true (Some u) sync (Some j) in
  let s := Server.status out.2 in
  let before := Server.status (Some j) in
  out.1 = Server.Ok r
  /\ Server.st_lastAutoSync s = Server.orNull (Some (World.now w World.SyncTime))
  /\ match Server.orNull (PlatformAPI.cses u) with
     | Some n =>
         exists res,
           PlatformAPI.fetchCSESProgress w n = Async.Fulfilled res
           /\ Server.st_cses s
              = {| Server.configured := true; Server.s_username := Some n;
                   Server.s_lastSync :=
                     Server.orNull (PlatformAPI.c_lastUpdated res);
                   Server.s_success := PlatformAPI.c_success res;
                   Server.s_error := Server.orNull (PlatformAPI.c_error res) |}
     | None => Server.st_cses s = Server.st_cses before
     end
  /\ match Server.orNull (PlatformAPI.codeforces u) with
     | Some n =>
         exists res,
           PlatformAPI.fetchCodeforcesProgress w n = Async.Fulfilled res
           /\ Server.st_codeforces s
              = {| Server.configured := true; Server.s_username := Some n;
                   Server.s_lastSync :=
                     Server.orNull (PlatformAPI.cf_lastUpdated res);
                   Server.s_success := PlatformAPI.cf_success res;
                   Server.s_error := Server.orNull (PlatformAPI.cf_error res) |}
     | None => Server.st_codeforces s = Server.st_codeforces before
     end
  /\ match Server.orNull (PlatformAPI.vjudge u) with
     | Some n =>
         exists res,
           PlatformAPI.fetchVJudgeProgress w n = Async.Fulfilled res
           /\ Server.st_vjudge s
              = {| Server.configured := true; Server.s_username := Some n;
                   Server.s_lastSync :=
                     Server.orNull (PlatformAPI.v_lastUpdated res);
                   Server.s_success := PlatformAPI.v_success res;
                   Server.s_error := Server.orNull (PlatformAPI.v_error res) |}
     | None => Server.st_vjudge s = Server.st_vjudge before
     end.
Proof.
  intros Hsync Hrun Hcf. cbv zeta. unfold Server.syncAll. rewrite Hsync.
  destruct (mergeAll_returns u r j cf Hcf)
    as (j' & Hmerge & _ & _ & _ & Hstatus).
  rewrite Hmerge. unfold Async.ret. cbn [fst snd Server.writeDatabase].
  split; [reflexivity|].
  assert (Server.status
            (Some {| Server.j_cses := Server.j_cses j';
                     Server.j_codeforces := Server.j_codeforces j';
                     Server.j_platforms := Server.j_platforms j';
                     Server.j_lastActiveDate := Server.j_lastActiveDate j';
                     Server.j_lastAutoSync := Server.j_lastAutoSync j';
                     Server.j_lastUpdated := Some stamp |})
          = Server.status (Some j')) as -> by reflexivity.
  rewrite Hstatus.
  cbn [Server.st_lastAutoSync Server.st_cses Server.st_codeforces
       Server.st_vjudge].
  split.
  { by rewrite (allSettled_syncTime _ _ _ _ Hrun). }
  split; [|split].
  - pose proof (synced_cses w u r Hrun) as Hentry.
    destruct (Server.orNull (PlatformAPI.cses u)) as [n|] eqn:Hn;
      [|by rewrite Hentry].
    destruct Hentry as (res & Hfetch & ->). exists res.
    split; [exact Hfetch|]. cbn [Server.csesStatus]. rewrite Hn, orNull_idem.
    apply orNull_Some in Hn as [-> Ht]. cbn [from_option id]. by rewrite Ht.
  - pose proof (synced_codeforces w u r Hrun) as Hentry.
    destruct (Server.orNull (PlatformAPI.codeforces u)) as [n|] eqn:Hn;
      [|by rewrite Hentry].
    destruct Hentry as (res & Hfetch & ->). exists res.
    split; [exact Hfetch|]. cbn [Server.codeforcesStatus].
    rewrite Hn, orNull_idem.
    apply orNull_Some in Hn as [-> Ht]. cbn [from_option id]. by rewrite Ht.
  - pose proof (synced_vjudge w u r Hrun) as Hentry.
    destruct (Server.orNull (PlatformAPI.vjudge u)) as [n|] eqn:Hn;
      [|by rewrite Hentry].
    destruct Hentry as (res & Hfetch & ->). exists res.
    split; [exact Hfetch|]. cbn [Server.vjudgeStatus]. rewrite Hn, orNull_idem.
    apply orNull_Some in Hn as [-> Ht]. cbn [from_option id]. by rewrite Ht.
Qed.

Lemma status_reports_last_sync_all_witness :
  Server.s_success
    (Server.st_codeforces
       (Server.status
          (Server.syncAll "2024-01-04T00:00:02.000Z" true
             (Some Scenario.allHandles)
             (fun u => PlatformAPI.syncAllPlatforms Scenario.offline
                         (PlatformAPI.Handles u))
             (Some Scenario.journeyFile)).2))
  = false
  /\ (Server.syncAll "2024-01-04T00:00:02.000Z" true
        (Some Scenario.allHandles)
        (fun u => PlatformAPI.syncAllPlatforms Scenario.offline
                         (PlatformAPI.Handles u))
        (Some Scenario.journeyFile)).1
     = Server.Ok
         (fold_left (PlatformAPI.settle Scenario.offline)
            (PlatformAPI.promises Scenario.allHandles)
            (PlatformAPI.initialResults Scenario.offline)).
Proof.
  split; [vm_compute; reflexivity|].
  by destruct (status_reports_last_sync_all Scenario.offline
                 "2024-01-04T00:00:02.000Z" Scenario.allHandles _
                 (fun u => PlatformAPI.syncAllPlatforms Scenario.offline
                         (PlatformAPI.Handles u))
                 Scenario.journeyFile _
                 eq_refl (allSettled_in_order _ _ _) eq_refl) as (Hok & _).
Defined.

(** ** Accounts *)

Section Accounts.

Lemma find_snoc {A} (p : A -> bool) (l : list A) (x : A) :
  find p l = None -> find p (l ++ [x])%list = if p x then Some x else None.
Proof.
  induction l as [|a l IH]; [reflexivity|]. cbn [find app].
  destruct (p a); [discriminate|]. exact IH.
Qed.

Lemma find_None_Forall {A} (p : A -> bool) (l : list A) :
  find p l = None <-> Forall (fun a => p a = false) l.
Proof.
  induction l as [|a l IH]; cbn [find].
  - split; [constructor|reflexivity].
  - rewrite Forall_cons. destruct (p a); [|tauto].
    split; [discriminate | intros [? _]; discriminate].
Qed.

Lemma missing_false (x : option string) :
  AuthManager.missing x = false ->
  x = Some (default "" x) /\ JS.truthy (default "" x) = true.
Proof.
  unfold AuthManager.missing. destruct x as [s|]; [|discriminate].
  cbn. by destruct (JS.truthy s).
Qed.

(** The cases of [registerUser]. *)
Lemma registerUser_cases (e : AuthManager.env) (readable : bool)
  (d : AuthManager.userData) (file : list AuthManager.user) :
  (exists error,
      AuthManager.registerUser e readable d file
      = (AuthManager.NotRegistered error, file))
  \/ exists name mail pass nu,
       AuthManager.ud_username d = Some name
       /\ AuthManager.ud_email d = Some mail
       /\ AuthManager.ud_password d = Some pass
       /\ JS.truthy name = true /\ JS.truthy mail = true
       /\ Forall (fun u => AuthManager.username u <> name
                           /\ AuthManager.email u <> mail)
            (AuthManager.readUsers readable file)
       /\ AuthManager.registerUser e readable d file
          = (AuthManager.Registered "User registered successfully"
               (AuthManager.sanitizeUser nu) (AuthManager.generateToken e nu),
             (AuthManager.readUsers readable file ++ [nu])%list)
       /\ AuthManager.username nu = name /\ AuthManager.email nu = mail
       /\ AuthManager.password nu = AuthManager.hash e pass
       /\ AuthManager.id nu = pretty (AuthManager.nowMs e)
       /\ AuthManager.isActive nu = true
       /\ AuthManager.disk e = true.
Proof.
  unfold AuthManager.registerUser.
  destruct (AuthManager.missing (AuthManager.ud_username d)) eqn:Hn;
    [left; by eexists|].
  destruct (AuthManager.missing (AuthManager.ud_email d)) eqn:Hm;
    [left; by eexists|].
  destruct (AuthManager.missing (AuthManager.ud_password d)) eqn:Hp;
    [left; by eexists|].
  cbn [orb]. cbv zeta.
  apply missing_false in Hn as [Hn Hnt], Hm as [Hm Hmt], Hp as [Hp _].
  destruct (find _ (AuthManager.readUsers readable file)) eqn:Hfind;
    [left; by eexists|].
  unfold AuthManager.writeUsers.
  destruct (AuthManager.disk e) eqn:Hdisk; [|left; by eexists].
  right. eexists _, _, _, _.
  split; [exact Hn|]. split; [exact Hm|]. split; [exact Hp|].
  split; [exact Hnt|]. split; [exact Hmt|]. split.
  { apply find_None_Forall in Hfind. eapply Forall_impl; [exact Hfind|].
    cbn beta. intros u Hu. apply orb_false_iff in Hu as [Hu1 Hu2].
    by apply String.eqb_neq in Hu1, Hu2. }
  split; [reflexivity|].
  cbn [AuthManager.username AuthManager.email AuthManager.password
       AuthManager.id AuthManager.isActive].
  do 5 (split; [reflexivity|]). reflexivity.
Qed.

End Accounts.

Lemma readUsers_NoDup {A} `{EqDecision A} (f : AuthManager.user -> A)
  (readable : bool) (file : list AuthManager.user) :
  NoDup (f <$> file) -> NoDup (f <$> AuthManager.readUsers readable file).
Proof. destruct readable; [done | intros _; constructor]. Qed.

(** X22. [registerUser] keeps user names and e-mail addresses unique: if no
    two users of the file share a user name and no two share an e-mail
    address, the same holds of the file after any registration request,
    whether or not the file could be read.  A request that is refused
    leaves the file as it was.  One that is accepted writes the users that
    were read followed by exactly one new user, who has the name and the
    address of the request, which no user that was read has; when the file
    could not be read, no user was read and the new user is alone in the
    file. *)
Theorem register_keeps_names_unique (e : AuthManager.env) (readable : bool)
  (d : AuthManager.userData) (file : list AuthManager.user) :
  NoDup (AuthManager.username <$> file) ->
  NoDup (AuthManager.email <$> file) ->
  let out := AuthManager.registerUser e readable d file in
  NoDup (AuthManager.username <$> out.2)
  /\ NoDup (AuthManager.email <$> out.2)
  /\ match out.1 with
     | AuthManager.Registered _ u _ =>
         exists nu, out.2 = (AuthManager.readUsers readable file ++ [nu])%list
                    /\ u = AuthManager.sanitizeUser nu
                    /\ AuthManager.ud_username d = Some (AuthManager.username nu)
                    /\ AuthManager.ud_email d = Some (AuthManager.email nu)
                    /\ Forall (fun old =>
                                 AuthManager.username old <> AuthManager.username nu
                                 /\ AuthManager.email old <> AuthManager.email nu)
                              (AuthManager.readUsers readable file)
                    /\ (readable = false -> out.2 = [nu])
     | AuthManager.NotRegistered _ => out.2 = file
     end.
Proof.
  intros Hnames Hmails. cbv zeta.
  destruct (registerUser_cases e readable d file)
    as [[error ->]
       |(name & mail & pass & nu & Hn & Hm & _ & _ & _ & Hfresh & -> & Hnu
         & Hmu & _)]; cbn [fst snd]; [done|].
  pose proof Hfresh as Hfresh'. rewrite Forall_forall in Hfresh.
  rewrite !fmap_app. cbn [fmap list_fmap]. split; [|split].
  - apply NoDup_app. split; [by apply readUsers_NoDup|].
    split; [|apply NoDup_singleton].
    intros x Hx Hx'. apply list_elem_of_singleton in Hx' as ->.
    apply list_elem_of_fmap in Hx as (u & Hu & Hin).
    destruct (Hfresh u Hin) as [Hne _]. congruence.
  - apply NoDup_app. split; [by apply readUsers_NoDup|].
    split; [|apply NoDup_singleton].
    intros x Hx Hx'. apply list_elem_of_singleton in Hx' as ->.
    apply list_elem_of_fmap in Hx as (u & Hu & Hin).
    destruct (Hfresh u Hin) as [_ Hne]. congruence.
  - exists nu. rewrite Hnu, Hmu. do 4 (split; [done|]).
    split; [exact Hfresh' | by intros ->].
Qed.

Lemma register_keeps_names_unique_witness :
  NoDup (AuthManager.username
           <$> (AuthManager.registerUser Scenario.plainEnv true
                  (Scenario.registration "bob" "bob@example.com" "hunter2")
                  Scenario.oneUser).2)
  /\ AuthManager.username
       <$> (AuthManager.registerUser Scenario.plainEnv true
              (Scenario.registration "bob" "bob@example.com" "hunter2")
              Scenario.oneUser).2
     = ["alice"; "bob"]
  /\ (AuthManager.registerUser Scenario.plainEnv true
        (Scenario.registration "alice" "other@example.com" "hunter2")
        Scenario.oneUser).2
     = Scenario.oneUser.
Proof.
  split; [|split; vm_compute; reflexivity].
  assert (NoDup (AuthManager.username <$> Scenario.oneUser)) as Hnames
    by (apply (bool_decide_unpack _); vm_compute; reflexivity).
  assert (NoDup (AuthManager.email <$> Scenario.oneUser)) as Hmails
    by (apply (bool_decide_unpack _); vm_compute; reflexivity).
  by destruct (register_keeps_names_unique Scenario.plainEnv true
                 (Scenario.registration "bob" "bob@example.com" "hunter2")
                 Scenario.oneUser Hnames Hmails) as [H _].
Defined.

(** When the users file cannot be read, an accepted registration replaces
    its content by the new user. *)
Example register_after_failed_read :
  AuthManager.username
    <$> (AuthManager.registerUser Scenario.plainEnv false
           (Scenario.registration "bob" "bob@example.com" "hunter2")
           Scenario.oneUser).2
  = ["bob"].
Proof. vm_compute. reflexivity. Qed.

(** X23. A user who has just been registered can log in with the user name
    and password of the registration, and gets the same account, provided
    [bcrypt.compare] accepts the password against the hash that was stored
    and no user who was already in the file has that user name as e-mail
    address. *)
Theorem login_after_register (e e' : AuthManager.env) (readable : bool)
  (d : AuthManager.userData) (file file' : list AuthManager.user)
  (message token name pass : string) (u : AuthManager.publicUser) :
  AuthManager.registerUser e readable d file
  = (AuthManager.Registered message u token, file') ->
  AuthManager.ud_username d = Some name ->
  AuthManager.ud_password d = Some pass ->
  Forall (fun old => AuthManager.email old <> name) file ->
  AuthManager.compare e' pass (AuthManager.hash e pass) = true ->
  exists u' token' file'',
    AuthManager.loginUser e' (Some name) (Some pass) file'
    = (AuthManager.LoggedIn "Login successful" u' token'
         (AuthManager.pu_platformCredentials u),
       file'')
    /\ AuthManager.pu_id u' = AuthManager.pu_id u
    /\ AuthManager.pu_username u' = name
    /\ AuthManager.pu_email u' = AuthManager.pu_email u
    /\ AuthManager.pu_lastLogin u' = Some (AuthManager.nowIso e').
Proof.
  intros Hreg Hname Hpass Hmail Hcompare.
  destruct (registerUser_cases e readable d file)
    as [[error Herr]
       |(name0 & mail & pass0 & nu & Hn & Hm & Hp & Hnt & _ & Hfresh & Hok
         & Hnu & Hmu & Hpw & _ & Hactive & _)]; [congruence|].
  assert (Forall (fun old => AuthManager.email old <> name)
            (AuthManager.readUsers readable file)) as Hmail'
    by (destruct readable; [exact Hmail | constructor]).
  clear Hmail. rename Hmail' into Hmail.
  rewrite Hok in Hreg. injection Hreg as _ <- _ <-.
  assert (name0 = name) as -> by congruence.
  assert (pass0 = pass) as -> by congruence.
  assert (AuthManager.missing (Some pass) = false) as Hpresent.
  { unfold AuthManager.registerUser in Hok.
    rewrite Hp in Hok. unfold AuthManager.missing in *. cbn in Hok |- *.
    destruct (JS.truthy pass); [reflexivity|].
    rewrite !orb_true_r in Hok. by injection Hok. }
  unfold AuthManager.loginUser, AuthManager.missing.
  cbn [from_option id]. rewrite Hnt. cbn [negb orb].
  unfold AuthManager.missing in Hpresent. cbn [from_option id] in Hpresent.
  rewrite Hpresent. cbv zeta.
  rewrite find_snoc; cycle 1.
  { apply find_None_Forall. rewrite Forall_forall in *. intros old Hold.
    destruct (Hfresh old Hold) as [Hne _]. specialize (Hmail old Hold).
    apply orb_false_iff. split; by apply String.eqb_neq. }
  rewrite Hnu, String.eqb_refl. cbn [orb].
  rewrite Hactive, Hpw, Hcompare. cbn [negb].
  unfold AuthManager.writeUsers.
  destruct (AuthManager.disk e'); (eexists _, _, _; split; [reflexivity|]);
    cbn [AuthManager.sanitizeUser AuthManager.pu_id AuthManager.pu_username
         AuthManager.pu_email AuthManager.pu_lastLogin];
    by rewrite ?Hnu.
Qed.

Lemma login_after_register_witness :
  exists u' token' file'',
    AuthManager.loginUser Scenario.plainEnv (Some "alice") (Some "secret")
      (AuthManager.registerUser Scenario.plainEnv true
         (Scenario.registration "alice" "alice@example.com" "secret") []).2
    = (AuthManager.LoggedIn "Login successful" u' token'
         {| AuthManager.cred_cses := ""; AuthManager.cred_codeforces := "";
            AuthManager.cred_vjudge := "" |},
       file'')
    /\ AuthManager.pu_username u' = "alice".
Proof.
  destruct (login_after_register Scenario.plainEnv Scenario.plainEnv true
              (Scenario.registration "alice" "alice@example.com" "secret")
              [] _ _ _ "alice" "secret" _
              eq_refl eq_refl eq_refl (Forall_nil_2 _) eq_refl)
    as (u' & token' & file'' & Hlogin & _ & Hname & _).
  exists u', token', file''. split; [exact Hlogin | exact Hname].
Defined.

(** When the user name of a new account is the e-mail address of an older
    one, logging in with that name reaches the older account. *)
Example login_reaches_older_account :
  let file1 :=
    (AuthManager.registerUser Scenario.plainEnv true
       (Scenario.registration "alice" "carol@example.com" "secret") []).2 in
  let file2 :=
    (AuthManager.registerUser Scenario.plainEnv true
       (Scenario.registration "carol@example.com" "carol@elsewhere.org" "other")
       file1).2 in
  length file2 = 2%nat
  /\ (AuthManager.loginUser Scenario.plainEnv (Some "carol@example.com")
        (Some "other") file2).1
     = AuthManager.NotLoggedIn "Invalid password"
  /\ exists u token creds,
       (AuthManager.loginUser Scenario.plainEnv (Some "carol@example.com")
          (Some "secret") file2).1
       = AuthManager.LoggedIn "Login successful" u token creds
       /\ AuthManager.pu_username u = "alice".
Proof.
  cbv zeta. split; [vm_compute; reflexivity|].
  split; [vm_compute; reflexivity|].
  eexists _, _, _. split; vm_compute; reflexivity.
Qed.

(** X24. The routes [POST /api/sync/cses] and [POST /api/sync/codeforces],
    called with a handle, answer with the result of the fetch and write
    nothing when the fetch failed.  When it succeeded and the write goes
    through, the database holds the fetched data and the handle, the other
    platform's data is untouched, and [GET /api/sync/status] reports the
    platform as configured but with [success: false], since these routes
    store no success flag. *)
Theorem single_sync_writes_on_success_only (w : World.world) (stamp : string)
  (username : option string) (n : string) (j : Server.journeyData)
  (cf : Server.codeforcesData) :
  Server.orNull username = Some n ->
  Server.j_codeforces j = Some cf ->
  (exists res,
      PlatformAPI.fetchCSESProgress w n = Async.Fulfilled res
      /\ forall disk,
           let out := Server.syncCses w stamp disk username (Some j) in
           out.1 = Server.Ok res
           /\ (PlatformAPI.c_success res = false -> out.2 = Some j)
           /\ (PlatformAPI.c_success res = true -> disk = true ->
               exists j',
                 out.2 = Some j'
                 /\ Server.j_cses j' = Server.Categories (PlatformAPI.c_categories res)
                 /\ Server.j_codeforces j' = Some cf
                 /\ Server.st_cses (Server.status (Some j'))
                    = {| Server.configured := true; Server.s_username := Some n;
                         Server.s_lastSync :=
                           Server.orNull (PlatformAPI.c_lastUpdated res);
                         Server.s_success := false; Server.s_error := None |}))
  /\ (exists res,
         PlatformAPI.fetchCodeforcesProgress w n = Async.Fulfilled res
         /\ forall disk,
              let out := Server.syncCodeforces w stamp disk username (Some j) in
              out.1 = Server.Ok res
              /\ (PlatformAPI.cf_success res = false -> out.2 = Some j)
              /\ (PlatformAPI.cf_success res = true -> disk = true ->
                  exists j',
                    out.2 = Some j'
                    /\ Server.j_cses j' = Server.j_cses j
                    /\ Server.j_codeforces j'
                       = Some {| Server.rating := Some (PlatformAPI.cf_rating res);
                                 Server.problemsSolved :=
                                   Some (PlatformAPI.cf_problemsSolved res);
                                 Server.contests :=
                                   Some (PlatformAPI.cf_contests res) |}
                    /\ Server.st_codeforces (Server.status (Some j'))
                       = {| Server.configured := true; Server.s_username := Some n;
                            Server.s_lastSync :=
                              Server.orNull (PlatformAPI.cf_lastUpdated res);
                            Server.s_success := false; Server.s_error := None |})).
Proof.
  intros Hn Hcf. pose proof (orNull_Some _ _ Hn) as [_ Ht]. split.
  - destruct (fetchCSESProgress_fulfils w n) as [res Hres]. exists res.
    split; [exact Hres|]. intros disk. cbv zeta. unfold Server.syncCses.
    rewrite Hn, Hres.
    destruct (PlatformAPI.c_success res); cbn [fst snd];
      (split; [reflexivity|]); (split; [done|]); [|done].
    intros _ ->. cbn [Server.writeDatabase]. eexists. split; [reflexivity|].
    cbn [Server.j_cses Server.j_codeforces]. split; [reflexivity|].
    split; [exact Hcf|]. cbn. by rewrite Ht.
  - destruct (fetchCodeforcesProgress_fulfils w n) as [res Hres]. exists res.
    split; [exact Hres|]. intros disk. cbv zeta. unfold Server.syncCodeforces.
    rewrite Hn, Hres, Hcf.
    destruct (PlatformAPI.cf_success res); cbn [fst snd Server.assignCodeforces];
      (split; [reflexivity|]); (split; [done|]); [|done].
    intros _ ->. cbn [Server.writeDatabase Async.ret]. eexists.
    split; [reflexivity|].
    cbn [Server.j_cses Server.j_codeforces]. split; [reflexivity|].
    split; [reflexivity|]. cbn. by rewrite Ht.
Qed.

Lemma single_sync_writes_on_success_only_witness :
  exists res,
    PlatformAPI.fetchCSESProgress Scenario.twoSolved "alice" = Async.Fulfilled res
    /\ (Server.syncCses Scenario.twoSolved "2024-01-04T00:00:02.000Z" true
          (Some "alice") (Some Scenario.journeyFile)).1
       = Server.Ok res.
Proof.
  destruct (single_sync_writes_on_success_only Scenario.twoSolved
              "2024-01-04T00:00:02.000Z" (Some "alice") "alice"
              Scenario.journeyFile _ eq_refl eq_refl)
    as [(res & Hres & Hout) _].
  exists res. split; [exact Hres|]. by destruct (Hout true).
Defined.

(** X25. Whatever its outcome, [loginUser] changes nothing in the users
    file but the [lastLogin] of users: ids, user names, e-mail addresses,
    password hashes, credentials, preferences, creation times and activity
    flags stay as they are, in the same order, and a login that is refused
    leaves the file as it was. *)
Theorem login_changes_only_lastLogin (e : AuthManager.env)
  (identifier pass : option string) (file : list AuthManager.user) :
  let out := AuthManager.loginUser e identifier pass file in
  let kept := fun u =>
    (AuthManager.id u, AuthManager.username u, AuthManager.email u,
     AuthManager.password u, AuthManager.platformCredentials u,
     AuthManager.userPreferences u, AuthManager.createdAt u,
     AuthManager.isActive u) in
  kept <$> out.2 = kept <$> file
  /\ forall error, out.1 = AuthManager.NotLoggedIn error -> out.2 = file.
Proof.
  cbv zeta. unfold AuthManager.loginUser.
  destruct (_ || _)%bool; [by split|]. cbv zeta.
  destruct (find _ file) as [u|]; [|by split].
  destruct (negb (AuthManager.isActive u)); [by split|].
  destruct (negb (AuthManager.compare e _ _)); [by split|].
  unfold AuthManager.writeUsers.
  destruct (AuthManager.disk e); cbn [fst snd]; (split; [|done]);
    [|reflexivity].
  generalize (AuthManager.nowIso e). intros stamp.
  induction file as [|a file IH]; [reflexivity|].
  cbn [AuthManager.setLastLogin].
  destruct (_ || _)%bool; rewrite !fmap_cons; [reflexivity|]. by rewrite IH.
Qed.
